(** * Bitrix24 REST client: a shallow embedding of [bitrix24/bitrix24.py]

    The development follows the Python module function by function.

    - Python values are the JSON-like trees of [pyval]; a [dict] is an
      association list in insertion order whose keys are strings (a [str] is
      held as its UTF-8 bytes, whose byte-wise order is the code-point order
      Python's [sorted] uses).  Floats are left out.
    - A raised exception is a value of [exn]; a computation ends in [res]:
      it returns, raises, or exhausts the fuel that bounds the
      self-recursion of [call].
    - [requests.post] and [time.sleep] act on a [world]: the answers of the
      network are a script indexed by the number of requests made so far,
      and every request, pause and flushed batch chunk is appended to a trace.
    - Mutation is threaded explicitly: [prepare_batch] and [call] hand back
      the state in which they leave the object they were given.  Distinct
      request ids are taken to hold distinct list objects.
    - [urlencode] comes from the package [multidimensional_urlencode]: the
      string it returns on a mapping is a parameter of the development, and
      on any other value it raises [TypeError]. *)

From Stdlib Require Import ZArith Lia.
From stdpp Require Import base list sorting strings pretty.

Local Open Scope Z_scope.

(** ** Values *)

#[warnings="-register-all"]
Inductive pyval : Type :=
| PyNone
| PyBool (b : bool)
| PyInt (z : Z)
| PyStr (s : string)
| PyList (l : list pyval)
| PyDict (d : list (string * pyval)).

Abbreviation dict := (list (string * pyval)).

(** ** Exceptions ([exceptions.py] and the builtins the module can raise)

    An exception of [requests] carries the request it was raised for, or
    [None]: [request] is the url of [e.request], if there is one.
    [ConnectTimeout] is a subclass of both [ConnectionError] and [Timeout],
    and not of [ReadTimeout]. *)

Inductive exn : Type :=
| Exception_ (msg : string)
| ValueError_ (msg : string)
| TypeError_
| KeyError_
| IndexError_
| AttributeError_
| ReadTimeout_
| ConnectionError_ (request : option string)
| ConnectTimeout_ (request : option string)
| OtherError_ (name : string)
| AuthenticationFailed_ (result : pyval) (status_code : Z)
| TokenRenewFailed_ (result : pyval) (status_code : Z).

Inductive res (A : Type) : Type :=
| Ret (a : A)
| Raise (e : exn)
| OutOfFuel.

Arguments Ret {A} a.
Arguments Raise {A} e.
Arguments OutOfFuel {A}.

Definition res_bind {A B} (r : res A) (k : A -> res B) : res B :=
  match r with
  | Ret a => k a
  | Raise e => Raise e
  | OutOfFuel => OutOfFuel
  end.

Notation "x <-? r ; k" := (res_bind r (fun x => k))
  (at level 100, r at next level, right associativity).

Definition raises {A} (r : res A) : Prop := exists e, r = Raise e.

(** ** Builtins on values *)

(** [bool(v)], as used by [not v] and [if v]. *)
Definition truthy (v : pyval) : bool :=
  match v with
  | PyNone => false
  | PyBool b => b
  | PyInt z => negb (z =? 0)
  | PyStr s => negb (String.eqb s "")
  | PyList l => match l with [] => false | _ => true end
  | PyDict d => match d with [] => false | _ => true end
  end.

(** [v == s] for a string literal [s]. *)
Definition py_eq_str (v : pyval) (s : string) : bool :=
  match v with
  | PyStr t => String.eqb t s
  | _ => false
  end.

(** [isinstance(v, str)]. *)
Definition is_str (v : pyval) : bool :=
  match v with PyStr _ => true | _ => false end.

(** [s in t] on strings: [s] occurs in [t] as a substring. *)
Fixpoint str_contains (s t : string) : bool :=
  String.prefix s t ||
  match t with
  | EmptyString => false
  | String _ t' => str_contains s t'
  end.

(** [len(v)]. *)
Definition py_len (v : pyval) : res nat :=
  match v with
  | PyStr s => Ret (String.length s)
  | PyList l => Ret (length l)
  | PyDict d => Ret (length d)
  | _ => Raise TypeError_
  end.

(** ** Dictionaries *)

Fixpoint dict_get (d : dict) (k : string) : option pyval :=
  match d with
  | [] => None
  | (k', v) :: d' => if String.eqb k' k then Some v else dict_get d' k
  end.

Definition dict_mem (k : string) (d : dict) : bool :=
  match dict_get d k with Some _ => true | None => false end.

(** [d[k] = v]: an existing key keeps its position, a new key goes last. *)
Fixpoint dict_set (d : dict) (k : string) (v : pyval) : dict :=
  match d with
  | [] => [(k, v)]
  | (k', v') :: d' =>
      if String.eqb k' k then (k', v) :: d' else (k', v') :: dict_set d' k v
  end.

Definition dict_keys (d : dict) : list string := d.*1.

(** [z.update(y)]. *)
Definition dict_update (z y : dict) : dict :=
  fold_left (fun acc kv => dict_set acc kv.1 kv.2) y z.

(** A Python dict holds each key once. *)
Definition dict_wf (d : dict) : Prop := NoDup (dict_keys d).

(** [sorted(...)] on strings. *)
Definition sorted (l : list string) : list string := merge_sort String.le l.

(** [v[k]] for the value shapes the module subscripts. *)
Definition list_index (n : nat) (z : Z) : option nat :=
  if (0 <=? z) && (z <? Z.of_nat n) then Some (Z.to_nat z)
  else if (z <? 0) && (- Z.of_nat n <=? z) then Some (Z.to_nat (Z.of_nat n + z))
  else None.

Definition py_getitem (c k : pyval) : res pyval :=
  match c with
  | PyDict d =>
      match k with
      | PyStr s => match dict_get d s with Some v => Ret v | None => Raise KeyError_ end
      | PyList _ | PyDict _ => Raise TypeError_
      | _ => Raise KeyError_
      end
  | PyList l =>
      match k with
      | PyInt z =>
          match list_index (length l) z with
          | Some i => match l !! i with Some v => Ret v | None => Raise IndexError_ end
          | None => Raise IndexError_
          end
      | PyBool b =>
          match l !! (if b then 1%nat else 0%nat) with
          | Some v => Ret v
          | None => Raise IndexError_
          end
      | _ => Raise TypeError_
      end
  | PyStr s =>
      match k with
      | PyInt z =>
          match list_index (String.length s) z with
          | Some i =>
              match String.get i s with
              | Some a => Ret (PyStr (String a EmptyString))
              | None => Raise IndexError_
              end
          | None => Raise IndexError_
          end
      | PyBool b =>
          match String.get (if b then 1%nat else 0%nat) s with
          | Some a => Ret (PyStr (String a EmptyString))
          | None => Raise IndexError_
          end
      | _ => Raise TypeError_
      end
  | _ => Raise TypeError_
  end.

(** [k in c] for a string literal [k]. *)
Definition py_contains_str (k : string) (c : pyval) : res bool :=
  match c with
  | PyDict d => Ret (dict_mem k d)
  | PyList l => Ret (existsb (fun v => py_eq_str v k) l)
  | PyStr s => Ret (str_contains k s)
  | _ => Raise TypeError_
  end.

(** The values a [for] loop draws from [v]. *)
Definition py_iter (v : pyval) : res (list pyval) :=
  match v with
  | PyDict d => Ret (PyStr <$> dict_keys d)
  | PyList l => Ret l
  | PyStr s => Ret ((fun a => PyStr (String a EmptyString)) <$> String.list_ascii_of_string s)
  | _ => Raise TypeError_
  end.

Section Client.

(** What [multidimensional_urlencode.urlencode] returns on a mapping. *)
Variable urlencode : pyval -> string.

(** [multidimensional_urlencode.urlencode] on any value: it starts with
    [if not isinstance(params, dict): raise TypeError]. *)
Definition urlencode_any (params : pyval) : res string :=
  match params with
  | PyDict _ => Ret (urlencode params)
  | _ => Raise TypeError_
  end.

(** ** [prepare_batch] (lines 183-206) *)

(** [for i in params[call_id]: temp += urlencode(i) + '&'] (lines 202-203). *)
Fixpoint encode_params (ps : list pyval) (temp : string) : res string :=
  match ps with
  | [] => Ret temp
  | i :: ps' =>
      e <-? urlencode_any i;
      encode_params ps' (temp +:+ e +:+ "&")
  end.

(** The loop over [sorted(params.keys())]; the first component is the state
    in which the caller's mapping is left. *)
Fixpoint prepare_loop (ids : list string) (params batched_params : dict)
  : dict * res dict :=
  match ids with
  | [] => (params, Ret batched_params)
  | call_id :: ids' =>
      match dict_get params call_id with
      | None => (params, Raise KeyError_)
      | Some (PyList l) =>
          match l with
          | [] => (params, Raise IndexError_)
          | method :: rest =>
              let params' := dict_set params call_id (PyList rest) in
              if py_eq_str method "batch"
              then (params', Raise (Exception_ "Batch call cannot contain batch methods"))
              else
                match encode_params rest "" with
                | Ret temp =>
                    match method with
                    | PyStr m =>
                        prepare_loop ids' params'
                          (dict_set batched_params call_id (PyStr (m +:+ "?" +:+ temp)))
                    | _ => (params', Raise TypeError_)
                    end
                | Raise e => (params', Raise e)
                | OutOfFuel => (params', OutOfFuel)
                end
          end
      | Some _ => (params, Raise (Exception_ "Invalid 'cmd' method description"))
      end
  end.

Definition prepare_batch (params : pyval) : pyval * res dict :=
  match params with
  | PyDict d =>
      let '(d', r) := prepare_loop (sorted (dict_keys d)) d [] in
      (PyDict d', r)
  | _ => (params, Raise (Exception_ "Invalid 'cmd' structure"))
  end.

(** ** [encode_cmd] (lines 208-219)

    Line 217 hands [urlencode] a mapping it has just built, so does [call]
    on lines 82 and 84 (a parameter group is a mapping): there [urlencode]
    cannot raise. *)

Fixpoint encode_cmd_loop (ids : list string) (cmd : dict) (cmd_encoded : string)
  : res string :=
  match ids with
  | [] => Ret cmd_encoded
  | i :: ids' =>
      match dict_get cmd i with
      | None => Raise KeyError_
      | Some v =>
          encode_cmd_loop ids' cmd
            (cmd_encoded +:+ urlencode (PyDict [("cmd", PyDict [(i, v)])]) +:+ "&")
      end
  end.

Definition encode_cmd (cmd : pyval) : res string :=
  match cmd with
  | PyDict d => encode_cmd_loop (sorted (dict_keys d)) d ""
  | _ => Raise AttributeError_
  end.

(** ** [merge_two_dicts] (lines 251-256) *)

Definition merge_two_dicts (x y : dict) : dict :=
  let z := x in
  dict_update z y.

(** ** The client object (lines 17-49) *)

Record Bitrix24 : Type := mkBitrix24 {
  domain : string;
  access_token : pyval;
  refresh_token : pyval;
  client_id : pyval;
  client_secret : pyval;
  code : pyval;
  oauth_url : string;
  timeout : Z;
  _is_tokens_refreshed : bool
}.

Definition default_oauth_url : string := "https://oauth.bitrix.info/oauth/token/".
Definition default_timeout : Z := 60.

(** [api_url % (domain, method)] with [api_url = '%s/rest/%s.json']. *)
Definition api_url (domain method : string) : string :=
  domain +:+ "/rest/" +:+ method +:+ ".json".

Definition Bitrix24_init (domain : string)
  (access_token refresh_token client_id client_secret code : pyval)
  (custom_oauth_url : option string) : res Bitrix24 :=
  let self :=
    {| domain := domain;
       access_token := access_token;
       refresh_token := refresh_token;
       client_id := client_id;
       client_secret := client_secret;
       code := code;
       oauth_url := match custom_oauth_url with
                    | Some u => u
                    | None => default_oauth_url
                    end;
       timeout := default_timeout;
       _is_tokens_refreshed := false |} in
  if (negb (truthy access_token) && negb (truthy refresh_token))
     && negb (truthy code)
  then Raise (ValueError_ "You should pass auth_token or auth code.")
  else Ret self.

Definition set_access_token (v : pyval) (c : Bitrix24) : Bitrix24 :=
  mkBitrix24 (domain c) v (refresh_token c) (client_id c) (client_secret c)
    (code c) (oauth_url c) (timeout c) (_is_tokens_refreshed c).

Definition set_refresh_token (v : pyval) (c : Bitrix24) : Bitrix24 :=
  mkBitrix24 (domain c) (access_token c) v (client_id c) (client_secret c)
    (code c) (oauth_url c) (timeout c) (_is_tokens_refreshed c).

Definition set_is_tokens_refreshed (b : bool) (c : Bitrix24) : Bitrix24 :=
  mkBitrix24 (domain c) (access_token c) (refresh_token c) (client_id c)
    (client_secret c) (code c) (oauth_url c) (timeout c) b.

(** The [tokens] and [is_tokens_refreshed] properties (lines 172-181). *)
Definition tokens (c : Bitrix24) : dict :=
  [("auth_token", access_token c); ("refresh_token", refresh_token c)].

Definition is_tokens_refreshed (c : Bitrix24) : bool := _is_tokens_refreshed c.

(** ** The network and the trace *)

Record response : Type := mkResponse {
  text : string;
  json : option pyval;   (* [None]: [r.json()] raises [ValueError] *)
  status_code : Z
}.

Inductive post_outcome : Type :=
| Responded (r : response)
| Failed (e : exn).

Inductive event : Type :=
| EvPost (url data : string) (timeout : Z)
| EvOAuth (url : string) (params : dict)
| EvSleep (seconds : Z)
| EvBatchCall (params1 : dict).

Record world : Type := mkWorld {
  self : Bitrix24;
  net : nat -> post_outcome;
  requests : nat;
  trace : list event
}.

Definition set_self (c : Bitrix24) (w : world) : world :=
  mkWorld c (net w) (requests w) (trace w).

Definition log (ev : event) (w : world) : world :=
  mkWorld (self w) (net w) (requests w) (trace w ++ [ev]).

(** [requests.post]: the request is recorded and the next answer of the
    script is consumed. *)
Definition requests_post (ev : event) (w : world) : world * post_outcome :=
  (mkWorld (self w) (net w) (S (requests w)) (trace w ++ [ev]),
   net w (requests w)).

(** [time.sleep]. *)
Definition sleep (seconds : Z) (w : world) : world := log (EvSleep seconds) w.

(** [AuthenticationFailed.__init__] ([exceptions.py], lines 14-20): the
    [result] attribute of an exception built with the keyword argument
    [result]. *)
Definition exn_result (result : pyval) : pyval :=
  match result with
  | PyNone => PyDict []
  | _ => result
  end.

(** ** [authenticate] and [refresh_tokens] (lines 118-170) *)

(** What both do with the answer of the oauth server. *)
Definition store_tokens (failed : pyval -> Z -> exn) (o : post_outcome)
  (w : world) : world * res pyval :=
  match o with
  | Failed e => (w, Raise e)
  | Responded r =>
      match json r with
      | None => (w, Raise (ValueError_ "Expecting value"))
      | Some result =>
          if negb (status_code r =? 200)
          then (w, Raise (failed result (status_code r)))
          else
            match py_getitem result (PyStr "access_token") with
            | Ret a =>
                let w1 := set_self (set_access_token a (self w)) w in
                match py_getitem result (PyStr "refresh_token") with
                | Ret t =>
                    let w2 := set_self (set_refresh_token t (self w1)) w1 in
                    (set_self (set_is_tokens_refreshed true (self w2)) w2,
                     Ret result)
                | Raise e => (w1, Raise e)
                | OutOfFuel => (w1, OutOfFuel)
                end
            | Raise e => (w, Raise e)
            | OutOfFuel => (w, OutOfFuel)
            end
      end
  end.

Definition authenticate (w : world) : world * res pyval :=
  let c := self w in
  let '(w1, o) :=
    requests_post
      (EvOAuth (oauth_url c)
         [("grant_type", PyStr "authorization_code");
          ("client_id", client_id c);
          ("client_secret", client_secret c);
          ("code", code c)]) w in
  store_tokens AuthenticationFailed_ o w1.

Definition refresh_tokens (w : world) : world * res pyval :=
  let c := self w in
  let '(w1, o) :=
    requests_post
      (EvOAuth (oauth_url c)
         [("grant_type", PyStr "refresh_token");
          ("client_id", client_id c);
          ("client_secret", client_secret c);
          ("refresh_token", refresh_token c)]) w in
  store_tokens TokenRenewFailed_ o w1.

(** ** [call] (lines 51-116) *)

(** Lines 62-66. *)
Definition ensure_token (w : world) : world * res pyval :=
  if negb (truthy (access_token (self w))) then
    if truthy (refresh_token (self w)) then refresh_tokens w
    else authenticate w
  else (w, Ret PyNone).

(** Line 68. *)
Definition bad_method (method : pyval) : bool :=
  py_eq_str method "" || negb (is_str method).

(** Lines 71-73; the first component is the state in which the caller's
    first parameter group is left. *)
Definition call_prepare (method : pyval) (params1 : option dict)
  : option dict * res unit :=
  if py_eq_str method "batch" then
    match params1 with
    | None => (None, Raise TypeError_)
    | Some p =>
        if negb (dict_mem "prepared" p) then
          match dict_get p "cmd" with
          | None => (Some p, Raise KeyError_)
          | Some cmd =>
              match prepare_batch cmd with
              | (_, Ret prepared) =>
                  (Some (dict_set (dict_set p "cmd" (PyDict prepared))
                           "prepared" (PyBool true)),
                   Ret tt)
              | (cmd', Raise e) => (Some (dict_set p "cmd" cmd'), Raise e)
              | (cmd', OutOfFuel) => (Some (dict_set p "cmd" cmd'), OutOfFuel)
              end
          end
        else (Some p, Ret tt)
    end
  else (params1, Ret tt).

(** Lines 80-84, for one parameter group. *)
Definition encode_group (i : dict) : res string :=
  match dict_get i "cmd" with
  | Some cmd =>
      c <-? encode_cmd cmd;
      match dict_get i "halt" with
      | Some halt => Ret (c +:+ "&" +:+ urlencode (PyDict [("halt", halt)]) +:+ "&")
      | None => Raise KeyError_
      end
  | None => Ret (urlencode (PyDict i) +:+ "&")
  end.

(** Lines 75-84. *)
Fixpoint encode_groups (groups : list (option dict)) (encoded_parameters : string)
  : res string :=
  match groups with
  | [] => Ret encoded_parameters
  | None :: groups' => encode_groups groups' encoded_parameters
  | Some i :: groups' =>
      e <-? encode_group i;
      encode_groups groups' (encoded_parameters +:+ e)
  end.

Definition error_dict (msg : string) : pyval := PyDict [("error", PyStr msg)].

Definition method_name (method : pyval) : string :=
  match method with PyStr m => m | _ => "" end.

(** Line 106. *)
Definition is_token_error (error_code : pyval) : bool :=
  py_eq_str error_code "invalid_token"
  || py_eq_str error_code "NO_AUTH_FOUND"
  || py_eq_str error_code "expired_token".

(** Line 108: [error_code in 'QUERY_LIMIT_EXCEEDED']. *)
Definition in_query_limit (error_code : pyval) : res bool :=
  match error_code with
  | PyStr s => Ret (str_contains s "QUERY_LIMIT_EXCEEDED")
  | _ => Raise TypeError_
  end.

(** What [call] hands back: the world, the state of the caller's first
    parameter group, and the outcome. *)
Definition call_result : Type := world * option dict * res pyval.

Fixpoint call (fuel : nat) (method : pyval)
  (params1 params2 params3 params4 : option dict) (w : world) : call_result :=
  match fuel with
  | O => (w, params1, OutOfFuel)
  | S fuel' =>
      match ensure_token w with
      | (w1, Raise e) => (w1, params1, Raise e)
      | (w1, OutOfFuel) => (w1, params1, OutOfFuel)
      | (w1, Ret _) =>
          if bad_method method then (w1, params1, Raise (Exception_ "Empty Method"))
          else
            match call_prepare method params1 with
            | (p1, Raise e) => (w1, p1, Raise e)
            | (p1, OutOfFuel) => (w1, p1, OutOfFuel)
            | (p1, Ret _) =>
                match encode_groups
                        [p1; params2; params3; params4;
                         Some [("auth", access_token (self w1))]] "" with
                | Raise e => (w1, p1, Raise e)
                | OutOfFuel => (w1, p1, OutOfFuel)
                | Ret encoded_parameters =>
                    let url := api_url (domain (self w1)) (method_name method) in
                    let '(w2, o) :=
                      requests_post
                        (EvPost url encoded_parameters (timeout (self w1))) w1 in
                    match o with
                    | Responded r =>
                        match json r with
                        | Some result => (w2, p1, Ret result)
                        | None =>
                            (w2, p1,
                             Ret (error_dict
                                    ("Error on decode api response [" +:+ text r +:+ "]")))
                        end
                    | Failed (ValueError_ _) =>
                        (* [r] is still [{}]: it has no [text] *)
                        (w2, p1, Raise AttributeError_)
                    | Failed ReadTimeout_ =>
                        (w2, p1,
                         Ret (error_dict
                                ("Timeout waiting expired ["
                                 +:+ pretty (timeout (self w2)) +:+ " sec]")))
                    | Failed (ConnectionError_ request)
                    | Failed (ConnectTimeout_ request) =>
                        (* line 99, [print(e.request.url)]: what is printed is
                           not recorded, but without a request the attribute
                           access fails *)
                        match request with
                        | Some _ =>
                            (w2, p1, Ret (error_dict "Max retries exceeded [1]"))
                        | None => (w2, p1, Raise AttributeError_)
                        end
                    | Failed (AuthenticationFailed_ result0 _)
                    | Failed (TokenRenewFailed_ result0 _) =>
                        let result := exn_result result0 in
                        match py_contains_str "error" result with
                        | Raise e => (w2, p1, Raise e)
                        | OutOfFuel => (w2, p1, OutOfFuel)
                        | Ret false => (w2, p1, Ret result)
                        | Ret true =>
                            match py_getitem result (PyStr "error") with
                            | Raise e => (w2, p1, Raise e)
                            | OutOfFuel => (w2, p1, OutOfFuel)
                            | Ret error_code =>
                                if is_token_error error_code then
                                  match refresh_tokens w2 with
                                  | (w3, Ret _) =>
                                      call fuel' method p1 params2 params3 params4 w3
                                  | (w3, Raise e) => (w3, p1, Raise e)
                                  | (w3, OutOfFuel) => (w3, p1, OutOfFuel)
                                  end
                                else
                                  match in_query_limit error_code with
                                  | Raise e => (w2, p1, Raise e)
                                  | OutOfFuel => (w2, p1, OutOfFuel)
                                  | Ret true =>
                                      call fuel' method p1 params2 params3 params4
                                        (sleep 2 w2)
                                  | Ret false =>
                                      call fuel' method p1 params2 params3 params4 w2
                                  end
                            end
                        end
                    | Failed e => (w2, p1, Raise e)
                    end
                end
            end
      end
  end.

(** ** [batch] (lines 221-249) *)

(** Lines 231-236. *)
Definition empty_result : dict :=
  [("result_error", PyDict []);
   ("result_total", PyDict []);
   ("result", PyDict []);
   ("result_next", PyDict [])].

(** [merge_two_dicts(x, y)] on values: [x.copy()] then [z.update(y)]; in
    [batch] the second argument is always one of the cumulative dicts. *)
Definition merge_values (x y : pyval) : res pyval :=
  match x, y with
  | PyDict dx, PyDict dy => Ret (PyDict (merge_two_dicts dx dy))
  | PyDict _, _ => Raise TypeError_
  | _, _ => Raise AttributeError_
  end.

(** Lines 245-246 for one [i]; [acc] is [result['result']]. *)
Definition merge_one (temp_result : pyval) (acc : dict) (i : pyval) : res dict :=
  t <-? py_getitem temp_result i;
  n <-? py_len t;
  if (0 <? n)%nat then
    y <-? py_getitem (PyDict acc) i;
    z <-? merge_values t y;
    match i with
    | PyStr k => Ret (dict_set acc k z)
    | _ => Raise TypeError_
    end
  else Ret acc.

Fixpoint merge_loop (temp_result : pyval) (keys : list pyval) (acc : dict)
  : res dict :=
  match keys with
  | [] => Ret acc
  | i :: keys' =>
      acc' <-? merge_one temp_result acc i;
      merge_loop temp_result keys' acc'
  end.

(** Lines 244-246. *)
Definition merge_chunk (temp : pyval) (acc : dict) : res dict :=
  temp_result <-? py_getitem temp (PyStr "result");
  keys <-? py_iter temp_result;
  merge_loop temp_result keys acc.

(** Lines 239-247.  The chunk handed to [call] is recorded in the trace at
    the call site. *)
Fixpoint batch_loop (fuel : nat) (ids : list string) (halt : pyval) (cmd : dict)
  (count : nat) (batch acc : dict) (w : world) : world * res dict :=
  match ids with
  | [] => (w, Ret acc)
  | request_id :: ids' =>
      match dict_get cmd request_id with
      | None => (w, Raise KeyError_)
      | Some v =>
          let batch := dict_set batch request_id v in
          let count := S count in
          if (length batch =? 49)%nat || (count =? length cmd)%nat then
            let params1 := [("halt", halt); ("cmd", PyDict batch)] in
            match call fuel (PyStr "batch") (Some params1) None None None
                    (log (EvBatchCall params1) w) with
            | (w1, _, Ret temp) =>
                match merge_chunk temp acc with
                | Ret acc' => batch_loop fuel ids' halt cmd count [] acc' w1
                | Raise e => (w1, Raise e)
                | OutOfFuel => (w1, OutOfFuel)
                end
            | (w1, _, Raise e) => (w1, Raise e)
            | (w1, _, OutOfFuel) => (w1, OutOfFuel)
            end
          else batch_loop fuel ids' halt cmd count batch acc w
      end
  end.

Definition batch (fuel : nat) (params : dict) (w : world) : world * res pyval :=
  if negb (dict_mem "halt" params) || negb (dict_mem "cmd" params)
  then (w, Ret (error_dict "Invalid batch structure"))
  else
    match dict_get params "halt", dict_get params "cmd" with
    | Some halt, Some (PyDict cmd) =>
        match batch_loop fuel (sorted (dict_keys cmd)) halt cmd 0 [] empty_result w with
        | (w', Ret acc) => (w', Ret (PyDict [("result", PyDict acc)]))
        | (w', Raise e) => (w', Raise e)
        | (w', OutOfFuel) => (w', OutOfFuel)
        end
    | _, _ => (w, Raise AttributeError_)
    end.

End Client.

(** ** Reading the trace *)

(** The chunks [batch] handed to [call], oldest first. *)
Definition batch_calls (t : list event) : list dict :=
  omap (fun ev => match ev with EvBatchCall p => Some p | _ => None end) t.

(** The number of sub-calls of one chunk: the size of its ['cmd'] mapping. *)
Definition chunk_size (params1 : dict) : nat :=
  match dict_get params1 "cmd" with
  | Some (PyDict c) => length c
  | _ => 0%nat
  end.


Definition api_posts (t : list event) : list (string * string) :=
  omap (fun ev => match ev with EvPost u d _ => Some (u, d) | _ => None end) t.

Definition oauth_posts (t : list event) : list dict :=
  omap (fun ev => match ev with EvOAuth _ p => Some p | _ => None end) t.

Definition sleeps (t : list event) : list Z :=
  omap (fun ev => match ev with EvSleep s => Some s | _ => None end) t.

(** A stand-in for the encoder, used to run the client on examples. *)
Fixpoint sample_urlencode (v : pyval) : string :=
  match v with
  | PyNone => "None"
  | PyBool true => "True"
  | PyBool false => "False"
  | PyInt z => pretty z
  | PyStr s => s
  | PyList l =>
      (fix items (l : list pyval) : string :=
         match l with
         | [] => ""
         | x :: l' => sample_urlencode x +:+ "," +:+ items l'
         end) l
  | PyDict d =>
      (fix items (d : dict) : string :=
         match d with
         | [] => ""
         | (k, x) :: d' => k +:+ "=(" +:+ sample_urlencode x +:+ ")" +:+ items d'
         end) d
  end.

(** * Vocabulary of the properties *)

Fixpoint str_concat (l : list string) : string :=
  match l with
  | [] => ""
  | s :: l' => s +:+ str_concat l'
  end.

(** Python's [not v]: the credential is absent ([None], [''], ...). *)
Definition absent (v : pyval) : Prop := truthy v = false.

(** A sub-call description as the data model has it: a list led by a method
    name other than ['batch'], followed by parameter mappings. *)
Definition sub_call (v : pyval) : Prop :=
  exists m ps, v = PyList (PyStr m :: ps) /\ m <> "batch"
               /\ Forall (fun p => exists x, p = PyDict x) ps.

(** A sub-call description named by the validation: not a list, or a list
    led by ['batch']. *)
Definition malformed_entry (v : pyval) : Prop :=
  (forall l, v <> PyList l)
  \/ (exists m l, v = PyList (m :: l) /\ py_eq_str m "batch" = true).

(** The list with its leading element gone. *)
Definition pop_entry (v : pyval) : pyval :=
  match v with
  | PyList (_ :: rest) => PyList rest
  | _ => v
  end.

Definition dict_at (d : dict) (k : string) : pyval := default PyNone (dict_get d k).

Definition map_values (f : pyval -> pyval) (d : dict) : dict :=
  (fun kv => (kv.1, f kv.2)) <$> d.



(** The chunks recorded between two worlds. *)
Definition issued (w w' : world) : list dict :=
  drop (length (batch_calls (trace w))) (batch_calls (trace w')).

(** What one merge step does to the container named [k]. *)
Definition merged (x y : dict) : dict :=
  match x with
  | [] => y
  | _ => merge_two_dicts x y
  end.

(** The world after the one request of a [call] that reached line 91. *)
Definition posted (method : pyval) (body : string) (w1 : world) : world :=
  mkWorld (self w1) (net w1) (S (requests w1))
    (trace w1 ++ [EvPost (api_url (domain (self w1)) (method_name method)) body
                    (timeout (self w1))]).

Section Vocabulary.

Variable urlencode : pyval -> string.

(** What [encode_cmd] appends for request id [i]. *)
Definition cmd_piece (cmd : dict) (i : string) : string :=
  match dict_get cmd i with
  | Some v => urlencode (PyDict [("cmd", PyDict [(i, v)])]) +:+ "&"
  | None => ""
  end.

(** The method name, then ['?'], then each parameter mapping encoded, in
    list order, each followed by ['&']. *)
Definition prepared_entry (v : pyval) : pyval :=
  match v with
  | PyList (PyStr m :: ps) =>
      PyStr (m +:+ "?" +:+ str_concat ((fun p => urlencode p +:+ "&") <$> ps))
  | _ => PyNone
  end.

End Vocabulary.

(** ** Sample inputs *)

Definition sample_client : Bitrix24 :=
  mkBitrix24 "https://example.bitrix24.com" (PyStr "token") (PyStr "") (PyStr "")
    (PyStr "") PyNone default_oauth_url default_timeout false.

(** A network that gives the answers of [l] in turn, then [d] for ever. *)
Definition script (l : list post_outcome) (d : post_outcome) : nat -> post_outcome :=
  fun n => default d (l !! n).

Definition sample_world (net : nat -> post_outcome) : world :=
  mkWorld sample_client net 0 [].

(** A decoded answer with status 200. *)
Definition answer (v : pyval) : post_outcome :=
  Responded (mkResponse "" (Some v) 200).

(** [n] sub-calls of [user.get] under the ids [id1000], [id1001], ... *)
Definition sample_cmd (n : nat) : dict :=
  (fun i => ("id" +:+ pretty (1000 + Z.of_nat i), PyList [PyStr "user.get"]))
    <$> seq 0 n.

(** The container [name] of an aggregate result of [batch]. *)
Definition container (r : res pyval) (name : string) : option pyval :=
  match r with
  | Ret (PyDict top) =>
      match dict_get top "result" with
      | Some (PyDict acc) => dict_get acc name
      | _ => None
      end
  | _ => None
  end.

(** The run of [batch] on colliding answers: fifty sub-calls, so
    two chunks; both answers hold the key ["dup"] in the container
    ['result'], with value 1 in the first answer and 2 in the second. *)
Definition colliding_run : world * res pyval :=
  batch sample_urlencode 1
    [("halt", PyInt 0); ("cmd", PyDict (sample_cmd 50))]
    (sample_world
       (script
          [answer (PyDict [("result", PyDict [("result", PyDict [("dup", PyInt 1)])])])]
          (answer (PyDict [("result", PyDict [("result", PyDict [("dup", PyInt 2)])])])))).

(** An answer of the transport that carries the error code [c] in an
    authentication or token-renewal failure. *)
Definition auth_failure (c : pyval) (o : post_outcome) : Prop :=
  exists result status,
    (o = Failed (AuthenticationFailed_ result status)
     \/ o = Failed (TokenRenewFailed_ result status))
    /\ py_contains_str "error" (exn_result result) = Ret true
    /\ py_getitem (exn_result result) (PyStr "error") = Ret c.

(** ** The oauth exchange *)

(** The parameters [refresh_tokens] sends (lines 153-158). *)
Definition refresh_grant (c : Bitrix24) : dict :=
  [("grant_type", PyStr "refresh_token");
   ("client_id", client_id c);
   ("client_secret", client_secret c);
   ("refresh_token", refresh_token c)].

(** The parameters [authenticate] sends (lines 126-131). *)
Definition code_grant (c : Bitrix24) : dict :=
  [("grant_type", PyStr "authorization_code");
   ("client_id", client_id c);
   ("client_secret", client_secret c);
   ("code", code c)].

(** The world after one request to the oauth server. *)
Definition oauth_posted (grant : dict) (w : world) : world :=
  mkWorld (self w) (net w) (S (requests w))
    (trace w ++ [EvOAuth (oauth_url (self w)) grant]).

(** The client once a new pair of tokens is stored. *)
Definition with_tokens (a t : pyval) (c : Bitrix24) : Bitrix24 :=
  set_is_tokens_refreshed true (set_refresh_token t (set_access_token a c)).

(** The grant [call] asks for when the client holds no access token
    (lines 62-66). *)
Definition first_grant (c : Bitrix24) : dict :=
  if truthy (refresh_token c) then refresh_grant c else code_grant c.

(** A client that holds a refresh token and an authorization code, but no
    access token yet. *)
Definition fresh_client : Bitrix24 :=
  mkBitrix24 "https://example.bitrix24.com" PyNone (PyStr "r0") (PyStr "app")
    (PyStr "secret") (PyStr "c0") default_oauth_url default_timeout false.

Definition fresh_world (net : nat -> post_outcome) : world :=
  mkWorld fresh_client net 0 [].

(** An answer of the oauth server. *)
Definition token_answer (status : Z) (v : pyval) : post_outcome :=
  Responded (mkResponse "" (Some v) status).

(** ** Batch preparation and encoding *)

(** [isinstance(v, dict)]. *)
Definition is_dict (v : pyval) : bool :=
  match v with PyDict _ => true | _ => false end.

(** What [prepare_batch] raises on reaching the sub-call description [v], if
    anything (lines 196-204). *)
Definition entry_fault (v : pyval) : option exn :=
  match v with
  | PyList [] => Some IndexError_
  | PyList (m :: ps) =>
      if py_eq_str m "batch"
      then Some (Exception_ "Batch call cannot contain batch methods")
      else if is_str m && forallb is_dict ps then None else Some TypeError_
  | _ => Some (Exception_ "Invalid 'cmd' method description")
  end.

(** ** Aggregation in [batch] *)

(** The containers [batch] sets up (lines 231-236). *)
Definition container_names : list string :=
  ["result_error"; "result_total"; "result"; "result_next"].

(** Every value of the mapping is itself a mapping. *)
Definition dict_valued (d : dict) : Prop :=
  Forall (fun kv : string * pyval => exists y, kv.2 = PyDict y) d.

(** A first parameter group made by [batch] from the caller's [halt] and
    [cmd]: the halt flag as given, and sub-calls taken from [cmd] under
    their own ids. *)
Definition chunk_of (halt : pyval) (cmd : dict) (params1 : dict) : Prop :=
  exists c,
    params1 = [("halt", halt); ("cmd", PyDict c)]
    /\ dict_wf c /\ c <> []
    /\ forall k v, dict_get c k = Some v -> dict_get cmd k = Some v.

(** An answer of the transport from which [call] returns a mapping without
    ['result']: a connection failure or a connect timeout that carries its
    request, a read timeout, a body that does not decode, or a decoded
    mapping that holds no ['result']. *)
Definition no_result_answer (o : post_outcome) : Prop :=
  (exists u, o = Failed (ConnectionError_ (Some u)))
  \/ (exists u, o = Failed (ConnectTimeout_ (Some u)))
  \/ o = Failed ReadTimeout_
  \/ exists r, o = Responded r
               /\ (json r = None
                   \/ exists t, json r = Some (PyDict t) /\ dict_get t "result" = None).

(** What [call] returns for an answer of the transport that it does not
    retry (lines 93-101), if it is one. *)
Definition settled (c : Bitrix24) (o : post_outcome) : option pyval :=
  match o with
  | Responded r =>
      match json r with
      | Some v => Some v
      | None =>
          Some (PyDict [("error",
                         PyStr ("Error on decode api response [" +:+ text r +:+ "]"))])
      end
  | Failed ReadTimeout_ =>
      Some (PyDict [("error",
                     PyStr ("Timeout waiting expired [" +:+ pretty (timeout c)
                            +:+ " sec]"))])
  | Failed (ConnectionError_ (Some _)) | Failed (ConnectTimeout_ (Some _)) =>
      Some (PyDict [("error", PyStr "Max retries exceeded [1]")])
  | Failed _ => None
  end.


(** ** What a run leaves unchanged *)

(** The fields of the client other than the tokens and the refreshed flag. *)
Definition same_settings (c c' : Bitrix24) : Prop :=
  domain c' = domain c /\ client_id c' = client_id c
  /\ client_secret c' = client_secret c /\ code c' = code c
  /\ oauth_url c' = oauth_url c /\ timeout c' = timeout c.

(** An event that a [call] of [method] by the client [c] may add to the
    trace: a request to the url of the method with the client's timeout, a
    request to the client's oauth url that carries its id and secret, or a
    pause of two seconds. *)
Definition call_event (c : Bitrix24) (method : pyval) (ev : event) : Prop :=
  match ev with
  | EvPost url _ tm => url = api_url (domain c) (method_name method) /\ tm = timeout c
  | EvOAuth url grant =>
      url = oauth_url c
      /\ dict_get grant "client_id" = Some (client_id c)
      /\ dict_get grant "client_secret" = Some (client_secret c)
  | EvSleep s => s = 2
  | EvBatchCall _ => False
  end.

(** How a run of the client relates the world it starts in to the world it
    ends in. *)
Definition run_rel (method : pyval) (w w' : world) : Prop :=
  same_settings (self w) (self w')
  /\ (is_tokens_refreshed (self w) = true -> is_tokens_refreshed (self w') = true)
  /\ net w' = net w
  /\ exists new, trace w' = trace w ++ new /\ Forall (call_event (self w) method) new.

(** An event of a run of [batch]: an event of a call of ['batch'], or the
    record of a chunk. *)
Definition batch_event (c : Bitrix24) (ev : event) : Prop :=
  call_event c (PyStr "batch") ev \/ exists p, ev = EvBatchCall p.

(** How a run of [batch] relates the world it starts in to the world it
    ends in. *)
Definition batch_rel (w w' : world) : Prop :=
  same_settings (self w) (self w')
  /\ (is_tokens_refreshed (self w) = true -> is_tokens_refreshed (self w') = true)
  /\ exists new, trace w' = trace w ++ new /\ Forall (batch_event (self w)) new.

(** ** More sample inputs *)

(** A body of the oauth server that holds a new pair of tokens. *)
Definition sample_tokens : pyval :=
  PyDict [("access_token", PyStr "a1"); ("refresh_token", PyStr "r1")].

(** An authentication failure raised by the transport with the error code
    [c]. *)
Definition failure_with (c : pyval) : post_outcome :=
  Failed (AuthenticationFailed_ (PyDict [("error", c)]) 401).

(** Three sub-calls. *)
Definition three_calls : dict :=
  [("b", PyList [PyStr "user.get"; PyDict [("ID", PyInt 2)]]);
   ("a", PyList [PyStr "user.get"; PyDict [("ID", PyInt 1)]]);
   ("c", PyList [PyStr "crm.lead.list"])].

Definition three_params : dict := [("halt", PyInt 0); ("cmd", PyDict three_calls)].

(** * Properties *)

(** ** Dictionaries *)

Lemma dict_get_None (d : dict) (k : string) :
  dict_get d k = None <-> k ∉ dict_keys d.
Proof.
  unfold dict_keys. induction d as [|[k' v] d IH]; simpl.
  - split; [intros _; apply not_elem_of_nil | done].
  - rewrite not_elem_of_cons. destruct (String.eqb_spec k' k) as [->|Hne].
    + split; [done | intros [? _]; done].
    + rewrite IH. split; [intros ?; split; [congruence | done] | intros [_ ?]; done].
Qed.

Lemma dict_get_Some_key (d : dict) (k : string) (v : pyval) :
  dict_get d k = Some v -> k ∈ dict_keys d.
Proof.
  intros H. destruct (decide (k ∈ dict_keys d)) as [|Hn]; [done|].
  apply dict_get_None in Hn. congruence.
Qed.

Lemma dict_get_key_Some (d : dict) (k : string) :
  k ∈ dict_keys d -> exists v, dict_get d k = Some v.
Proof.
  intros H. destruct (dict_get d k) as [v|] eqn:E; [by exists v|].
  apply dict_get_None in E. done.
Qed.

Lemma dict_get_elem (d : dict) (k : string) (v : pyval) :
  dict_wf d -> (k, v) ∈ d <-> dict_get d k = Some v.
Proof.
  unfold dict_wf, dict_keys. induction d as [|[k' v'] d IH]; simpl; intros Hnd.
  - split; [intros H; by apply elem_of_nil in H | done].
  - apply NoDup_cons in Hnd as [Hk' Hnd]. rewrite elem_of_cons.
    destruct (String.eqb_spec k' k) as [->|Hne].
    + split.
      * intros [?|Hin]; [by simplify_eq|].
        exfalso. apply Hk'. apply list_elem_of_fmap. by exists (k, v).
      * intros ?; simplify_eq. by left.
    + rewrite <- (IH Hnd). split; [intros [?|?]; [by simplify_eq | done] | by right].
Qed.

Lemma dict_get_perm (d1 d2 : dict) (k : string) :
  dict_wf d1 -> d1 ≡ₚ d2 -> dict_get d1 k = dict_get d2 k.
Proof.
  intros Hwf Hp.
  assert (Hwf2 : dict_wf d2).
  { unfold dict_wf, dict_keys in *. by rewrite <- Hp. }
  destruct (dict_get d1 k) as [v|] eqn:E1.
  - symmetry. apply dict_get_elem; [done|]. rewrite <- Hp. by apply dict_get_elem.
  - symmetry. apply dict_get_None. apply dict_get_None in E1.
    unfold dict_keys in *. by rewrite <- Hp.
Qed.

Lemma dict_get_set_eq (d : dict) (k : string) (v : pyval) :
  dict_get (dict_set d k v) k = Some v.
Proof.
  induction d as [|[k' v'] d IH]; simpl.
  - by rewrite String.eqb_refl.
  - destruct (String.eqb_spec k' k) as [->|Hne]; simpl.
    + by rewrite String.eqb_refl.
    + destruct (String.eqb_spec k' k); [done | apply IH].
Qed.

Lemma dict_get_set_ne (d : dict) (k k' : string) (v : pyval) :
  k <> k' -> dict_get (dict_set d k v) k' = dict_get d k'.
Proof.
  intros Hne. induction d as [|[k0 v0] d IH]; simpl.
  - destruct (String.eqb_spec k k'); [done | done].
  - destruct (String.eqb_spec k0 k) as [->|Hk]; simpl.
    + destruct (String.eqb_spec k k'); [done | done].
    + destruct (String.eqb_spec k0 k'); [done | apply IH].
Qed.

Lemma dict_set_fresh (d : dict) (k : string) (v : pyval) :
  dict_get d k = None -> dict_set d k v = d ++ [(k, v)].
Proof.
  induction d as [|[k' v'] d IH]; simpl; [done|].
  destruct (String.eqb_spec k' k); [done|]. intros H. by rewrite IH.
Qed.

Lemma dict_keys_set_present (d : dict) (k : string) (v v' : pyval) :
  dict_get d k = Some v' -> dict_keys (dict_set d k v) = dict_keys d.
Proof.
  unfold dict_keys. revert v'. induction d as [|[k0 v0] d IH]; simpl; [done|].
  intros v'. destruct (String.eqb_spec k0 k) as [->|Hk]; simpl; [done|].
  intros H. f_equal. by eapply IH.
Qed.

Lemma dict_ext (d1 d2 : dict) :
  dict_wf d1 -> dict_keys d1 = dict_keys d2 ->
  (forall k, dict_get d1 k = dict_get d2 k) -> d1 = d2.
Proof.
  unfold dict_wf, dict_keys. revert d2.
  induction d1 as [|[k v] d1 IH]; intros [|[k2 v2] d2]; simpl; try done.
  intros Hnd Hk Hget. injection Hk as -> Hks.
  apply NoDup_cons in Hnd as [Hk2 Hnd].
  pose proof (Hget k2) as Hv. rewrite String.eqb_refl in Hv.
  injection Hv as ->.
  f_equal. apply IH; [done | done |].
  intros k. pose proof (Hget k) as Hg.
  destruct (String.eqb_spec k2 k) as [->|Hne]; [|done].
  assert (dict_get d1 k = None) as -> by by apply dict_get_None.
  symmetry. apply dict_get_None. unfold dict_keys.
  assert (d1.*1 = d2.*1) as Hks' by exact Hks. by rewrite <- Hks'.
Qed.

(** ** [sorted] *)

Lemma sorted_perm (l : list string) : sorted l ≡ₚ l.
Proof. apply merge_sort_Permutation. Qed.

Lemma sorted_ascending (l : list string) : StronglySorted String.le (sorted l).
Proof. apply StronglySorted_merge_sort; apply _. Qed.

Lemma sorted_invariant (l1 l2 : list string) : l1 ≡ₚ l2 -> sorted l1 = sorted l2.
Proof.
  intros Hp. apply (StronglySorted_unique String.le); try apply sorted_ascending.
  by rewrite !sorted_perm.
Qed.

Lemma sorted_NoDup (l : list string) : NoDup l -> NoDup (sorted l).
Proof. intros H. by rewrite sorted_perm. Qed.

Lemma sorted_elem (l : list string) (k : string) : k ∈ sorted l <-> k ∈ l.
Proof. by rewrite sorted_perm. Qed.

Lemma sorted_length (l : list string) : length (sorted l) = length l.
Proof. by rewrite sorted_perm. Qed.

(** ** Strings *)

Lemma str_app_assoc (s t u : string) : (s +:+ t) +:+ u = s +:+ (t +:+ u).
Proof.
  induction s as [|a s IH]; [done|].
  change (String a ((s +:+ t) +:+ u) = String a (s +:+ (t +:+ u))). by rewrite IH.
Qed.

Lemma str_app_empty_r (s : string) : s +:+ "" = s.
Proof.
  induction s as [|a s IH]; [done|].
  change (String a (s +:+ "") = String a s). by rewrite IH.
Qed.

Lemma str_prefix_app (s t : string) : String.prefix s (s +:+ t) = true.
Proof.
  induction s as [|a s IH]; [by destruct t|].
  change (String.prefix (String a s) (String a (s +:+ t)) = true).
  simpl. destruct (Ascii.ascii_dec a a); [apply IH | done].
Qed.

Section ClientProps.

Variable urlencode : pyval -> string.

(** ** [encode_cmd] *)

Lemma encode_cmd_loop_form (ids : list string) (cmd : dict) (acc : string) :
  (forall k, k ∈ ids -> k ∈ dict_keys cmd) ->
  encode_cmd_loop urlencode ids cmd acc
  = Ret (acc +:+ str_concat (cmd_piece urlencode cmd <$> ids)).
Proof.
  revert acc. induction ids as [|i ids IH]; intros acc Hin; simpl.
  - by rewrite str_app_empty_r.
  - destruct (dict_get_key_Some cmd i) as [v Hv]; [apply Hin; by left|].
    rewrite Hv, IH by (intros; apply Hin; by right).
    unfold cmd_piece at 2. by rewrite Hv, !str_app_assoc.
Qed.

Lemma encode_cmd_form (cmd : dict) :
  encode_cmd urlencode (PyDict cmd)
  = Ret (str_concat (cmd_piece urlencode cmd <$> sorted (dict_keys cmd))).
Proof.
  simpl. rewrite encode_cmd_loop_form; [done|].
  intros k. by rewrite sorted_elem.
Qed.

Lemma cmd_piece_perm (d1 d2 : dict) (i : string) :
  dict_wf d1 -> d1 ≡ₚ d2 -> cmd_piece urlencode d1 i = cmd_piece urlencode d2 i.
Proof. intros Hwf Hp. unfold cmd_piece. by rewrite (dict_get_perm d1 d2). Qed.

(** C4. Two command mappings holding the same key-value pairs in different
    insertion orders are encoded to the same string: [encode_cmd] returns
    the pieces of the request ids taken in ascending sorted order, whatever
    the order in which the mapping lists them. *)
Theorem encode_cmd_insertion_order (d1 d2 : dict) :
  dict_wf d1 -> d1 ≡ₚ d2 ->
  encode_cmd urlencode (PyDict d1) = encode_cmd urlencode (PyDict d2)
  /\ encode_cmd urlencode (PyDict d1)
     = Ret (str_concat (cmd_piece urlencode d1 <$> sorted (dict_keys d1)))
  /\ StronglySorted String.le (sorted (dict_keys d1)).
Proof.
  intros Hwf Hp. split; [|split].
  - rewrite !encode_cmd_form. f_equal.
    rewrite (sorted_invariant (dict_keys d1) (dict_keys d2))
      by (unfold dict_keys; by rewrite Hp).
    f_equal. apply list_fmap_ext. intros _ i _. by apply cmd_piece_perm.
  - apply encode_cmd_form.
  - apply sorted_ascending.
Qed.

End ClientProps.

(** ** Construction *)

(** C8. Constructing a client raises the validation error exactly when the
    access token, the refresh token and the authorization code are all
    absent; with at least one of them present the client is built and holds
    the domain and the credential fields it was given. *)
Theorem init_requires_credential (d : string) (a r ci cs c : pyval)
  (custom : option string) :
  (Bitrix24_init d a r ci cs c custom
   = Raise (ValueError_ "You should pass auth_token or auth code.")
   <-> absent a /\ absent r /\ absent c)
  /\ (raises (Bitrix24_init d a r ci cs c custom)
      <-> absent a /\ absent r /\ absent c)
  /\ (~ (absent a /\ absent r /\ absent c) ->
      exists self, Bitrix24_init d a r ci cs c custom = Ret self
        /\ domain self = d /\ access_token self = a /\ refresh_token self = r
        /\ client_id self = ci /\ client_secret self = cs /\ code self = c).
Proof.
  unfold Bitrix24_init, absent, raises.
  destruct (truthy a), (truthy r), (truthy c); simpl;
    (split; [|split]);
    try (split; [try done; intros [? ?]; done | try done; intros (? & ? & ?); try done; eauto]);
    try (intros H; first [ by (exfalso; apply H) | eexists; repeat split; done ]).
Qed.

Section PrepareBatch.

Variable urlencode : pyval -> string.

(** ** [prepare_batch] *)

Lemma dict_keys_map_values (f : pyval -> pyval) (d : dict) :
  dict_keys (map_values f d) = dict_keys d.
Proof.
  unfold dict_keys, map_values. rewrite <- list_fmap_compose.
  by apply list_fmap_ext.
Qed.

Lemma dict_get_map_values (f : pyval -> pyval) (d : dict) (k : string) :
  dict_get (map_values f d) k = f <$> dict_get d k.
Proof.
  induction d as [|[k' v] d IH]; simpl; [done|].
  destruct (String.eqb_spec k' k); [done | apply IH].
Qed.

Lemma encode_params_fuel (ps : list pyval) (acc : string) :
  encode_params urlencode ps acc <> OutOfFuel.
Proof.
  revert acc. induction ps as [|p ps IH]; intros acc; [done|].
  destruct p; try done. apply IH.
Qed.

Lemma encode_params_form (ps : list pyval) (acc : string) :
  Forall (fun p => exists x, p = PyDict x) ps ->
  encode_params urlencode ps acc
  = Ret (acc +:+ str_concat ((fun p => urlencode p +:+ "&") <$> ps)).
Proof.
  intros H. revert acc. induction H as [|p ps [x ->] _ IH]; intros acc.
  - cbn [encode_params fmap list_fmap str_concat]. by rewrite str_app_empty_r.
  - cbn [encode_params urlencode_any res_bind]. rewrite IH.
    rewrite fmap_cons. cbn [str_concat]. by rewrite !str_app_assoc.
Qed.

Lemma is_dict_Forall (ps : list pyval) :
  forallb is_dict ps = true <-> Forall (fun p => exists x, p = PyDict x) ps.
Proof.
  induction ps as [|p ps IH]; [done|]. cbn [forallb].
  rewrite andb_true_iff, Forall_cons, IH.
  split; intros [Hp ?]; (split; [|done]).
  - destruct p; try done. by eexists.
  - by destruct Hp as [x ->].
Qed.

(** A parameter that is not a mapping stops the loop of lines 202-203. *)
Lemma encode_params_rejects (ps : list pyval) (acc : string) :
  forallb is_dict ps = false ->
  encode_params urlencode ps acc = Raise TypeError_.
Proof.
  revert acc. induction ps as [|p ps IH]; intros acc H; [done|].
  cbn [forallb] in H. destruct p; try done.
  cbn [encode_params urlencode_any res_bind]. by apply IH.
Qed.

Lemma py_eq_str_false (m s : string) : m <> s -> py_eq_str (PyStr m) s = false.
Proof. intros H. simpl. by destruct (String.eqb_spec m s). Qed.

(** The loop on sub-calls: what it returns and how it leaves the mapping it
    was given. *)
Lemma prepare_loop_accepts (ids : list string) :
  forall params acc : dict,
  NoDup ids ->
  (forall k, k ∈ ids -> exists v, dict_get params k = Some v /\ sub_call v) ->
  (forall k, k ∈ ids -> dict_get acc k = None) ->
  exists params',
    prepare_loop urlencode ids params acc
    = (params', Ret (acc ++ ((fun k => (k, prepared_entry urlencode (dict_at params k))) <$> ids)))
    /\ dict_keys params' = dict_keys params
    /\ (forall k, dict_get params' k
                  = if decide (k ∈ ids) then pop_entry <$> dict_get params k
                    else dict_get params k).
Proof.
  induction ids as [|i ids IH]; intros params acc Hnd Hwf Hacc.
  - exists params. simpl. rewrite app_nil_r. split; [done|]. split; [done|].
    intros k. destruct (decide (k ∈ [])) as [Hin|]; [by apply elem_of_nil in Hin | done].
  - apply NoDup_cons in Hnd as [Hi Hnd].
    destruct (Hwf i) as (v & Hv & m & ps & -> & Hm & Hps); [by left|].
    cbn [prepare_loop]. rewrite Hv. rewrite (py_eq_str_false m "batch" Hm).
    rewrite (encode_params_form ps "" Hps).
    set (params1 := dict_set params i (PyList ps)).
    set (acc1 := dict_set acc i _).
    assert (Hne : forall k, k ∈ ids -> i <> k) by (intros k Hk Heq; by subst k).
    destruct (IH params1 acc1 Hnd) as (params' & Heq & Hkeys & Hget).
    { intros k Hk. unfold params1. rewrite dict_get_set_ne by by apply Hne.
      apply Hwf. by right. }
    { intros k Hk. unfold acc1. rewrite dict_get_set_ne by by apply Hne.
      apply Hacc. by right. }
    exists params'. split; [|split].
    + rewrite Heq. f_equal. f_equal. unfold acc1.
      rewrite dict_set_fresh by (apply Hacc; by left).
      rewrite <- app_assoc. f_equal. simpl. f_equal.
      * unfold dict_at. by rewrite Hv.
      * apply list_fmap_ext. intros j k Hk. f_equal. f_equal. unfold dict_at, params1.
        rewrite dict_get_set_ne; [done|]. apply Hne. by eapply list_elem_of_lookup_2.
    + rewrite Hkeys. unfold params1. by eapply dict_keys_set_present.
    + intros k. rewrite Hget. unfold params1.
      destruct (decide (k = i)) as [->|Hk].
      * rewrite dict_get_set_eq, Hv.
        destruct (decide (i ∈ ids)); [done|].
        destruct (decide (i ∈ i :: ids)) as [|Hn]; [done|]. exfalso. apply Hn. by left.
      * rewrite dict_get_set_ne by done.
        destruct (decide (k ∈ ids)) as [Hin|Hnin].
        -- destruct (decide (k ∈ i :: ids)) as [|Hn]; [done|]. exfalso. apply Hn. by right.
        -- destruct (decide (k ∈ i :: ids)) as [Hin|]; [|done].
           apply elem_of_cons in Hin as [?|?]; done.
Qed.

Lemma prepare_batch_accepts (d : dict) :
  dict_wf d ->
  (forall k v, dict_get d k = Some v -> sub_call v) ->
  prepare_batch urlencode (PyDict d)
  = (PyDict (map_values pop_entry d),
     Ret ((fun k => (k, prepared_entry urlencode (dict_at d k))) <$> sorted (dict_keys d))).
Proof.
  intros Hwf Hok. unfold prepare_batch.
  destruct (prepare_loop_accepts (sorted (dict_keys d)) d []) as (d' & -> & Hk & Hg).
  - by apply sorted_NoDup.
  - intros k Hin. apply (proj1 (sorted_elem _ _)) in Hin.
    destruct (dict_get_key_Some d k Hin) as [v Hv]. exists v. eauto.
  - done.
  - f_equal. f_equal. apply dict_ext.
    + unfold dict_wf. by rewrite Hk.
    + by rewrite Hk, dict_keys_map_values.
    + intros k. rewrite Hg, dict_get_map_values.
      destruct (decide (k ∈ sorted (dict_keys d))) as [|Hn]; [done|].
      rewrite sorted_elem in Hn. apply dict_get_None in Hn. by rewrite Hn.
Qed.

(** The loop on a mapping holding a rejected entry. *)
Lemma prepare_loop_rejects (ids : list string) :
  forall params acc : dict,
  (exists k v, k ∈ ids /\ dict_get params k = Some v /\ malformed_entry v) ->
  raises (prepare_loop urlencode ids params acc).2.
Proof.
  unfold raises.
  induction ids as [|i ids IH]; intros params acc (k & v & Hin & Hv & Hbad).
  - by apply elem_of_nil in Hin.
  - cbn [prepare_loop]. destruct (dict_get params i) as [vi|] eqn:Hi; [|by eexists].
    destruct vi as [| | | |l|]; try by eexists.
    destruct l as [|m rest]; [by eexists|].
    destruct (py_eq_str m "batch") eqn:Hm; [by eexists|].
    destruct (encode_params urlencode rest "") as [temp|e|] eqn:He;
      [|by eexists|by apply encode_params_fuel in He].
    destruct m; try by eexists.
    apply IH. exists k, v. apply elem_of_cons in Hin as [->|Hin].
    + exfalso. rewrite Hi in Hv. injection Hv as <-.
      destruct Hbad as [Hb|(m & l & Heq & Hb)]; [by eapply Hb|].
      injection Heq as <- <-. congruence.
    + split; [done|]. split; [|done].
      destruct (decide (i = k)) as [->|Hne]; [|by rewrite dict_get_set_ne].
      exfalso. rewrite Hi in Hv. injection Hv as <-.
      destruct Hbad as [Hb|(m & l & Heq & Hb)]; [by eapply Hb|].
      injection Heq as <- <-. congruence.
Qed.

(** The loop walks a list of ids run by run. *)
Lemma prepare_loop_app (l1 l2 : list string) :
  forall params acc : dict,
  prepare_loop urlencode (l1 ++ l2) params acc
  = match prepare_loop urlencode l1 params acc with
    | (params1, Ret acc1) => prepare_loop urlencode l2 params1 acc1
    | other => other
    end.
Proof.
  induction l1 as [|i l1 IH]; intros params acc; [done|].
  cbn [app prepare_loop]. destruct (dict_get params i) as [v|]; [|done].
  destruct v as [| | | |l|]; try done.
  destruct l as [|m rest]; [done|].
  destruct (py_eq_str m "batch"); [done|].
  destruct (encode_params urlencode rest ""); [|done|done].
  destruct m; try done; apply IH.
Qed.

(** The loop on reaching a faulty entry. *)
Lemma prepare_loop_fault_step (k : string) (after : list string)
  (params acc : dict) (v : pyval) (e : exn) :
  dict_get params k = Some v ->
  entry_fault v = Some e ->
  exists params',
    prepare_loop urlencode (k :: after) params acc = (params', Raise e)
    /\ dict_keys params' = dict_keys params
    /\ dict_get params' k = Some (pop_entry v)
    /\ forall j, j <> k -> dict_get params' j = dict_get params j.
Proof.
  intros Hv He. cbn [prepare_loop]. rewrite Hv.
  destruct v as [| | | |l|]; simpl in He;
    try (injection He as <-; by exists params).
  destruct l as [|m rest]; [injection He as <-; by exists params|].
  exists (dict_set params k (PyList rest)).
  assert (Hk : dict_keys (dict_set params k (PyList rest)) = dict_keys params)
    by by eapply dict_keys_set_present.
  assert (Hg : dict_get (dict_set params k (PyList rest)) k = Some (PyList rest))
    by apply dict_get_set_eq.
  assert (Hn : forall j, j <> k ->
                 dict_get (dict_set params k (PyList rest)) j = dict_get params j).
  { intros j Hj. by rewrite dict_get_set_ne. }
  destruct (py_eq_str m "batch"); [injection He as <-; done|].
  destruct (forallb is_dict rest) eqn:Hd.
  - apply is_dict_Forall in Hd. rewrite (encode_params_form rest "" Hd).
    rewrite andb_true_r in He.
    destruct m; simpl in He; try (injection He as <-; done). done.
  - rewrite (encode_params_rejects rest "" Hd).
    rewrite andb_false_r in He. by injection He as <-.
Qed.

(** The loop on sub-calls followed by a faulty entry: the fault of that
    entry is raised, and the mapping is left half consumed. *)
Lemma prepare_batch_fault (d : dict) (before after : list string)
  (k : string) (v : pyval) (e : exn) :
  dict_wf d ->
  sorted (dict_keys d) = before ++ k :: after ->
  (forall j, j ∈ before -> exists vj, dict_get d j = Some vj /\ sub_call vj) ->
  dict_get d k = Some v ->
  entry_fault v = Some e ->
  exists d',
    prepare_batch urlencode (PyDict d) = (PyDict d', Raise e)
    /\ dict_keys d' = dict_keys d
    /\ (forall j, j ∈ before -> dict_get d' j = pop_entry <$> dict_get d j)
    /\ dict_get d' k = Some (pop_entry v)
    /\ (forall j, j ∈ after -> dict_get d' j = dict_get d j).
Proof.
  intros Hwf Hs Hbefore Hv He.
  assert (Hnd : NoDup (before ++ k :: after)).
  { rewrite <- Hs. by apply sorted_NoDup. }
  apply NoDup_app in Hnd as (Hnb & Hdisj & Hnk).
  apply NoDup_cons in Hnk as [Hka _].
  assert (Hkb : k ∉ before).
  { intros Hin. apply (Hdisj k Hin). by left. }
  destruct (prepare_loop_accepts before d [] Hnb Hbefore)
    as (d1 & Hl1 & Hk1 & Hg1); [done|].
  assert (Hv1 : dict_get d1 k = Some v).
  { rewrite Hg1. by destruct (decide (k ∈ before)). }
  destruct (prepare_loop_fault_step k after d1
              ([] ++ ((fun j => (j, prepared_entry urlencode (dict_at d j))) <$> before))
              v e Hv1 He) as (d' & Hl2 & Hk2 & Hgk & Hgo).
  exists d'. split; [|split; [|split; [|split]]].
  - unfold prepare_batch. by rewrite Hs, prepare_loop_app, Hl1, Hl2.
  - by rewrite Hk2.
  - intros j Hj. rewrite Hgo by (intros ->; done). rewrite Hg1.
    by destruct (decide (j ∈ before)).
  - done.
  - intros j Hj. rewrite Hgo by (intros ->; done). rewrite Hg1.
    destruct (decide (j ∈ before)) as [Hb|]; [|done].
    exfalso. apply (Hdisj j Hb). by right.
Qed.

(** An entry named by the validation faults with the validation error. *)
Lemma malformed_entry_fault (v : pyval) :
  malformed_entry v -> exists msg, entry_fault v = Some (Exception_ msg).
Proof.
  intros [Hnl|(m & l & -> & Hb)].
  - destruct v as [| | | |l|]; try by eexists. by destruct (Hnl l).
  - simpl. rewrite Hb. by eexists.
Qed.

(** C6. On a mapping from request ids to lists made of a method name (other
    than ['batch'], which is rejected) and parameter mappings,
    [prepare_batch] returns the mapping that lists the ids in ascending
    sorted order and holds for each id the method name, then ['?'], then
    each parameter mapping url-encoded in list order, each followed by
    ['&'].  On the mapping of the two [user.get] sub-calls ["a"] and ["b"]
    it returns the keys ["a"], ["b"], each with a value that starts with
    ["user.get?"]. *)
Theorem prepare_batch_records :
  (forall d : dict,
     dict_wf d ->
     (forall k v, dict_get d k = Some v -> sub_call v) ->
     (prepare_batch urlencode (PyDict d)).2
     = Ret ((fun k => (k, prepared_entry urlencode (dict_at d k))) <$> sorted (dict_keys d)))
  /\ (exists sa sb,
        (prepare_batch urlencode
           (PyDict [("a", PyList [PyStr "user.get"; PyDict [("ID", PyInt 1)]]);
                    ("b", PyList [PyStr "user.get"; PyDict [("ID", PyInt 2)]])])).2
        = Ret [("a", PyStr sa); ("b", PyStr sb)]
        /\ String.prefix "user.get?" sa = true
        /\ String.prefix "user.get?" sb = true).
Proof.
  split.
  - intros d Hwf Hok. by rewrite prepare_batch_accepts.
  - eexists _, _. split; [reflexivity|].
    split; apply (str_prefix_app "user.get?").
Qed.

(** C7 (as the code has it). [prepare_batch] raises, and so returns no
    prepared mapping, whenever its input is not a mapping, whenever some
    per-id value is not a list, and whenever some sub-call is led by the
    method name ['batch'].  What it raises is the validation error when the
    input is not a mapping (['Invalid 'cmd' structure']), and when the
    rejected entry is reached: every per-id value before it, in ascending
    order of the ids, is a list made of a method name and parameter
    mappings.  Then the ids after it are left untouched. *)
Theorem prepare_batch_rejects (params : pyval) :
  match params with
  | PyDict d => exists k v, dict_get d k = Some v /\ malformed_entry v
  | _ => True
  end ->
  raises (prepare_batch urlencode params).2
  /\ (forall out, (prepare_batch urlencode params).2 <> Ret out)
  /\ (match params with
      | PyDict d =>
          forall (before after : list string) (k : string) (v : pyval),
          dict_wf d ->
          sorted (dict_keys d) = before ++ k :: after ->
          (forall j, j ∈ before -> exists vj, dict_get d j = Some vj /\ sub_call vj) ->
          dict_get d k = Some v ->
          malformed_entry v ->
          exists msg d',
            prepare_batch urlencode params = (PyDict d', Raise (Exception_ msg))
            /\ forall j, j ∈ after -> dict_get d' j = dict_get d j
      | _ => (prepare_batch urlencode params).2 = Raise (Exception_ "Invalid 'cmd' structure")
      end).
Proof.
  intros H.
  assert (Hr : raises (prepare_batch urlencode params).2).
  { destruct params as [| | | | |d]; try (by eexists).
    destruct H as (k & v & Hv & Hbad). unfold prepare_batch.
    pose proof (prepare_loop_rejects (sorted (dict_keys d)) d []) as Hl.
    destruct (prepare_loop urlencode (sorted (dict_keys d)) d []) as [d' r].
    apply Hl. exists k, v. split; [|done].
    apply sorted_elem. by eapply dict_get_Some_key. }
  split; [done|]. split.
  - intros out Hout. destruct Hr as [e He]. congruence.
  - destruct params as [| | | | |d]; try done.
    intros before after k v Hwf Hs Hbefore Hv Hbad.
    destruct (malformed_entry_fault v Hbad) as [msg Hf].
    destruct (prepare_batch_fault d before after k v _ Hwf Hs Hbefore Hv Hf)
      as (d' & Heq & _ & _ & _ & Hafter).
    by exists msg, d'.
Qed.

End PrepareBatch.

(** ** Pure helpers never run out of fuel *)

Lemma py_getitem_fuel (c k : pyval) : py_getitem c k <> OutOfFuel.
Proof. destruct c, k; simpl; repeat case_match; done. Qed.

(** ** What the oauth exchange and [call] leave in the trace *)

Lemma store_tokens_trace (failed : pyval -> Z -> exn) (o : post_outcome) (w : world) :
  trace (store_tokens failed o w).1 = trace w
  /\ requests (store_tokens failed o w).1 = requests w
  /\ net (store_tokens failed o w).1 = net w.
Proof. unfold store_tokens. repeat case_match; done. Qed.

Lemma store_tokens_fuel (failed : pyval -> Z -> exn) (o : post_outcome) (w : world) :
  (store_tokens failed o w).2 <> OutOfFuel.
Proof.
  unfold store_tokens. repeat case_match; simpl; try done;
    exfalso; eapply py_getitem_fuel; eassumption.
Qed.

Lemma refresh_tokens_calls (w : world) :
  batch_calls (trace (refresh_tokens w).1) = batch_calls (trace w).
Proof.
  unfold refresh_tokens, requests_post.
  destruct (store_tokens_trace TokenRenewFailed_ (net w (requests w))
              (mkWorld (self w) (net w) (S (requests w))
                 (trace w ++ [EvOAuth (oauth_url (self w))
                    [("grant_type", PyStr "refresh_token");
                     ("client_id", client_id (self w));
                     ("client_secret", client_secret (self w));
                     ("refresh_token", refresh_token (self w))]]))) as [-> _].
  simpl. unfold batch_calls. rewrite omap_app. simpl. by rewrite app_nil_r.
Qed.

Lemma authenticate_calls (w : world) :
  batch_calls (trace (authenticate w).1) = batch_calls (trace w).
Proof.
  unfold authenticate, requests_post.
  destruct (store_tokens_trace AuthenticationFailed_ (net w (requests w))
              (mkWorld (self w) (net w) (S (requests w))
                 (trace w ++ [EvOAuth (oauth_url (self w))
                    [("grant_type", PyStr "authorization_code");
                     ("client_id", client_id (self w));
                     ("client_secret", client_secret (self w));
                     ("code", code (self w))]]))) as [-> _].
  simpl. unfold batch_calls. rewrite omap_app. simpl. by rewrite app_nil_r.
Qed.

Lemma ensure_token_calls (w : world) :
  batch_calls (trace (ensure_token w).1) = batch_calls (trace w).
Proof.
  unfold ensure_token. repeat case_match;
    [apply refresh_tokens_calls | apply authenticate_calls | done].
Qed.

Lemma ensure_token_fuel (w : world) : (ensure_token w).2 <> OutOfFuel.
Proof.
  unfold ensure_token, refresh_tokens, authenticate, requests_post.
  repeat case_match; try done; apply store_tokens_fuel.
Qed.

Lemma batch_calls_post (t : list event) (url data : string) (tm : Z) :
  batch_calls (t ++ [EvPost url data tm]) = batch_calls t.
Proof. unfold batch_calls. rewrite omap_app. simpl. by rewrite app_nil_r. Qed.

Lemma batch_calls_sleep (t : list event) (s : Z) :
  batch_calls (t ++ [EvSleep s]) = batch_calls t.
Proof. unfold batch_calls. rewrite omap_app. simpl. by rewrite app_nil_r. Qed.

Lemma batch_calls_log (t : list event) (p : dict) :
  batch_calls (t ++ [EvBatchCall p]) = batch_calls t ++ [p].
Proof. unfold batch_calls. by rewrite omap_app. Qed.

Section CallProps.

Variable urlencode : pyval -> string.

(** [call] itself never records a batch chunk. *)
Lemma call_calls (fuel : nat) :
  forall (method : pyval) (p1 p2 p3 p4 : option dict) (w : world),
  batch_calls (trace (call urlencode fuel method p1 p2 p3 p4 w).1.1)
  = batch_calls (trace w).
Proof.
  induction fuel as [|fuel IH]; intros method p1 p2 p3 p4 w; [done|].
  cbn [call]. pose proof (ensure_token_calls w) as He.
  destruct (ensure_token w) as [w1 r1]. simpl in He.
  destruct r1; [|done|done].
  destruct (bad_method method); [done|].
  destruct (call_prepare urlencode method p1) as [p1' r2].
  destruct r2; [|done|done].
  destruct (encode_groups _ _ _) as [body| |]; [|done|done].
  unfold requests_post.
  set (w2 := mkWorld _ _ _ _).
  assert (Hw2 : batch_calls (trace w2) = batch_calls (trace w)).
  { unfold w2. simpl. by rewrite batch_calls_post. }
  clearbody w2.
  pose proof (refresh_tokens_calls w2) as Hr.
  destruct (net w1 (requests w1)) as [r|e].
  - by destruct (json r).
  - destruct e; try done; try (by destruct request);
      (cbv zeta;
       destruct (py_contains_str "error" (exn_result result)) as [[|]| |]; try done;
       destruct (py_getitem (exn_result result) (PyStr "error")) as [error_code| |];
         try done;
       destruct (is_token_error error_code);
       [ revert Hr; destruct (refresh_tokens w2) as [w3 [| |]]; simpl; intros Hr;
         [rewrite IH; congruence | congruence | congruence]
       | destruct (in_query_limit error_code) as [[|]| |]; try done;
         rewrite IH; [|done]; unfold sleep, log; simpl;
         by rewrite batch_calls_sleep ]).
Qed.

End CallProps.

(** ** Chunking in [batch] *)





Section BatchProps.

Variable urlencode : pyval -> string.


End BatchProps.



Section BatchChunking.

Variable urlencode : pyval -> string.

Lemma batch_well_formed (fuel : nat) (params : dict) (halt : pyval) (cmd : dict)
  (w : world) :
  dict_get params "halt" = Some halt ->
  dict_get params "cmd" = Some (PyDict cmd) ->
  (batch urlencode fuel params w).1
  = (batch_loop urlencode fuel (sorted (dict_keys cmd)) halt cmd 0 [] empty_result w).1
  /\ (forall v, (batch urlencode fuel params w).2 = Ret v ->
      exists acc,
        (batch_loop urlencode fuel (sorted (dict_keys cmd)) halt cmd 0 [] empty_result w).2
        = Ret acc /\ v = PyDict [("result", PyDict acc)]).
Proof.
  intros Hh Hc. unfold batch, dict_mem. rewrite Hh, Hc. simpl.
  destruct (batch_loop _ _ _ _ _ _ _ _ _) as [w' [acc|e|]]; simpl;
    (split; [done|]); intros v Hv; [|done|done].
  exists acc. split; [done | congruence].
Qed.

End BatchChunking.

(** ** Merging chunk results *)

Lemma dict_update_get (y : dict) :
  forall (z : dict) (k : string),
  dict_wf y ->
  dict_get (dict_update z y) k
  = match dict_get y k with Some v => Some v | None => dict_get z k end.
Proof.
  unfold dict_update, dict_wf, dict_keys.
  induction y as [|[k0 v0] y IH]; intros z k Hnd; [done|].
  apply NoDup_cons in Hnd as [Hk0 Hnd]. simpl. rewrite IH by done.
  destruct (String.eqb_spec k0 k) as [->|Hne].
  - assert (dict_get y k = None) as -> by by apply dict_get_None.
    apply dict_get_set_eq.
  - by rewrite dict_get_set_ne.
Qed.

(** On a key held by both, [merge_two_dicts x y] keeps the value of [y]. *)
Lemma merge_two_dicts_get (x y : dict) (k : string) :
  dict_wf y ->
  dict_get (merge_two_dicts x y) k
  = match dict_get y k with Some v => Some v | None => dict_get x k end.
Proof. apply dict_update_get. Qed.

Lemma merge_one_other (tr : pyval) (acc acc' : dict) (k i : string) :
  merge_one tr acc (PyStr k) = Ret acc' -> i <> k ->
  dict_get acc' i = dict_get acc i.
Proof.
  unfold merge_one. intros H Hne.
  destruct (py_getitem tr (PyStr k)) as [t| |]; cbn [res_bind] in H; [|done|done].
  destruct (py_len t) as [n| |]; cbn [res_bind] in H; [|done|done].
  destruct (0 <? n)%nat; [|congruence].
  destruct (py_getitem (PyDict acc) (PyStr k)) as [y| |]; cbn [res_bind] in H; [|done|done].
  destruct (merge_values t y) as [z| |]; cbn [res_bind] in H; [|done|done].
  injection H as <-. by rewrite dict_get_set_ne.
Qed.

Lemma merge_one_same (tr acc acc' x y : dict) (k : string) :
  merge_one (PyDict tr) acc (PyStr k) = Ret acc' ->
  dict_get tr k = Some (PyDict x) -> dict_get acc k = Some (PyDict y) ->
  dict_get acc' k = Some (PyDict (merged x y)).
Proof.
  unfold merge_one. simpl. intros H Hx Hy. rewrite Hx in H. simpl in H.
  destruct x as [|kv x]; simpl in H; [injection H as <-; exact Hy|].
  rewrite Hy in H. simpl in H. injection H as <-. by rewrite dict_get_set_eq.
Qed.

Lemma merge_loop_get (tr : dict) (keys : list string) :
  forall (acc acc' x y : dict) (i : string),
  NoDup keys ->
  merge_loop (PyDict tr) (PyStr <$> keys) acc = Ret acc' ->
  dict_get tr i = Some (PyDict x) -> dict_get acc i = Some (PyDict y) ->
  dict_get acc' i = Some (PyDict (if decide (i ∈ keys) then merged x y else y)).
Proof.
  induction keys as [|k keys IH]; intros acc acc' x y i Hnd H Hx Hy.
  - simpl in H. injection H as <-.
    destruct (decide (i ∈ [])) as [Hin|]; [by apply elem_of_nil in Hin | done].
  - apply NoDup_cons in Hnd as [Hk Hnd]. rewrite fmap_cons in H. cbn [merge_loop] in H.
    destruct (merge_one (PyDict tr) acc (PyStr k)) as [acc1| |] eqn:H1;
      simpl in H; [|done|done].
    destruct (decide (i = k)) as [->|Hne].
    + pose proof (merge_one_same _ _ _ _ _ _ H1 Hx Hy) as Hk1.
      rewrite (IH acc1 acc' x (merged x y) k Hnd H Hx Hk1).
      destruct (decide (k ∈ keys)); [done|].
      destruct (decide (k ∈ k :: keys)) as [|Hn]; [done|]. exfalso. apply Hn. by left.
    + pose proof (merge_one_other _ _ _ _ _ H1 Hne) as Hk1.
      rewrite (IH acc1 acc' x y i Hnd H Hx) by congruence.
      destruct (decide (i ∈ keys)) as [Hin|Hnin].
      * destruct (decide (i ∈ k :: keys)) as [|Hn]; [done|]. exfalso. apply Hn. by right.
      * destruct (decide (i ∈ k :: keys)) as [Hin|]; [|done].
        apply elem_of_cons in Hin as [?|?]; done.
Qed.

(** C1 (as the code has it). When a flushed chunk's per-id result container
    shares a key with the cumulative container of the same name, the merge
    performed by [batch] keeps the value accumulated from the earlier
    chunks: the cumulative mapping takes the chunk's value only for keys it
    did not hold yet. *)
Theorem merge_chunk_keeps_cumulative (temp tr acc acc' x y : dict) (i : string) :
  dict_get temp "result" = Some (PyDict tr) ->
  dict_wf tr -> dict_wf y ->
  merge_chunk (PyDict temp) acc = Ret acc' ->
  dict_get tr i = Some (PyDict x) ->
  dict_get acc i = Some (PyDict y) ->
  exists z,
    dict_get acc' i = Some (PyDict z)
    /\ forall k, dict_get z k
                 = match dict_get y k with
                   | Some v => Some v
                   | None => dict_get x k
                   end.
Proof.
  intros Ht Hwf Hy H Hx Hacc. unfold merge_chunk in H. simpl in H.
  rewrite Ht in H. simpl in H.
  exists (merged x y). split.
  - rewrite (merge_loop_get tr (dict_keys tr) acc acc' x y i Hwf H Hx Hacc).
    destruct (decide (i ∈ dict_keys tr)) as [|Hn]; [done|].
    exfalso. apply Hn. by eapply dict_get_Some_key.
  - intros k. unfold merged. destruct x as [|kv x]; [by destruct (dict_get y k)|].
    by apply merge_two_dicts_get.
Qed.

Section CallOutcomes.

Variable urlencode : pyval -> string.

(** ** [call]: failures of the transport *)

(** C9 (as the code has it). A [call] that got as far as its request
    returns, after that one request and with no re-issue: a mapping whose
    ['error'] embeds the raw response text when the body fails to decode; a
    mapping whose ['error'] embeds the configured timeout when reading the
    answer times out ([requests.ReadTimeout]); and
    [{error: 'Max retries exceeded [1]'}] when the connection fails with an
    exception that carries its request, a connect timeout
    ([requests.ConnectTimeout]) included. *)
Theorem call_transport_failures (fuel : nat) (method : pyval)
  (p1 p2 p3 p4 p1' : option dict) (w w1 : world) (v : pyval) (body : string) :
  ensure_token w = (w1, Ret v) ->
  bad_method method = false ->
  call_prepare urlencode method p1 = (p1', Ret tt) ->
  encode_groups urlencode
    [p1'; p2; p3; p4; Some [("auth", access_token (self w1))]] "" = Ret body ->
  let out := call urlencode (S fuel) method p1 p2 p3 p4 w in
  (forall r, net w1 (requests w1) = Responded r -> json r = None ->
     out = (posted method body w1, p1',
            Ret (PyDict [("error",
                          PyStr ("Error on decode api response [" +:+ text r +:+ "]"))])))
  /\ (net w1 (requests w1) = Failed ReadTimeout_ ->
      out = (posted method body w1, p1',
             Ret (PyDict [("error",
                           PyStr ("Timeout waiting expired ["
                                  +:+ pretty (timeout (self w1)) +:+ " sec]"))])))
  /\ (forall url,
        net w1 (requests w1) = Failed (ConnectionError_ (Some url))
        \/ net w1 (requests w1) = Failed (ConnectTimeout_ (Some url)) ->
        out = (posted method body w1, p1',
               Ret (PyDict [("error", PyStr "Max retries exceeded [1]")]))).
Proof.
  intros He Hm Hp Hb out. subst out. cbn [call].
  rewrite He, Hm, Hp, Hb. unfold requests_post, posted, error_dict.
  split; [|split].
  - intros r -> Hj. by rewrite Hj.
  - by intros ->.
  - by intros url [-> | ->].
Qed.

(** ** [call]: validation of the method name *)

Lemma ensure_token_posts (w : world) :
  api_posts (trace (ensure_token w).1) = api_posts (trace w).
Proof.
  unfold ensure_token, refresh_tokens, authenticate, requests_post.
  repeat case_match; try done;
    match goal with
    | |- context [store_tokens ?f ?o ?w'] =>
        destruct (store_tokens_trace f o w') as [-> _]
    end; simpl; unfold api_posts; rewrite omap_app; simpl; by rewrite app_nil_r.
Qed.

Lemma call_bad_method (fuel : nat) (method : pyval)
  (p1 p2 p3 p4 : option dict) (w : world) :
  bad_method method = true ->
  raises (call urlencode (S fuel) method p1 p2 p3 p4 w).2
  /\ api_posts (trace (call urlencode (S fuel) method p1 p2 p3 p4 w).1.1)
     = api_posts (trace w).
Proof.
  intros Hm. cbn [call]. rewrite Hm.
  pose proof (ensure_token_fuel w) as Hf. pose proof (ensure_token_posts w) as Hp.
  destruct (ensure_token w) as [w1 [?|e|]]; simpl in *.
  - split; [by eexists | done].
  - split; [by eexists | done].
  - done.
Qed.

(** C5 (as the code has it). A malformed method name makes [call] raise,
    before any request to the API, and a ['cmd'] that is not a mapping makes
    [prepare_batch] raise; but [batch] on an input that lacks ['halt'] or
    ['cmd'] does not raise: it returns [{error: 'Invalid batch structure'}]
    and leaves the world as it was. *)
Theorem validation_failures (fuel : nat) (method : pyval)
  (p1 p2 p3 p4 : option dict) (cmd : pyval) (params : dict) (w : world) :
  (bad_method method = true ->
   raises (call urlencode (S fuel) method p1 p2 p3 p4 w).2
   /\ api_posts (trace (call urlencode (S fuel) method p1 p2 p3 p4 w).1.1)
      = api_posts (trace w))
  /\ ((forall d, cmd <> PyDict d) ->
      (prepare_batch urlencode cmd).2 = Raise (Exception_ "Invalid 'cmd' structure"))
  /\ (dict_mem "halt" params = false \/ dict_mem "cmd" params = false ->
      batch urlencode fuel params w
      = (w, Ret (PyDict [("error", PyStr "Invalid batch structure")]))).
Proof.
  split; [apply call_bad_method|]. split.
  - intros Hc. destruct cmd; try done. by destruct (Hc d).
  - intros H. unfold batch. by destruct H as [-> | ->]; [|rewrite orb_true_r].
Qed.

End CallOutcomes.

Section Preparation.

Variable urlencode : pyval -> string.

(** ** [call]: the state of the first parameter group *)

(** A group that [call] does not prepare again is handed back as it is. *)
Lemma call_stable (fuel : nat) :
  forall (method : pyval) (p1 p2 p3 p4 : option dict) (w : world),
  call_prepare urlencode method p1 = (p1, Ret tt) ->
  (call urlencode fuel method p1 p2 p3 p4 w).1.2 = p1.
Proof.
  induction fuel as [|fuel IH]; intros method p1 p2 p3 p4 w Hp; [done|].
  cbn [call]. destruct (ensure_token w) as [w1 [?| |]]; [|done|done].
  destruct (bad_method method); [done|]. rewrite Hp.
  destruct (encode_groups _ _ _) as [body| |]; [|done|done].
  destruct (requests_post _ w1) as [w2 o].
  destruct o as [r|e]; [by destruct (json r)|].
  destruct e; try done; try (by destruct request);
    (cbv zeta;
     destruct (py_contains_str "error" (exn_result result)) as [[|]| |]; try done;
     destruct (py_getitem (exn_result result) (PyStr "error")) as [error_code| |];
       try done;
     destruct (is_token_error error_code);
     [ destruct (refresh_tokens w2) as [w3 [| |]]; try done; by apply IH
     | destruct (in_query_limit error_code) as [[|]| |]; try done; by apply IH ]).
Qed.

Lemma call_params1 (fuel : nat) (method : pyval) (p1 p1' p2 p3 p4 : option dict)
  (w w1 : world) (v : pyval) :
  ensure_token w = (w1, Ret v) ->
  bad_method method = false ->
  call_prepare urlencode method p1 = (p1', Ret tt) ->
  call_prepare urlencode method p1' = (p1', Ret tt) ->
  (call urlencode (S fuel) method p1 p2 p3 p4 w).1.2 = p1'.
Proof.
  intros He Hm Hp Hp'. cbn [call]. rewrite He, Hm, Hp.
  destruct (encode_groups _ _ _) as [body| |]; [|done|done].
  destruct (requests_post _ w1) as [w2 o].
  destruct o as [r|e]; [by destruct (json r)|].
  destruct e; try done; try (by destruct request);
    (cbv zeta;
     destruct (py_contains_str "error" (exn_result result)) as [[|]| |]; try done;
     destruct (py_getitem (exn_result result) (PyStr "error")) as [error_code| |];
       try done;
     destruct (is_token_error error_code);
     [ destruct (refresh_tokens w2) as [w3 [| |]]; try done; by apply call_stable
     | destruct (in_query_limit error_code) as [[|]| |]; try done;
       by apply call_stable ]).
Qed.

(** C10. [prepare_batch] mutates its argument: on a valid mapping, whose
    per-id lists are made of a method name and parameter mappings, it leaves
    every per-id list without its leading method name.  [call] with method
    ['batch'] mutates the caller's first parameter group in place: its
    ['cmd'] becomes the prepared mapping and ['prepared'] is set to true, so
    that a later [call] on the same group prepares nothing again and leaves
    it as it is. *)
Theorem batch_preparation_mutates :
  (forall d : dict,
     dict_wf d ->
     (forall k v, dict_get d k = Some v -> sub_call v) ->
     exists d',
       (prepare_batch urlencode (PyDict d)).1 = PyDict d'
       /\ dict_keys d' = dict_keys d
       /\ forall k m ps, dict_get d k = Some (PyList (m :: ps)) ->
                         dict_get d' k = Some (PyList ps))
  /\ (forall (fuel : nat) (p prepared : dict) (cmd : pyval)
             (p2 p3 p4 : option dict) (w w1 : world) (v : pyval),
        dict_mem "prepared" p = false ->
        dict_get p "cmd" = Some cmd ->
        (prepare_batch urlencode cmd).2 = Ret prepared ->
        ensure_token w = (w1, Ret v) ->
        let p' := dict_set (dict_set p "cmd" (PyDict prepared)) "prepared" (PyBool true) in
        (call urlencode (S fuel) (PyStr "batch") (Some p) p2 p3 p4 w).1.2 = Some p'
        /\ dict_get p' "cmd" = Some (PyDict prepared)
        /\ dict_get p' "prepared" = Some (PyBool true)
        /\ call_prepare urlencode (PyStr "batch") (Some p') = (Some p', Ret tt)
        /\ forall fuel' w',
             (call urlencode fuel' (PyStr "batch") (Some p') p2 p3 p4 w').1.2 = Some p').
Proof.
  split.
  - intros d Hwf Hok. exists (map_values pop_entry d).
    rewrite (prepare_batch_accepts urlencode d Hwf Hok). split; [done|].
    split; [apply dict_keys_map_values|].
    intros k m ps Hk. by rewrite dict_get_map_values, Hk.
  - intros fuel p prepared cmd p2 p3 p4 w w1 v Hnp Hcmd Hprep He p'.
    assert (Hp' : call_prepare urlencode (PyStr "batch") (Some p') = (Some p', Ret tt)).
    { unfold call_prepare, dict_mem, p'. simpl. by rewrite dict_get_set_eq. }
    assert (Hp : call_prepare urlencode (PyStr "batch") (Some p) = (Some p', Ret tt)).
    { unfold call_prepare. simpl. rewrite Hnp, Hcmd. simpl.
      destruct (prepare_batch urlencode cmd) as [cmd' r]. simpl in Hprep. by subst r. }
    split; [by eapply call_params1|]. split.
    { unfold p'. rewrite dict_get_set_ne by done. apply dict_get_set_eq. }
    split; [apply dict_get_set_eq|]. split; [done|].
    intros fuel' w'. by apply call_stable.
Qed.

End Preparation.

Section Retry.

Variable urlencode : pyval -> string.

(** ** [call]: the handler of authentication failures *)

(** The three token codes: the tokens are refreshed, then the same call is
    issued again. *)
Lemma call_token_error (fuel : nat) (method c : pyval)
  (p1 p2 p3 p4 p1' : option dict) (w w1 : world) (v : pyval) (body : string) :
  ensure_token w = (w1, Ret v) ->
  bad_method method = false ->
  call_prepare urlencode method p1 = (p1', Ret tt) ->
  encode_groups urlencode
    [p1'; p2; p3; p4; Some [("auth", access_token (self w1))]] "" = Ret body ->
  auth_failure c (net w1 (requests w1)) ->
  is_token_error c = true ->
  call urlencode (S fuel) method p1 p2 p3 p4 w
  = match refresh_tokens (posted method body w1) with
    | (w3, Ret _) => call urlencode fuel method p1' p2 p3 p4 w3
    | (w3, Raise e) => (w3, p1', Raise e)
    | (w3, OutOfFuel) => (w3, p1', OutOfFuel)
    end.
Proof.
  intros He Hm Hp Hb (result & status & Ho & Hin & Hc) Ht. cbn [call].
  rewrite He, Hm, Hp, Hb. unfold requests_post. fold (posted method body w1).
  by destruct Ho as [-> | ->]; cbv zeta; rewrite Hin, Hc, Ht.
Qed.

(** A string code for which line 108 holds: a pause of two seconds, then
    the same call is issued again. *)
Lemma call_code_in_query_limit (fuel : nat) (method : pyval) (c : string)
  (p1 p2 p3 p4 p1' : option dict) (w w1 : world) (v : pyval) (body : string) :
  ensure_token w = (w1, Ret v) ->
  bad_method method = false ->
  call_prepare urlencode method p1 = (p1', Ret tt) ->
  encode_groups urlencode
    [p1'; p2; p3; p4; Some [("auth", access_token (self w1))]] "" = Ret body ->
  auth_failure (PyStr c) (net w1 (requests w1)) ->
  is_token_error (PyStr c) = false ->
  str_contains c "QUERY_LIMIT_EXCEEDED" = true ->
  call urlencode (S fuel) method p1 p2 p3 p4 w
  = call urlencode fuel method p1' p2 p3 p4 (sleep 2 (posted method body w1)).
Proof.
  intros He Hm Hp Hb (result & status & Ho & Hin & Hc) Ht Hs. cbn [call].
  rewrite He, Hm, Hp, Hb. unfold requests_post. fold (posted method body w1).
  destruct Ho as [-> | ->]; cbv zeta; rewrite Hin, Hc, Ht; unfold in_query_limit; by rewrite Hs.
Qed.

(** The code ['QUERY_LIMIT_EXCEEDED'] itself. *)
Lemma call_query_limit (fuel : nat) (method : pyval)
  (p1 p2 p3 p4 p1' : option dict) (w w1 : world) (v : pyval) (body : string) :
  ensure_token w = (w1, Ret v) ->
  bad_method method = false ->
  call_prepare urlencode method p1 = (p1', Ret tt) ->
  encode_groups urlencode
    [p1'; p2; p3; p4; Some [("auth", access_token (self w1))]] "" = Ret body ->
  auth_failure (PyStr "QUERY_LIMIT_EXCEEDED") (net w1 (requests w1)) ->
  call urlencode (S fuel) method p1 p2 p3 p4 w
  = call urlencode fuel method p1' p2 p3 p4 (sleep 2 (posted method body w1)).
Proof. intros. by eapply call_code_in_query_limit. Qed.

(** Any other string code: the same call is issued again at once, with
    neither refresh nor pause. *)
Lemma call_other_code (fuel : nat) (method : pyval) (c : string)
  (p1 p2 p3 p4 p1' : option dict) (w w1 : world) (v : pyval) (body : string) :
  ensure_token w = (w1, Ret v) ->
  bad_method method = false ->
  call_prepare urlencode method p1 = (p1', Ret tt) ->
  encode_groups urlencode
    [p1'; p2; p3; p4; Some [("auth", access_token (self w1))]] "" = Ret body ->
  auth_failure (PyStr c) (net w1 (requests w1)) ->
  is_token_error (PyStr c) = false ->
  str_contains c "QUERY_LIMIT_EXCEEDED" = false ->
  call urlencode (S fuel) method p1 p2 p3 p4 w
  = call urlencode fuel method p1' p2 p3 p4 (posted method body w1).
Proof.
  intros He Hm Hp Hb (result & status & Ho & Hin & Hc) Ht Hs. cbn [call].
  rewrite He, Hm, Hp, Hb. unfold requests_post. fold (posted method body w1).
  destruct Ho as [-> | ->]; cbv zeta; rewrite Hin, Hc, Ht; unfold in_query_limit; by rewrite Hs.
Qed.

(** [n] occurrences of ['QUERY_LIMIT_EXCEEDED'] cost [n] pauses and [n]
    re-issues; the answer that follows them is what [call] returns. *)
Lemma call_query_limit_clears (n : nat) :
  forall (fuel : nat) (method : pyval) (p1 p2 p3 p4 : option dict) (w : world)
         (body : string) (r : response) (v : pyval),
  truthy (access_token (self w)) = true ->
  bad_method method = false ->
  call_prepare urlencode method p1 = (p1, Ret tt) ->
  encode_groups urlencode
    [p1; p2; p3; p4; Some [("auth", access_token (self w))]] "" = Ret body ->
  (forall j, (j < n)%nat ->
     auth_failure (PyStr "QUERY_LIMIT_EXCEEDED") (net w (requests w + j)%nat)) ->
  net w (requests w + n)%nat = Responded r ->
  json r = Some v ->
  let out := call urlencode (S (n + fuel)) method p1 p2 p3 p4 w in
  out.2 = Ret v
  /\ sleeps (trace out.1.1) = sleeps (trace w) ++ replicate n 2
  /\ length (api_posts (trace out.1.1)) = (length (api_posts (trace w)) + S n)%nat.
Proof.
  induction n as [|n IH]; intros fuel method p1 p2 p3 p4 w body r v Ht Hm Hp Hb Hq Hr Hj.
  - assert (He : ensure_token w = (w, Ret PyNone)).
    { unfold ensure_token. by rewrite Ht. }
    rewrite Nat.add_0_r in Hr. intros out. subst out.
    change (S (0 + fuel)) with (S fuel). cbn [call]. rewrite He, Hm, Hp, Hb.
    unfold requests_post. rewrite Hr. cbv beta iota. rewrite Hj. simpl.
    unfold sleeps, api_posts. rewrite !omap_app, length_app. simpl.
    by rewrite !app_nil_r.
  - assert (He : ensure_token w = (w, Ret PyNone)).
    { unfold ensure_token. by rewrite Ht. }
    intros out. subst out.
    change (S (S n + fuel)) with (S (S (n + fuel))).
    rewrite (call_query_limit (S (n + fuel)) method p1 p2 p3 p4 p1 w w PyNone body
               He Hm Hp Hb).
    2: { specialize (Hq 0%nat). rewrite Nat.add_0_r in Hq. apply Hq. lia. }
    set (w' := sleep 2 (posted method body w)).
    destruct (IH fuel method p1 p2 p3 p4 w' body r v) as (H1 & H2 & H3); try done.
    + intros j Hlt. unfold w'. simpl.
      replace (S (requests w + j)) with (requests w + S j)%nat by lia.
      apply Hq. lia.
    + unfold w'. simpl.
      by replace (S (requests w + n)) with (requests w + S n)%nat by lia.
    + split; [done|]. split.
      * rewrite H2. unfold w', sleep, log, posted. simpl.
        unfold sleeps. rewrite !omap_app. simpl.
        by rewrite app_nil_r, <- app_assoc.
      * rewrite H3. unfold w', sleep, log, posted. simpl.
        unfold api_posts. rewrite !omap_app, !length_app. simpl. lia.
Qed.

End Retry.

(** * The properties on sample inputs *)

Ltac accepted_entries :=
  intros ? ?; cbn [dict_get];
  repeat (match goal with
          | |- context [String.eqb ?a ?k] =>
              destruct (String.eqb a k);
              [ let H := fresh in
                intros H; cbv iota in H; injection H as <-;
                eexists _, _; repeat split; try done; repeat constructor; by eexists
              | ]
          end);
  discriminate.

Ltac distinct_keys := apply (bool_decide_unpack _); vm_compute; exact I.

(** C3 (the code on an answer that carries an error code). The handler of
    lines 102-114 guards a block in which nothing raises the exceptions it
    names, so an error code that comes with the answer of the API never
    reaches it.  The server answers 503 with the code
    ['QUERY_LIMIT_EXCEEDED'], or 401 with the code ['expired_token'], and
    would answer the next request with a result: [call] returns the error
    answer after one request, with no pause, no refresh of the tokens and no
    second request. *)
Theorem call_returns_error_answer :
  let run status code :=
    call sample_urlencode 2 (PyStr "user.get") (Some [("ID", PyInt 1)])
      None None None
      (sample_world
         (script [Responded (mkResponse "" (Some (PyDict [("error", PyStr code)])) status)]
            (answer (PyDict [("result", PyInt 7)])))) in
  let limit := run 503 "QUERY_LIMIT_EXCEEDED" in
  let expired := run 401 "expired_token" in
  limit.2 = Ret (PyDict [("error", PyStr "QUERY_LIMIT_EXCEEDED")])
  /\ sleeps (trace limit.1.1) = []
  /\ length (api_posts (trace limit.1.1)) = 1%nat
  /\ expired.2 = Ret (PyDict [("error", PyStr "expired_token")])
  /\ oauth_posts (trace expired.1.1) = []
  /\ length (api_posts (trace expired.1.1)) = 1%nat
  /\ is_tokens_refreshed (self expired.1.1) = false.
Proof. vm_compute. repeat split. Qed.

(** The handler on a transport that itself raises the failure, at a code
    other than the four it names: the error code is ['LIMIT'], a substring
    of ['QUERY_LIMIT_EXCEEDED'], and line 108 tests [error_code in
    'QUERY_LIMIT_EXCEEDED']; [call] pauses two seconds and issues the
    request again, as it does for ['QUERY_LIMIT_EXCEEDED'] itself, and
    returns the second answer. *)
Lemma call_pauses_on_substring_code :
  let failure :=
    Failed (AuthenticationFailed_ (PyDict [("error", PyStr "LIMIT")]) 401) in
  let net := script [failure] (answer (PyDict [("result", PyInt 7)])) in
  let out :=
    call sample_urlencode 2 (PyStr "user.get") (Some [("ID", PyInt 1)])
      None None None (sample_world net) in
  in_query_limit (PyStr "LIMIT") = Ret true
  /\ is_token_error (PyStr "LIMIT") = false
  /\ out.2 = Ret (PyDict [("result", PyInt 7)])
  /\ sleeps (trace out.1.1) = [2]
  /\ length (api_posts (trace out.1.1)) = 2%nat.
Proof. vm_compute. repeat split. Qed.

(** C1 fails as stated: after the second, colliding chunk is merged the
    cumulative mapping still holds the value of the first chunk, not that
    of the later one. *)
Lemma batch_merge_first_value_wins :
  chunk_size <$> batch_calls (trace colliding_run.1) = [49; 1]%nat
  /\ container colliding_run.2 "result" = Some (PyDict [("dup", PyInt 1)])
  /\ container colliding_run.2 "result" <> Some (PyDict [("dup", PyInt 2)]).
Proof. vm_compute. repeat split. discriminate. Qed.

Lemma merge_chunk_keeps_cumulative_witness :
  exists z,
    dict_get [("result", PyDict [("dup", PyInt 1); ("new", PyInt 3)])] "result"
    = Some (PyDict z)
    /\ forall k, dict_get z k
                 = match dict_get [("dup", PyInt 1)] k with
                   | Some v => Some v
                   | None => dict_get [("dup", PyInt 2); ("new", PyInt 3)] k
                   end.
Proof.
  apply (merge_chunk_keeps_cumulative
           [("result", PyDict [("result", PyDict [("dup", PyInt 2); ("new", PyInt 3)])])]
           [("result", PyDict [("dup", PyInt 2); ("new", PyInt 3)])]
           [("result", PyDict [("dup", PyInt 1)])]
           [("result", PyDict [("dup", PyInt 1); ("new", PyInt 3)])]
           [("dup", PyInt 2); ("new", PyInt 3)]
           [("dup", PyInt 1)]
           "result").
  - reflexivity.
  - apply (bool_decide_unpack _). vm_compute. exact I.
  - apply (bool_decide_unpack _). vm_compute. exact I.
  - reflexivity.
  - reflexivity.
  - reflexivity.
Defined.

Lemma encode_cmd_insertion_order_witness :
  encode_cmd sample_urlencode (PyDict [("b", PyStr "x"); ("a", PyStr "y")])
  = encode_cmd sample_urlencode (PyDict [("a", PyStr "y"); ("b", PyStr "x")]).
Proof.
  apply (encode_cmd_insertion_order sample_urlencode
           [("b", PyStr "x"); ("a", PyStr "y")] [("a", PyStr "y"); ("b", PyStr "x")]).
  - apply (bool_decide_unpack _). vm_compute. exact I.
  - apply Permutation_swap.
Defined.

(** C5 fails as stated: [batch] on an input without ['halt'] returns the
    error-keyed mapping; it does not raise. *)
Lemma batch_missing_halt_returns :
  let out :=
    batch sample_urlencode 1 [("cmd", PyDict (sample_cmd 2))]
      (sample_world (script [] (Failed (ConnectionError_ None)))) in
  out.2 = Ret (PyDict [("error", PyStr "Invalid batch structure")])
  /\ ~ raises out.2.
Proof.
  vm_compute. split; [reflexivity|]. intros [e He]. discriminate He.
Qed.

Lemma validation_failures_witness :
  let w := sample_world (script [] (Failed (ConnectionError_ None))) in
  raises (call sample_urlencode 1 (PyStr "") None None None None w).2
  /\ (prepare_batch sample_urlencode (PyList [])).2
     = Raise (Exception_ "Invalid 'cmd' structure")
  /\ batch sample_urlencode 1 [("cmd", PyDict (sample_cmd 2))] w
     = (w, Ret (PyDict [("error", PyStr "Invalid batch structure")])).
Proof.
  intros w.
  destruct (validation_failures sample_urlencode 0 (PyStr "") None None None None
              (PyList []) [("cmd", PyDict (sample_cmd 2))] w) as (H1 & H2 & H3).
  split; [apply H1; reflexivity|]. split.
  - apply H2. intros d. discriminate.
  - apply H3. left. reflexivity.
Defined.

Lemma prepare_batch_records_witness :
  (prepare_batch sample_urlencode
     (PyDict [("b", PyList [PyStr "crm.lead.get"; PyDict [("ID", PyInt 2)]]);
              ("a", PyList [PyStr "user.get"; PyDict [("ID", PyInt 1)]; PyDict []])])).2
  = Ret [("a", PyStr "user.get?ID=(1)&&"); ("b", PyStr "crm.lead.get?ID=(2)&")].
Proof.
  rewrite (proj1 (prepare_batch_records sample_urlencode)).
  - vm_compute. reflexivity.
  - apply (bool_decide_unpack _). vm_compute. exact I.
  - accepted_entries.
Defined.

(** C7 fails as stated: a faulty sub-call that comes first in the order of
    the ids raises its own exception, not the validation error, although a
    later per-id value is not a list or is led by ['batch']. *)
Lemma prepare_batch_earlier_fault_first :
  let d1 := [("a", PyList []); ("b", PyStr "user.get")] in
  let d2 := [("a", PyList [PyStr "user.get"; PyInt 3]); ("b", PyList [PyStr "batch"])] in
  malformed_entry (PyStr "user.get")
  /\ (prepare_batch sample_urlencode (PyDict d1)).2 = Raise IndexError_
  /\ malformed_entry (PyList [PyStr "batch"])
  /\ prepare_batch sample_urlencode (PyDict d2)
     = (PyDict [("a", PyList [PyInt 3]); ("b", PyList [PyStr "batch"])], Raise TypeError_)
  /\ (forall msg,
        (prepare_batch sample_urlencode (PyDict d1)).2 <> Raise (Exception_ msg)
        /\ (prepare_batch sample_urlencode (PyDict d2)).2 <> Raise (Exception_ msg)).
Proof.
  split; [left; discriminate|]. split; [reflexivity|].
  split; [right; by eexists _, _|]. split; [reflexivity|].
  intros msg. split; discriminate.
Qed.

Lemma prepare_batch_rejects_witness :
  let d := [("b", PyList [PyStr "batch"; PyDict []]);
            ("c", PyList [PyStr "user.get"]);
            ("a", PyList [PyStr "user.get"; PyDict [("ID", PyInt 1)]])] in
  raises (prepare_batch sample_urlencode (PyDict d)).2
  /\ exists msg d',
       prepare_batch sample_urlencode (PyDict d) = (PyDict d', Raise (Exception_ msg))
       /\ dict_get d' "c" = Some (PyList [PyStr "user.get"]).
Proof.
  intros d.
  assert (Hbad : malformed_entry (PyList [PyStr "batch"; PyDict []])).
  { right. by eexists _, _. }
  destruct (prepare_batch_rejects sample_urlencode (PyDict d)) as (H1 & _ & H3).
  { exists "b", (PyList [PyStr "batch"; PyDict []]). by split. }
  split; [exact H1|].
  destruct (H3 ["a"] ["c"] "b" (PyList [PyStr "batch"; PyDict []]))
    as (msg & d' & Hd & Hafter); try done.
  - distinct_keys.
  - intros j Hj. apply list_elem_of_singleton in Hj as ->.
    eexists. split; [reflexivity|].
    eexists _, _. repeat split; try done. repeat constructor. by eexists.
  - exists msg, d'. split; [exact Hd|]. rewrite Hafter by by left. reflexivity.
Defined.

Lemma init_requires_credential_witness :
  exists self,
    Bitrix24_init "example.bitrix24.com" PyNone (PyStr "") (PyStr "id") (PyStr "secret")
      (PyStr "code") None = Ret self
    /\ domain self = "example.bitrix24.com" /\ access_token self = PyNone
    /\ refresh_token self = PyStr "" /\ client_id self = PyStr "id"
    /\ client_secret self = PyStr "secret" /\ code self = PyStr "code".
Proof.
  apply (init_requires_credential "example.bitrix24.com" PyNone (PyStr "")
           (PyStr "id") (PyStr "secret") (PyStr "code") None).
  intros (_ & _ & H). discriminate H.
Defined.

(** C9 fails as stated: a connect timeout is answered as a connection
    failure, not with the mapping that embeds the timeout; and on a
    connection failure that carries no request [call] raises. *)
Lemma call_connect_timeout_not_reported :
  let run o :=
    call sample_urlencode 1 (PyStr "user.get") (Some [("ID", PyInt 1)]) None None None
      (sample_world (script [] o)) in
  let url := "https://example.bitrix24.com/rest/user.get.json" in
  (run (Failed (ConnectTimeout_ (Some url)))).2
  = Ret (PyDict [("error", PyStr "Max retries exceeded [1]")])
  /\ (run (Failed (ConnectTimeout_ (Some url)))).2
     <> Ret (PyDict [("error", PyStr "Timeout waiting expired [60 sec]")])
  /\ (run (Failed ReadTimeout_)).2
     = Ret (PyDict [("error", PyStr "Timeout waiting expired [60 sec]")])
  /\ (run (Failed (ConnectionError_ None))).2 = Raise AttributeError_.
Proof. vm_compute. repeat split. discriminate. Qed.

Lemma call_transport_failures_witness :
  let url := "https://example.bitrix24.com/rest/user.get.json" in
  let run o :=
    call sample_urlencode 1 (PyStr "user.get") (Some [("ID", PyInt 1)]) None None None
      (sample_world (script [] o)) in
  let after o :=
    posted (PyStr "user.get") "ID=(1)&auth=(token)&" (sample_world (script [] o)) in
  run (Responded (mkResponse "<html>" None 502))
  = (after (Responded (mkResponse "<html>" None 502)), Some [("ID", PyInt 1)],
     Ret (PyDict [("error", PyStr "Error on decode api response [<html>]")]))
  /\ run (Failed ReadTimeout_)
     = (after (Failed ReadTimeout_), Some [("ID", PyInt 1)],
        Ret (PyDict [("error", PyStr "Timeout waiting expired [60 sec]")]))
  /\ run (Failed (ConnectionError_ (Some url)))
     = (after (Failed (ConnectionError_ (Some url))), Some [("ID", PyInt 1)],
        Ret (PyDict [("error", PyStr "Max retries exceeded [1]")])).
Proof.
  intros url run after.
  pose (thm o :=
    call_transport_failures sample_urlencode 0 (PyStr "user.get")
      (Some [("ID", PyInt 1)]) None None None (Some [("ID", PyInt 1)])
      (sample_world (script [] o)) (sample_world (script [] o)) PyNone
      "ID=(1)&auth=(token)&" eq_refl eq_refl eq_refl eq_refl).
  split; [|split].
  - apply (proj1 (thm (Responded (mkResponse "<html>" None 502)))
             (mkResponse "<html>" None 502) eq_refl eq_refl).
  - apply (proj1 (proj2 (thm (Failed ReadTimeout_))) eq_refl).
  - apply (proj2 (proj2 (thm (Failed (ConnectionError_ (Some url))))) url). by left.
Defined.

Lemma batch_preparation_mutates_witness :
  (exists d',
     (prepare_batch sample_urlencode
        (PyDict [("a", PyList [PyStr "user.get"; PyDict [("ID", PyInt 1)]])])).1
     = PyDict d'
     /\ dict_get d' "a" = Some (PyList [PyDict [("ID", PyInt 1)]]))
  /\ (call sample_urlencode 1 (PyStr "batch")
        (Some [("halt", PyInt 0);
               ("cmd", PyDict [("a", PyList [PyStr "user.get"; PyDict [("ID", PyInt 1)]])])])
        None None None (sample_world (script [] (answer (PyDict []))))).1.2
     = Some [("halt", PyInt 0);
             ("cmd", PyDict [("a", PyStr "user.get?ID=(1)&")]);
             ("prepared", PyBool true)].
Proof.
  destruct (batch_preparation_mutates sample_urlencode) as [Ha Hb]. split.
  - destruct (Ha [("a", PyList [PyStr "user.get"; PyDict [("ID", PyInt 1)]])])
      as (d' & Hd & _ & Hget).
    + apply (bool_decide_unpack _). vm_compute. exact I.
    + accepted_entries.
    + exists d'. split; [exact Hd|]. by apply (Hget "a" (PyStr "user.get")).
  - apply (Hb 0%nat
             [("halt", PyInt 0);
              ("cmd", PyDict [("a", PyList [PyStr "user.get"; PyDict [("ID", PyInt 1)]])])]
             [("a", PyStr "user.get?ID=(1)&")]
             (PyDict [("a", PyList [PyStr "user.get"; PyDict [("ID", PyInt 1)]])])
             None None None
             (sample_world (script [] (answer (PyDict []))))
             (sample_world (script [] (answer (PyDict [])))) PyNone
             eq_refl eq_refl eq_refl eq_refl).
Defined.

(** * Further properties *)

(** ** [authenticate] and [refresh_tokens] *)

Lemma store_tokens_ok (failed : pyval -> Z -> exn) (w : world) (r : response)
  (result a t : pyval) :
  json r = Some result -> status_code r = 200 ->
  py_getitem result (PyStr "access_token") = Ret a ->
  py_getitem result (PyStr "refresh_token") = Ret t ->
  store_tokens failed (Responded r) w
  = (set_self (with_tokens a t (self w)) w, Ret result).
Proof.
  intros Hj Hs Ha Ht. unfold store_tokens. rewrite Hj, Hs, Ha. simpl.
  by rewrite Ht.
Qed.

(** X1. When the oauth server answers 200 with a body that holds both
    tokens, [refresh_tokens] makes one request carrying the old refresh
    token, stores the new pair, raises the refreshed flag and returns the
    decoded body; [tokens] then shows the new pair. *)
Theorem refresh_tokens_stores (w : world) (r : response) (result a t : pyval) :
  net w (requests w) = Responded r ->
  json r = Some result -> status_code r = 200 ->
  py_getitem result (PyStr "access_token") = Ret a ->
  py_getitem result (PyStr "refresh_token") = Ret t ->
  refresh_tokens w
  = (set_self (with_tokens a t (self w)) (oauth_posted (refresh_grant (self w)) w),
     Ret result)
  /\ tokens (self (refresh_tokens w).1) = [("auth_token", a); ("refresh_token", t)]
  /\ is_tokens_refreshed (self (refresh_tokens w).1) = true.
Proof.
  intros Hn Hj Hs Ha Ht.
  assert (H : refresh_tokens w
              = (set_self (with_tokens a t (self w))
                   (oauth_posted (refresh_grant (self w)) w), Ret result)).
  { unfold refresh_tokens, requests_post. rewrite Hn.
    by rewrite (store_tokens_ok _ _ r result a t). }
  rewrite H. done.
Qed.

(** X2. When the oauth server answers 200 with a body that holds both
    tokens, [authenticate] makes one request carrying the authorization
    code, stores the pair, raises the refreshed flag and returns the decoded
    body. *)
Theorem authenticate_stores (w : world) (r : response) (result a t : pyval) :
  net w (requests w) = Responded r ->
  json r = Some result -> status_code r = 200 ->
  py_getitem result (PyStr "access_token") = Ret a ->
  py_getitem result (PyStr "refresh_token") = Ret t ->
  authenticate w
  = (set_self (with_tokens a t (self w)) (oauth_posted (code_grant (self w)) w),
     Ret result)
  /\ tokens (self (authenticate w).1) = [("auth_token", a); ("refresh_token", t)]
  /\ is_tokens_refreshed (self (authenticate w).1) = true.
Proof.
  intros Hn Hj Hs Ha Ht.
  assert (H : authenticate w
              = (set_self (with_tokens a t (self w))
                   (oauth_posted (code_grant (self w)) w), Ret result)).
  { unfold authenticate, requests_post. rewrite Hn.
    by rewrite (store_tokens_ok _ _ r result a t). }
  rewrite H. done.
Qed.

(** X3. When the oauth server answers with a status other than 200 and a
    decodable body, [refresh_tokens] raises [TokenRenewFailed] and
    [authenticate] raises [AuthenticationFailed], each carrying the decoded
    body and the status; the client is left as it was. *)
Theorem oauth_rejection_raises (w : world) (r : response) (result : pyval) :
  net w (requests w) = Responded r ->
  json r = Some result -> status_code r <> 200 ->
  refresh_tokens w
  = (oauth_posted (refresh_grant (self w)) w,
     Raise (TokenRenewFailed_ result (status_code r)))
  /\ authenticate w
     = (oauth_posted (code_grant (self w)) w,
        Raise (AuthenticationFailed_ result (status_code r)))
  /\ self (refresh_tokens w).1 = self w
  /\ self (authenticate w).1 = self w.
Proof.
  intros Hn Hj Hs.
  assert (Hb : negb (status_code r =? 200) = true).
  { apply negb_true_iff. by apply Z.eqb_neq. }
  assert (H1 : refresh_tokens w
               = (oauth_posted (refresh_grant (self w)) w,
                  Raise (TokenRenewFailed_ result (status_code r)))).
  { unfold refresh_tokens, requests_post, store_tokens. by rewrite Hn, Hj, Hb. }
  assert (H2 : authenticate w
               = (oauth_posted (code_grant (self w)) w,
                  Raise (AuthenticationFailed_ result (status_code r)))).
  { unfold authenticate, requests_post, store_tokens. by rewrite Hn, Hj, Hb. }
  rewrite H1, H2. done.
Qed.

(** X4. The two tokens are not stored together: when the 200 body holds an
    access token but reading its refresh token raises, [refresh_tokens]
    raises that exception with the new access token already stored, while
    the old refresh token and the refreshed flag stay as they were. *)
Theorem refresh_tokens_partial_update (w : world) (r : response)
  (result a : pyval) (e : exn) :
  net w (requests w) = Responded r ->
  json r = Some result -> status_code r = 200 ->
  py_getitem result (PyStr "access_token") = Ret a ->
  py_getitem result (PyStr "refresh_token") = Raise e ->
  refresh_tokens w
  = (set_self (set_access_token a (self w)) (oauth_posted (refresh_grant (self w)) w),
     Raise e)
  /\ access_token (self (refresh_tokens w).1) = a
  /\ refresh_token (self (refresh_tokens w).1) = refresh_token (self w)
  /\ is_tokens_refreshed (self (refresh_tokens w).1) = is_tokens_refreshed (self w).
Proof.
  intros Hn Hj Hs Ha Ht.
  assert (H : refresh_tokens w
              = (set_self (set_access_token a (self w))
                   (oauth_posted (refresh_grant (self w)) w), Raise e)).
  { unfold refresh_tokens, requests_post, store_tokens.
    rewrite Hn, Hj, Hs, Ha. simpl. by rewrite Ht. }
  rewrite H. done.
Qed.


Lemma refresh_tokens_ok (w : world) (r : response) (result a t : pyval) :
  net w (requests w) = Responded r ->
  json r = Some result -> status_code r = 200 ->
  py_getitem result (PyStr "access_token") = Ret a ->
  py_getitem result (PyStr "refresh_token") = Ret t ->
  refresh_tokens w
  = (set_self (with_tokens a t (self w)) (oauth_posted (refresh_grant (self w)) w),
     Ret result).
Proof.
  intros Hn Hj Hs Ha Ht. unfold refresh_tokens, requests_post. rewrite Hn.
  by rewrite (store_tokens_ok _ _ r result a t).
Qed.

Lemma authenticate_ok (w : world) (r : response) (result a t : pyval) :
  net w (requests w) = Responded r ->
  json r = Some result -> status_code r = 200 ->
  py_getitem result (PyStr "access_token") = Ret a ->
  py_getitem result (PyStr "refresh_token") = Ret t ->
  authenticate w
  = (set_self (with_tokens a t (self w)) (oauth_posted (code_grant (self w)) w),
     Ret result).
Proof.
  intros Hn Hj Hs Ha Ht. unfold authenticate, requests_post. rewrite Hn.
  by rewrite (store_tokens_ok _ _ r result a t).
Qed.

Lemma refresh_tokens_rejected (w : world) (r : response) (result : pyval) :
  net w (requests w) = Responded r ->
  json r = Some result -> status_code r <> 200 ->
  refresh_tokens w
  = (oauth_posted (refresh_grant (self w)) w,
     Raise (TokenRenewFailed_ result (status_code r))).
Proof.
  intros Hn Hj Hs.
  assert (Hb : negb (status_code r =? 200) = true).
  { apply negb_true_iff. by apply Z.eqb_neq. }
  unfold refresh_tokens, requests_post, store_tokens. by rewrite Hn, Hj, Hb.
Qed.

Lemma authenticate_rejected (w : world) (r : response) (result : pyval) :
  net w (requests w) = Responded r ->
  json r = Some result -> status_code r <> 200 ->
  authenticate w
  = (oauth_posted (code_grant (self w)) w,
     Raise (AuthenticationFailed_ result (status_code r))).
Proof.
  intros Hn Hj Hs.
  assert (Hb : negb (status_code r =? 200) = true).
  { apply negb_true_iff. by apply Z.eqb_neq. }
  unfold authenticate, requests_post, store_tokens. by rewrite Hn, Hj, Hb.
Qed.

(** The token acquisition of lines 62-66, when the client holds no access
    token. *)
Lemma ensure_token_absent (w : world) :
  truthy (access_token (self w)) = false ->
  ensure_token w
  = if truthy (refresh_token (self w)) then refresh_tokens w else authenticate w.
Proof. intros H. unfold ensure_token. by rewrite H. Qed.

Lemma ensure_token_failed (w : world) (e : exn) :
  truthy (access_token (self w)) = false ->
  net w (requests w) = Failed e ->
  ensure_token w = (oauth_posted (first_grant (self w)) w, Raise e).
Proof.
  intros H Hn. rewrite ensure_token_absent by done. unfold first_grant.
  destruct (truthy (refresh_token (self w)));
    unfold refresh_tokens, authenticate, requests_post, store_tokens; by rewrite Hn.
Qed.

Lemma ensure_token_ok (w : world) (r : response) (result a t : pyval) :
  truthy (access_token (self w)) = false ->
  net w (requests w) = Responded r ->
  json r = Some result -> status_code r = 200 ->
  py_getitem result (PyStr "access_token") = Ret a ->
  py_getitem result (PyStr "refresh_token") = Ret t ->
  ensure_token w
  = (set_self (with_tokens a t (self w)) (oauth_posted (first_grant (self w)) w),
     Ret result).
Proof.
  intros H Hn Hj Hs Ha Ht. rewrite ensure_token_absent by done. unfold first_grant.
  destruct (truthy (refresh_token (self w)));
    [by eapply refresh_tokens_ok | by eapply authenticate_ok].
Qed.

Lemma ensure_token_present (w : world) :
  truthy (access_token (self w)) = true -> ensure_token w = (w, Ret PyNone).
Proof. intros H. unfold ensure_token. by rewrite H. Qed.

Section CallPaths.

Variable urlencode : pyval -> string.

(** ** [call]: acquiring the token *)

(** X5. A failure of the token acquisition at the head of [call] is not
    handled by [call]: with no access token, an exception raised by the
    request to the oauth server (a connection error, a timeout, an
    authentication failure, whatever its error code) leaves [call] as it is,
    after that one request, with no request to the API and no retry; and a
    rejection by the oauth server leaves it as [TokenRenewFailed] or
    [AuthenticationFailed]. *)
Theorem call_token_acquisition_fails (fuel : nat) (method : pyval)
  (p1 p2 p3 p4 : option dict) (w : world) :
  truthy (access_token (self w)) = false ->
  (forall e, net w (requests w) = Failed e ->
     call urlencode (S fuel) method p1 p2 p3 p4 w
     = (oauth_posted (first_grant (self w)) w, p1, Raise e))
  /\ (forall r result,
        net w (requests w) = Responded r ->
        json r = Some result -> status_code r <> 200 ->
        call urlencode (S fuel) method p1 p2 p3 p4 w
        = (oauth_posted (first_grant (self w)) w, p1,
           Raise (if truthy (refresh_token (self w))
                  then TokenRenewFailed_ result (status_code r)
                  else AuthenticationFailed_ result (status_code r)))).
Proof.
  intros Ht. split.
  - intros e Hn. cbn [call]. by rewrite (ensure_token_failed w e).
  - intros r result Hn Hj Hs. cbn [call]. rewrite ensure_token_absent by done.
    unfold first_grant. destruct (truthy (refresh_token (self w))).
    + by rewrite (refresh_tokens_rejected w r result).
    + by rewrite (authenticate_rejected w r result).
Qed.

(** X6. With no access token, [call] first obtains a pair of tokens (by the
    refresh token if the client holds one, else by the authorization code)
    and then sends its request with the new access token in the [auth]
    field; the decoded answer is returned and the client keeps the pair. *)
Theorem call_acquires_token_first (fuel : nat) (method : pyval)
  (p1 p2 p3 p4 p1' : option dict) (w : world) (r r2 : response)
  (result a t v : pyval) (body : string) :
  truthy (access_token (self w)) = false ->
  net w (requests w) = Responded r ->
  json r = Some result -> status_code r = 200 ->
  py_getitem result (PyStr "access_token") = Ret a ->
  py_getitem result (PyStr "refresh_token") = Ret t ->
  bad_method method = false ->
  call_prepare urlencode method p1 = (p1', Ret tt) ->
  encode_groups urlencode [p1'; p2; p3; p4; Some [("auth", a)]] "" = Ret body ->
  net w (S (requests w)) = Responded r2 ->
  json r2 = Some v ->
  let w1 := set_self (with_tokens a t (self w)) (oauth_posted (first_grant (self w)) w) in
  call urlencode (S fuel) method p1 p2 p3 p4 w = (posted method body w1, p1', Ret v)
  /\ trace (posted method body w1)
     = trace w ++ [EvOAuth (oauth_url (self w)) (first_grant (self w));
                   EvPost (api_url (domain (self w)) (method_name method)) body
                     (timeout (self w))]
  /\ tokens (self (posted method body w1)) = [("auth_token", a); ("refresh_token", t)].
Proof.
  intros Ht Hn Hj Hs Ha Hr Hm Hp Hb Hn2 Hj2 w1.
  split; [|split].
  - cbn [call]. rewrite (ensure_token_ok w r result a t) by done.
    fold w1. rewrite Hm, Hp. change (access_token (self w1)) with a.
    rewrite Hb. unfold requests_post. change (net w1 (requests w1)) with (net w (S (requests w))).
    by rewrite Hn2, Hj2.
  - simpl. by rewrite <- app_assoc.
  - done.
Qed.

(** ** [call]: the answer *)

(** X7. Whatever decodes is returned as it is, after one request and with
    no pause: the status code of the answer is not looked at, and a body
    that carries an error code (['QUERY_LIMIT_EXCEEDED'], ['expired_token'],
    ...) is returned like any other. *)
Theorem call_returns_decoded_json (fuel : nat) (method : pyval)
  (p1 p2 p3 p4 p1' : option dict) (w w1 : world) (v0 result : pyval)
  (body : string) (r : response) :
  ensure_token w = (w1, Ret v0) ->
  bad_method method = false ->
  call_prepare urlencode method p1 = (p1', Ret tt) ->
  encode_groups urlencode
    [p1'; p2; p3; p4; Some [("auth", access_token (self w1))]] "" = Ret body ->
  net w1 (requests w1) = Responded r ->
  json r = Some result ->
  call urlencode (S fuel) method p1 p2 p3 p4 w = (posted method body w1, p1', Ret result)
  /\ sleeps (trace (posted method body w1)) = sleeps (trace w1)
  /\ api_posts (trace (posted method body w1))
     = api_posts (trace w1)
       ++ [(api_url (domain (self w1)) (method_name method), body)].
Proof.
  intros He Hm Hp Hb Hn Hj. split; [|split].
  - cbn [call]. rewrite He, Hm, Hp, Hb. unfold requests_post. by rewrite Hn, Hj.
  - unfold sleeps, posted. simpl. rewrite omap_app. simpl. by rewrite app_nil_r.
  - unfold api_posts, posted. simpl. by rewrite omap_app.
Qed.

(** ** [call]: the handler of authentication failures *)

(** X8. An authentication or token-renewal failure whose result holds no
    ['error'] is not retried: [call] returns the result of the exception
    (the empty mapping when the exception was built without one). *)
Theorem call_failure_without_error_key (fuel : nat) (method : pyval)
  (p1 p2 p3 p4 p1' : option dict) (w w1 : world) (v0 result : pyval)
  (status : Z) (body : string) :
  ensure_token w = (w1, Ret v0) ->
  bad_method method = false ->
  call_prepare urlencode method p1 = (p1', Ret tt) ->
  encode_groups urlencode
    [p1'; p2; p3; p4; Some [("auth", access_token (self w1))]] "" = Ret body ->
  net w1 (requests w1) = Failed (AuthenticationFailed_ result status)
  \/ net w1 (requests w1) = Failed (TokenRenewFailed_ result status) ->
  py_contains_str "error" (exn_result result) = Ret false ->
  call urlencode (S fuel) method p1 p2 p3 p4 w
  = (posted method body w1, p1', Ret (exn_result result))
  /\ (result = PyNone -> exn_result result = PyDict []).
Proof.
  intros He Hm Hp Hb Hn Hc. split; [|by intros ->].
  cbn [call]. rewrite He, Hm, Hp, Hb. unfold requests_post.
  destruct Hn as [-> | ->]; cbv zeta; by rewrite Hc.
Qed.

(** X9. An error code that is not a string makes the handler raise
    [TypeError] (line 108 asks whether it occurs in a string): nothing is
    refreshed, nothing is issued again. *)
Theorem call_non_string_code (fuel : nat) (method c : pyval)
  (p1 p2 p3 p4 p1' : option dict) (w w1 : world) (v0 : pyval) (body : string) :
  ensure_token w = (w1, Ret v0) ->
  bad_method method = false ->
  call_prepare urlencode method p1 = (p1', Ret tt) ->
  encode_groups urlencode
    [p1'; p2; p3; p4; Some [("auth", access_token (self w1))]] "" = Ret body ->
  auth_failure c (net w1 (requests w1)) ->
  is_str c = false ->
  call urlencode (S fuel) method p1 p2 p3 p4 w
  = (posted method body w1, p1', Raise TypeError_).
Proof.
  intros He Hm Hp Hb (result & status & Ho & Hin & Hc) Hs.
  assert (Ht : is_token_error c = false) by by destruct c.
  assert (Hq : in_query_limit c = Raise TypeError_) by by destruct c.
  cbn [call]. rewrite He, Hm, Hp, Hb. unfold requests_post.
  destruct Ho as [-> | ->]; cbv zeta; by rewrite Hin, Hc, Ht, Hq.
Qed.

(** X28. A connection failure, or a connect timeout, whose exception
    carries no request makes [call] raise [AttributeError]: line 99 reads
    [e.request.url] before the error mapping of line 101 is built.  The
    request has been made once and is not issued again. *)
Theorem call_connection_failure_without_request (fuel : nat) (method : pyval)
  (p1 p2 p3 p4 p1' : option dict) (w w1 : world) (v : pyval) (body : string) :
  ensure_token w = (w1, Ret v) ->
  bad_method method = false ->
  call_prepare urlencode method p1 = (p1', Ret tt) ->
  encode_groups urlencode
    [p1'; p2; p3; p4; Some [("auth", access_token (self w1))]] "" = Ret body ->
  net w1 (requests w1) = Failed (ConnectionError_ None)
  \/ net w1 (requests w1) = Failed (ConnectTimeout_ None) ->
  call urlencode (S fuel) method p1 p2 p3 p4 w
  = (posted method body w1, p1', Raise AttributeError_).
Proof.
  intros He Hm Hp Hb Hnet. cbn [call]. rewrite He, Hm, Hp, Hb.
  unfold requests_post, posted. by destruct Hnet as [-> | ->].
Qed.

End CallPaths.

Section CallRecovery.

Variable urlencode : pyval -> string.

Lemma call_answer (fuel : nat) (method : pyval)
  (p1 p2 p3 p4 p1' : option dict) (w w1 : world) (v0 result : pyval)
  (body : string) (r : response) :
  ensure_token w = (w1, Ret v0) ->
  bad_method method = false ->
  call_prepare urlencode method p1 = (p1', Ret tt) ->
  encode_groups urlencode
    [p1'; p2; p3; p4; Some [("auth", access_token (self w1))]] "" = Ret body ->
  net w1 (requests w1) = Responded r ->
  json r = Some result ->
  call urlencode (S fuel) method p1 p2 p3 p4 w = (posted method body w1, p1', Ret result).
Proof.
  intros He Hm Hp Hb Hn Hj.
  cbn [call]. rewrite He, Hm, Hp, Hb. unfold requests_post. by rewrite Hn, Hj.
Qed.

(** X10. After a failure with one of the three token codes and a successful
    refresh, the call is issued again with the same parameter groups but
    with the new access token in its [auth] field, and the answer to that
    second request is returned. *)
Theorem call_refresh_renews_auth (fuel : nat) (method c : pyval)
  (p1 p2 p3 p4 p1' : option dict) (w w1 : world) (v0 result a t v : pyval)
  (body body2 : string) (r r3 : response) :
  ensure_token w = (w1, Ret v0) ->
  bad_method method = false ->
  call_prepare urlencode method p1 = (p1', Ret tt) ->
  call_prepare urlencode method p1' = (p1', Ret tt) ->
  encode_groups urlencode
    [p1'; p2; p3; p4; Some [("auth", access_token (self w1))]] "" = Ret body ->
  auth_failure c (net w1 (requests w1)) ->
  is_token_error c = true ->
  net w1 (S (requests w1)) = Responded r ->
  json r = Some result -> status_code r = 200 ->
  py_getitem result (PyStr "access_token") = Ret a ->
  py_getitem result (PyStr "refresh_token") = Ret t ->
  truthy a = true ->
  encode_groups urlencode [p1'; p2; p3; p4; Some [("auth", a)]] "" = Ret body2 ->
  net w1 (S (S (requests w1))) = Responded r3 ->
  json r3 = Some v ->
  let w2 := posted method body w1 in
  let w3 := set_self (with_tokens a t (self w1)) (oauth_posted (refresh_grant (self w1)) w2) in
  call urlencode (S (S fuel)) method p1 p2 p3 p4 w = (posted method body2 w3, p1', Ret v)
  /\ api_posts (trace (posted method body2 w3))
     = api_posts (trace w1)
       ++ [(api_url (domain (self w1)) (method_name method), body);
           (api_url (domain (self w1)) (method_name method), body2)]
  /\ access_token (self (posted method body2 w3)) = a.
Proof.
  intros He Hm Hp Hp' Hb Hf Ht Hn Hj Hs Ha Hr Hta Hb2 Hn3 Hj3 w2 w3.
  split; [|split].
  - rewrite (call_token_error urlencode (S fuel) method c p1 p2 p3 p4 p1' w w1 v0 body)
      by done.
    fold w2. rewrite (refresh_tokens_ok w2 r result a t) by done.
    change (set_self (with_tokens a t (self w2))
              (oauth_posted (refresh_grant (self w2)) w2)) with w3.
    apply (call_answer fuel method p1' p2 p3 p4 p1' w3 w3 PyNone v body2 r3);
      try done.
    by apply ensure_token_present.
  - unfold api_posts, posted, w3, w2, oauth_posted, posted. simpl.
    rewrite !omap_app. simpl. by rewrite !app_nil_r, <- app_assoc.
  - done.
Qed.

(** X11. After a failure with one of the three token codes, a refresh that
    the oauth server rejects ends the call: [TokenRenewFailed] is raised to
    the caller and the request is not issued again. *)
Theorem call_refresh_rejected (fuel : nat) (method c : pyval)
  (p1 p2 p3 p4 p1' : option dict) (w w1 : world) (v0 result : pyval)
  (body : string) (r : response) :
  ensure_token w = (w1, Ret v0) ->
  bad_method method = false ->
  call_prepare urlencode method p1 = (p1', Ret tt) ->
  encode_groups urlencode
    [p1'; p2; p3; p4; Some [("auth", access_token (self w1))]] "" = Ret body ->
  auth_failure c (net w1 (requests w1)) ->
  is_token_error c = true ->
  net w1 (S (requests w1)) = Responded r ->
  json r = Some result -> status_code r <> 200 ->
  let w2 := posted method body w1 in
  call urlencode (S fuel) method p1 p2 p3 p4 w
  = (oauth_posted (refresh_grant (self w1)) w2, p1',
     Raise (TokenRenewFailed_ result (status_code r)))
  /\ api_posts (trace (oauth_posted (refresh_grant (self w1)) w2))
     = api_posts (trace w1)
       ++ [(api_url (domain (self w1)) (method_name method), body)].
Proof.
  intros He Hm Hp Hb Hf Ht Hn Hj Hs w2. split.
  - rewrite (call_token_error urlencode fuel method c p1 p2 p3 p4 p1' w w1 v0 body)
      by done.
    fold w2. by rewrite (refresh_tokens_rejected w2 r result).
  - unfold api_posts, w2, oauth_posted, posted. simpl.
    rewrite !omap_app. simpl. by rewrite !app_nil_r.
Qed.

(** X12. While the transport fails with ['QUERY_LIMIT_EXCEEDED'], [call]
    sends the very same request again after each pause of two seconds: [n]
    failures followed by an answer give [n + 1] identical requests, each but
    the last followed by one pause, and the answer is returned; the client
    is left as it was. *)
Theorem call_query_limit_trace (n : nat) :
  forall (fuel : nat) (method : pyval) (p1 p2 p3 p4 : option dict) (w : world)
         (body : string) (r : response) (v : pyval),
  truthy (access_token (self w)) = true ->
  bad_method method = false ->
  call_prepare urlencode method p1 = (p1, Ret tt) ->
  encode_groups urlencode
    [p1; p2; p3; p4; Some [("auth", access_token (self w))]] "" = Ret body ->
  (forall j, (j < n)%nat ->
     auth_failure (PyStr "QUERY_LIMIT_EXCEEDED") (net w (requests w + j)%nat)) ->
  net w (requests w + n)%nat = Responded r ->
  json r = Some v ->
  let post := EvPost (api_url (domain (self w)) (method_name method)) body
                (timeout (self w)) in
  let out := call urlencode (S (n + fuel)) method p1 p2 p3 p4 w in
  out.2 = Ret v
  /\ trace out.1.1 = trace w ++ concat (replicate n [post; EvSleep 2]) ++ [post]
  /\ self out.1.1 = self w.
Proof.
  induction n as [|n IH]; intros fuel method p1 p2 p3 p4 w body r v Ht Hm Hp Hb Hq Hr Hj.
  - rewrite Nat.add_0_r in Hr. intros post out. subst out.
    change (S (0 + fuel)) with (S fuel).
    by rewrite (call_answer fuel method p1 p2 p3 p4 p1 w w PyNone v body r)
      by (try done; by apply ensure_token_present).
  - intros post out. subst out.
    change (S (S n + fuel)) with (S (S (n + fuel))).
    rewrite (call_query_limit urlencode (S (n + fuel)) method p1 p2 p3 p4 p1 w w
               PyNone body (ensure_token_present w Ht) Hm Hp Hb).
    2: { specialize (Hq 0%nat). rewrite Nat.add_0_r in Hq. apply Hq. lia. }
    set (w' := sleep 2 (posted method body w)).
    destruct (IH fuel method p1 p2 p3 p4 w' body r v) as (H1 & H2 & H3); try done.
    + intros j Hlt. unfold w'. simpl.
      replace (S (requests w + j)) with (requests w + S j)%nat by lia.
      apply Hq. lia.
    + unfold w'. simpl.
      by replace (S (requests w + n)) with (requests w + S n)%nat by lia.
    + split; [done|]. split; [|by rewrite H3].
      rewrite H2. unfold w', sleep, log, posted. simpl. fold post.
      by rewrite <- !app_assoc.
Qed.

(** ** [call]: malformed batch parameters *)

(** X13. [call] with method ['batch'] raises before any request to the API:
    [TypeError] when the first parameter group is missing, [KeyError] when
    that group holds neither ['prepared'] nor ['cmd'], and [KeyError] when a
    prepared group holds a ['cmd'] mapping but no ['halt']. *)
Theorem call_batch_structure_errors (fuel : nat) (p2 p3 p4 : option dict)
  (w w1 : world) (v0 : pyval) :
  ensure_token w = (w1, Ret v0) ->
  call urlencode (S fuel) (PyStr "batch") None p2 p3 p4 w = (w1, None, Raise TypeError_)
  /\ (forall p,
        dict_mem "prepared" p = false -> dict_mem "cmd" p = false ->
        call urlencode (S fuel) (PyStr "batch") (Some p) p2 p3 p4 w
        = (w1, Some p, Raise KeyError_))
  /\ (forall p c,
        dict_mem "prepared" p = true -> dict_get p "cmd" = Some (PyDict c) ->
        dict_get p "halt" = None ->
        call urlencode (S fuel) (PyStr "batch") (Some p) p2 p3 p4 w
        = (w1, Some p, Raise KeyError_)).
Proof.
  intros He.
  assert (Hbm : bad_method (PyStr "batch") = false) by done.
  split; [|split].
  - cbn [call]. by rewrite He.
  - intros p Hp Hc. cbn [call]. rewrite He, Hbm.
    assert (call_prepare urlencode (PyStr "batch") (Some p) = (Some p, Raise KeyError_))
      as ->; [|done].
    unfold call_prepare. change (py_eq_str (PyStr "batch") "batch") with true.
    cbv iota. rewrite Hp. unfold dict_mem in Hc. by destruct (dict_get p "cmd").
  - intros p c Hp Hc Hh. cbn [call]. rewrite He, Hbm.
    assert (call_prepare urlencode (PyStr "batch") (Some p) = (Some p, Ret tt))
      as ->.
    { unfold call_prepare. change (py_eq_str (PyStr "batch") "batch") with true.
      cbv iota. by rewrite Hp. }
    cbn [encode_groups]. unfold encode_group. rewrite Hc, encode_cmd_form.
    unfold res_bind at 1 2. by rewrite Hh.
Qed.

End CallRecovery.

Section Encoding.

Variable urlencode : pyval -> string.

(** ** The body of a request *)

Lemma encode_groups_acc (groups : list (option dict)) :
  forall acc : string,
  encode_groups urlencode groups acc
  = (t <-? encode_groups urlencode groups ""; Ret (acc +:+ t)).
Proof.
  induction groups as [|[g|] groups IH]; intros acc.
  - simpl. by rewrite str_app_empty_r.
  - cbn [encode_groups]. destruct (encode_group urlencode g) as [e| |]; [|done|done].
    cbn [res_bind]. rewrite (IH (acc +:+ e)), (IH ("" +:+ e)).
    destruct (encode_groups urlencode groups "") as [t| |]; [|done|done].
    simpl. by rewrite str_app_assoc.
  - cbn [encode_groups]. apply IH.
Qed.

Lemma encode_groups_app (l1 l2 : list (option dict)) :
  forall acc : string,
  encode_groups urlencode (l1 ++ l2) acc
  = (acc' <-? encode_groups urlencode l1 acc; encode_groups urlencode l2 acc').
Proof.
  induction l1 as [|[g|] l1 IH]; intros acc; [done| |].
  - cbn [app encode_groups]. destruct (encode_group urlencode g) as [e| |]; [|done|done].
    cbn [res_bind]. apply IH.
  - cbn [app encode_groups]. apply IH.
Qed.

(** X14. The body of a request is built group by group, in the order of the
    arguments, and the access token comes last: encoding the groups followed
    by the [auth] group returns a body exactly when encoding the groups
    does, and that body is theirs followed by the encoded [auth] mapping and
    ['&']; a group that is [None] adds nothing. *)
Theorem body_ends_with_auth (groups : list (option dict)) (token : pyval)
  (body : string) :
  (encode_groups urlencode (groups ++ [Some [("auth", token)]]) "" = Ret body
   <-> exists pre,
         encode_groups urlencode groups "" = Ret pre
         /\ body = pre +:+ urlencode (PyDict [("auth", token)]) +:+ "&")
  /\ encode_groups urlencode (None :: groups) "" = encode_groups urlencode groups "".
Proof.
  split; [|done]. rewrite encode_groups_app.
  destruct (encode_groups urlencode groups "") as [pre| |]; cbn [res_bind].
  - change (encode_groups urlencode [Some [("auth", token)]] pre)
      with (Ret (A := string) (pre +:+ urlencode (PyDict [("auth", token)]) +:+ "&")).
    split.
    + intros [= <-]. by exists pre.
    + intros (pre' & [= <-] & ->). done.
  - split; [done | by intros (? & ? & _)].
  - split; [done | by intros (? & ? & _)].
Qed.

Lemma dict_get_tabulate (f : string -> pyval) (ks : list string) (k : string) :
  k ∈ ks -> dict_get ((fun i => (i, f i)) <$> ks) k = Some (f k).
Proof.
  induction ks as [|i ks IH]; intros Hin; [by apply elem_of_nil in Hin|].
  simpl. destruct (String.eqb_spec i k) as [->|Hne]; [done|].
  apply IH. apply elem_of_cons in Hin as [?|?]; [congruence | done].
Qed.

Lemma dict_keys_tabulate (f : string -> pyval) (ks : list string) :
  dict_keys ((fun i => (i, f i)) <$> ks) = ks.
Proof.
  unfold dict_keys. rewrite <- list_fmap_compose.
  induction ks as [|i ks IH]; [done|]. simpl. by f_equal.
Qed.

Lemma batch_group_body (p d : dict) (h : pyval) :
  dict_mem "prepared" p = false ->
  dict_get p "cmd" = Some (PyDict d) ->
  dict_get p "halt" = Some h ->
  dict_wf d ->
  (forall k v, dict_get d k = Some v -> sub_call v) ->
  exists p',
    call_prepare urlencode (PyStr "batch") (Some p) = (Some p', Ret tt)
    /\ encode_group urlencode p'
       = Ret (str_concat
                ((fun i => urlencode
                             (PyDict [("cmd",
                                       PyDict [(i, prepared_entry urlencode (dict_at d i))])])
                           +:+ "&") <$> sorted (dict_keys d))
              +:+ "&" +:+ urlencode (PyDict [("halt", h)]) +:+ "&")
    /\ dict_get p' "prepared" = Some (PyBool true)
    /\ dict_get p' "cmd"
       = Some (PyDict ((fun k => (k, prepared_entry urlencode (dict_at d k)))
                         <$> sorted (dict_keys d))).
Proof.
  intros Hp Hc Hh Hwf Hok.
  set (prepared := (fun k => (k, prepared_entry urlencode (dict_at d k)))
                     <$> sorted (dict_keys d)).
  exists (dict_set (dict_set p "cmd" (PyDict prepared)) "prepared" (PyBool true)).
  split; [|split; [|split]].
  - unfold call_prepare. change (py_eq_str (PyStr "batch") "batch") with true.
    cbv iota. rewrite Hp, Hc. cbn [negb]. cbv iota.
    by rewrite (prepare_batch_accepts urlencode d Hwf Hok).
  - unfold encode_group.
    rewrite (dict_get_set_ne _ "prepared" "cmd") by done.
    rewrite dict_get_set_eq, encode_cmd_form. cbn [res_bind].
    rewrite !dict_get_set_ne by done. rewrite Hh. f_equal.
    assert (dict_keys prepared = sorted (dict_keys d)) as ->
      by apply (dict_keys_tabulate (fun k => prepared_entry urlencode (dict_at d k))).
    rewrite (sorted_invariant (sorted (dict_keys d)) (dict_keys d)) by apply sorted_perm.
    f_equal. f_equal. apply list_fmap_ext. intros j i Hi.
    unfold cmd_piece, prepared.
    rewrite (dict_get_tabulate (fun k => prepared_entry urlencode (dict_at d k)));
      [done|].
    by eapply list_elem_of_lookup_2.
  - apply dict_get_set_eq.
  - rewrite dict_get_set_ne by done. apply dict_get_set_eq.
Qed.

(** X15. What a batch call puts on the wire for its first parameter group,
    when its sub-calls are made of a method name and parameter mappings: one
    piece per request id, in ascending order of the ids, each the encoding
    of [{'cmd': {id: "method?params&..."}}] followed by ['&']; then ['&'],
    the encoded ['halt'] and ['&'].  Nothing else of the group is sent, and
    the group is left prepared: its ['prepared'] is true and its ['cmd'] is
    the prepared mapping. *)
Theorem batch_group_encoding (p d : dict) (h : pyval) :
  dict_mem "prepared" p = false ->
  dict_get p "cmd" = Some (PyDict d) ->
  dict_get p "halt" = Some h ->
  dict_wf d ->
  (forall k v, dict_get d k = Some v -> sub_call v) ->
  exists p',
    call_prepare urlencode (PyStr "batch") (Some p) = (Some p', Ret tt)
    /\ encode_group urlencode p'
       = Ret (str_concat
                ((fun i => urlencode
                             (PyDict [("cmd",
                                       PyDict [(i, prepared_entry urlencode (dict_at d i))])])
                           +:+ "&") <$> sorted (dict_keys d))
              +:+ "&" +:+ urlencode (PyDict [("halt", h)]) +:+ "&")
    /\ dict_get p' "prepared" = Some (PyBool true)
    /\ dict_get p' "cmd"
       = Some (PyDict ((fun k => (k, prepared_entry urlencode (dict_at d k)))
                         <$> sorted (dict_keys d))).
Proof. apply batch_group_body. Qed.

End Encoding.

Section PrepareFaults.

Variable urlencode : pyval -> string.

(** ** [prepare_batch]: faults *)

(** X16. [prepare_batch] stops at the first faulty sub-call in ascending
    order of the request ids, the ones before it being lists made of a
    method name and parameter mappings, and raises its fault: the validation
    error for a value that is not a list or for a list led by ['batch'],
    [IndexError] for an empty list, [TypeError] for a list led by something
    that is not a string or holding a parameter that is not a mapping.  The
    caller's mapping is left half consumed: the lists of the ids before the
    faulty one have lost their method name, so has the faulty list itself
    if it had a leading element, and the lists of the later ids are
    untouched. *)
Theorem prepare_batch_first_fault (d : dict) (before after : list string)
  (k : string) (v : pyval) (e : exn) :
  dict_wf d ->
  sorted (dict_keys d) = before ++ k :: after ->
  (forall j, j ∈ before -> exists vj, dict_get d j = Some vj /\ sub_call vj) ->
  dict_get d k = Some v ->
  entry_fault v = Some e ->
  exists d',
    prepare_batch urlencode (PyDict d) = (PyDict d', Raise e)
    /\ dict_keys d' = dict_keys d
    /\ (forall j, j ∈ before -> dict_get d' j = pop_entry <$> dict_get d j)
    /\ dict_get d' k = Some (pop_entry v)
    /\ (forall j, j ∈ after -> dict_get d' j = dict_get d j).
Proof. apply prepare_batch_fault. Qed.

(** X17. [prepare_batch] cannot be run twice on the same mapping: after a
    first run on sub-calls made of a method name and parameter mappings, the
    lists have lost their method names, and a second run on the caller's
    mapping raises [IndexError] (the first sub-call had no parameters) or
    [TypeError] (its first parameter mapping is taken for the method). *)
Theorem prepare_batch_not_repeatable (d : dict) :
  dict_wf d -> d <> [] ->
  (forall k v, dict_get d k = Some v -> sub_call v) ->
  exists out,
    (prepare_batch urlencode (PyDict d)).2 = Ret out
    /\ ((prepare_batch urlencode (prepare_batch urlencode (PyDict d)).1).2
        = Raise IndexError_
        \/ (prepare_batch urlencode (prepare_batch urlencode (PyDict d)).1).2
           = Raise TypeError_).
Proof.
  intros Hwf Hne Hsub.
  rewrite (prepare_batch_accepts urlencode d Hwf Hsub). eexists. split; [done|].
  cbn [fst snd]. unfold prepare_batch. rewrite dict_keys_map_values.
  destruct (sorted (dict_keys d)) as [|i ids] eqn:Hs.
  { exfalso. apply Hne. apply (f_equal length) in Hs. rewrite sorted_length in Hs.
    unfold dict_keys in Hs. rewrite length_fmap in Hs. by destruct d. }
  assert (Hi : i ∈ dict_keys d).
  { apply sorted_elem. rewrite Hs. by left. }
  destruct (dict_get_key_Some d i Hi) as [v Hv].
  destruct (Hsub i v Hv) as (m & ps & -> & Hm & Hps).
  assert (Hpop : dict_get (map_values pop_entry d) i = Some (PyList ps)).
  { by rewrite dict_get_map_values, Hv. }
  destruct ps as [|p ps].
  - destruct (prepare_loop_fault_step urlencode i ids (map_values pop_entry d) []
                (PyList []) IndexError_ Hpop eq_refl) as (d' & -> & _). by left.
  - apply Forall_cons in Hps as [[x ->] _].
    destruct (prepare_loop_fault_step urlencode i ids (map_values pop_entry d) []
                (PyList (PyDict x :: ps)) TypeError_ Hpop eq_refl) as (d' & -> & _).
    by right.
Qed.

End PrepareFaults.

(** ** [merge_two_dicts] *)

Lemma dict_keys_set (d : dict) (k : string) (v : pyval) :
  dict_keys (dict_set d k v)
  = if decide (k ∈ dict_keys d) then dict_keys d else dict_keys d ++ [k].
Proof.
  destruct (decide (k ∈ dict_keys d)) as [Hin|Hnin].
  - destruct (dict_get_key_Some d k Hin) as [v' Hv']. by eapply dict_keys_set_present.
  - apply dict_get_None in Hnin. rewrite dict_set_fresh by done.
    unfold dict_keys. by rewrite fmap_app.
Qed.

Lemma filter_ext_elem {A} (P Q : A -> Prop) `{!forall x, Decision (P x)}
  `{!forall x, Decision (Q x)} (l : list A) :
  (forall x, x ∈ l -> P x <-> Q x) -> filter P l = filter Q l.
Proof.
  induction l as [|a l IH]; intros Hext; [done|].
  rewrite !filter_cons. rewrite IH by (intros x Hx; apply Hext; by right).
  assert (Ha : P a <-> Q a) by (apply Hext; by left).
  destruct (decide (P a)), (decide (Q a)); tauto.
Qed.

Lemma dict_update_keys (y : dict) :
  forall z : dict,
  dict_wf y ->
  dict_keys (dict_update z y)
  = dict_keys z ++ filter (fun k => k ∉ dict_keys z) (dict_keys y).
Proof.
  unfold dict_update, dict_wf.
  induction y as [|[k v] y IH]; intros z Hnd.
  - simpl. by rewrite app_nil_r.
  - change (dict_keys ((k, v) :: y)) with (k :: dict_keys y) in *.
    apply NoDup_cons in Hnd as [Hk Hnd]. cbn [fold_left fst snd].
    rewrite IH by done. rewrite dict_keys_set. rewrite filter_cons.
    destruct (decide (k ∈ dict_keys z)) as [Hin|Hnin].
    + by destruct (decide (k ∉ dict_keys z)).
    + destruct (decide (k ∉ dict_keys z)); [|done].
      rewrite <- app_assoc. f_equal. simpl. f_equal.
      apply filter_ext_elem. intros j Hj. rewrite not_elem_of_app.
      split; [by intros [? _]|]. intros Hjz. split; [done|].
      intros Hjk%list_elem_of_singleton. by subst j.
Qed.

(** X18. [merge_two_dicts(x, y)] is a shallow merge in which [y] wins: every
    key of [y] holds the value of [y], every other key of [x] keeps the
    value of [x]; the keys of [x] come first, in their order, followed by
    the keys only [y] holds, in the order of [y]; and no key is held
    twice. *)
Theorem merge_two_dicts_shallow (x y : dict) :
  dict_wf x -> dict_wf y ->
  (forall k, dict_get (merge_two_dicts x y) k
             = match dict_get y k with
               | Some v => Some v
               | None => dict_get x k
               end)
  /\ dict_keys (merge_two_dicts x y)
     = dict_keys x ++ filter (fun k => k ∉ dict_keys x) (dict_keys y)
  /\ dict_wf (merge_two_dicts x y).
Proof.
  intros Hx Hy. unfold merge_two_dicts.
  split; [intros k; by apply dict_update_get|].
  split; [by apply dict_update_keys|].
  unfold dict_wf. rewrite dict_update_keys by done.
  apply NoDup_app. split; [done|]. split.
  - intros k Hk Hf. apply list_elem_of_filter in Hf as [Hf _]. done.
  - by apply NoDup_filter.
Qed.

(** ** [batch]: the aggregate *)

Lemma dict_set_valued (d : dict) (k : string) (z : dict) :
  dict_valued d -> dict_valued (dict_set d k (PyDict z)).
Proof.
  unfold dict_valued. induction d as [|[k' v'] d IH]; intros H; simpl.
  - constructor; [by eexists | done].
  - apply Forall_cons in H as [Hv Hd]. destruct (String.eqb k' k).
    + constructor; [by eexists | done].
    + constructor; [done | by apply IH].
Qed.

Lemma merge_one_shape (tr : pyval) (acc acc' : dict) (i : pyval) :
  merge_one tr acc i = Ret acc' ->
  dict_keys acc' = dict_keys acc /\ (dict_valued acc -> dict_valued acc').
Proof.
  unfold merge_one. intros H.
  destruct (py_getitem tr i) as [t| |]; cbn [res_bind] in H; [|done|done].
  destruct (py_len t) as [n| |]; cbn [res_bind] in H; [|done|done].
  destruct (0 <? n)%nat; [|by injection H as <-].
  destruct (py_getitem (PyDict acc) i) as [y| |] eqn:Hy; cbn [res_bind] in H;
    [|done|done].
  destruct (merge_values t y) as [z| |] eqn:Hz; cbn [res_bind] in H; [|done|done].
  destruct i as [| | |k| |]; try done. injection H as <-.
  simpl in Hy. destruct (dict_get acc k) as [y'|] eqn:Hk; [|done].
  split; [by eapply dict_keys_set_present|].
  unfold merge_values in Hz. destruct t, y; try done. injection Hz as <-.
  apply dict_set_valued.
Qed.

Lemma merge_loop_shape (tr : pyval) (keys : list pyval) :
  forall acc acc' : dict,
  merge_loop tr keys acc = Ret acc' ->
  dict_keys acc' = dict_keys acc /\ (dict_valued acc -> dict_valued acc').
Proof.
  induction keys as [|i keys IH]; intros acc acc' H.
  - by injection H as <-.
  - cbn [merge_loop] in H.
    destruct (merge_one tr acc i) as [acc1| |] eqn:H1; cbn [res_bind] in H; [|done|done].
    destruct (merge_one_shape _ _ _ _ H1) as [Hk1 Hv1].
    destruct (IH _ _ H) as [Hk Hv]. split; [congruence | auto].
Qed.

Lemma merge_chunk_shape (temp : pyval) (acc acc' : dict) :
  merge_chunk temp acc = Ret acc' ->
  dict_keys acc' = dict_keys acc /\ (dict_valued acc -> dict_valued acc').
Proof.
  unfold merge_chunk. intros H.
  destruct (py_getitem temp (PyStr "result")) as [tr| |]; cbn [res_bind] in H;
    [|done|done].
  destruct (py_iter tr) as [keys| |]; cbn [res_bind] in H; [|done|done].
  by eapply merge_loop_shape.
Qed.

Section BatchAggregate.

Variable urlencode : pyval -> string.

Lemma batch_loop_shape (ids : list string) :
  forall (fuel : nat) (halt : pyval) (cmd : dict) (count : nat)
         (batch acc acc' : dict) (w : world),
  (batch_loop urlencode fuel ids halt cmd count batch acc w).2 = Ret acc' ->
  dict_keys acc' = dict_keys acc /\ (dict_valued acc -> dict_valued acc').
Proof.
  induction ids as [|i ids IH]; intros fuel halt cmd count batch acc acc' w H.
  - by injection H as <-.
  - cbn [batch_loop] in H. destruct (dict_get cmd i) as [v|]; [|done].
    destruct (_ || _).
    + destruct (call _ _ _ _ _ _ _ _) as [[w1 p1'] [temp| |]]; [|done|done].
      destruct (merge_chunk temp acc) as [acc1| |] eqn:Hm; [|done|done].
      destruct (merge_chunk_shape _ _ _ Hm) as [Hk1 Hv1].
      destruct (IH _ _ _ _ _ _ _ _ H) as [Hk Hv]. split; [congruence | auto].
    + by eapply IH.
Qed.

(** X19. Whatever the answers, a result that [batch] returns is either the
    mapping [{error: 'Invalid batch structure'}] or a mapping
    [{result: containers}] whose containers are exactly [result_error],
    [result_total], [result] and [result_next], in that order, each of them
    a mapping. *)
Theorem batch_result_shape (fuel : nat) (params : dict) (w : world) (v : pyval) :
  (batch urlencode fuel params w).2 = Ret v ->
  v = PyDict [("error", PyStr "Invalid batch structure")]
  \/ exists acc,
       v = PyDict [("result", PyDict acc)]
       /\ dict_keys acc = container_names
       /\ dict_valued acc.
Proof.
  unfold batch. intros H. destruct (_ || _); [left; by injection H as <-|].
  right. destruct (dict_get params "halt") as [halt|]; [|done].
  destruct (dict_get params "cmd") as [[| | | | |cmd]|]; try done.
  destruct (batch_loop _ _ _ _ _ _ _ _ _) as [w' [acc| |]] eqn:Hl; try done.
  injection H as <-. exists acc.
  destruct (batch_loop_shape (sorted (dict_keys cmd)) fuel halt cmd 0 [] empty_result
              acc w) as [Hk Hv]; [by rewrite Hl|].
  split; [done|]. split; [done|]. apply Hv.
  unfold dict_valued, empty_result. repeat constructor; by eexists.
Qed.

(** X20. On an empty ['cmd'] mapping [batch] sends nothing: it returns the
    four empty containers and leaves the world as it was. *)
Theorem batch_empty_cmd (fuel : nat) (params : dict) (halt : pyval) (w : world) :
  dict_get params "halt" = Some halt ->
  dict_get params "cmd" = Some (PyDict []) ->
  batch urlencode fuel params w
  = (w, Ret (PyDict [("result",
                      PyDict [("result_error", PyDict []);
                              ("result_total", PyDict []);
                              ("result", PyDict []);
                              ("result_next", PyDict [])])])).
Proof. intros Hh Hc. unfold batch, dict_mem. by rewrite Hh, Hc. Qed.

(** The groups recorded by the loop are made from [halt] and from sub-calls
    of [cmd]. *)
Lemma batch_loop_contents (ids : list string) :
  forall (fuel : nat) (halt : pyval) (cmd : dict) (count : nat)
         (batch acc : dict) (w : world),
  NoDup (dict_keys batch ++ ids) ->
  (forall k, k ∈ ids -> k ∈ dict_keys cmd) ->
  (forall k v, dict_get batch k = Some v -> dict_get cmd k = Some v) ->
  exists new,
    batch_calls (trace (batch_loop urlencode fuel ids halt cmd count batch acc w).1)
    = batch_calls (trace w) ++ new
    /\ Forall (chunk_of halt cmd) new.
Proof.
  induction ids as [|i ids IH]; intros fuel halt cmd count batch acc w Hnd Hin Hsub.
  - exists []. simpl. by rewrite app_nil_r.
  - destruct (dict_get_key_Some cmd i) as [v Hv]; [apply Hin; by left|].
    assert (Hfresh : dict_get batch i = None).
    { apply dict_get_None. intros Hi. apply NoDup_app in Hnd as (_ & Hd & _).
      apply (Hd i Hi). by left. }
    assert (Hkeys : dict_keys (dict_set batch i v) = dict_keys batch ++ [i]).
    { rewrite dict_set_fresh by done. unfold dict_keys. by rewrite fmap_app. }
    assert (Hsub' : forall k x, dict_get (dict_set batch i v) k = Some x ->
                                dict_get cmd k = Some x).
    { intros k x. destruct (decide (i = k)) as [<-|Hne].
      - rewrite dict_get_set_eq. congruence.
      - rewrite dict_get_set_ne by done. apply Hsub. }
    assert (Hnd' : NoDup (dict_keys (dict_set batch i v) ++ ids)).
    { by rewrite Hkeys, <- app_assoc. }
    cbn [batch_loop]. rewrite Hv. destruct (_ || _).
    + set (params1 := [("halt", halt); ("cmd", PyDict (dict_set batch i v))]).
      assert (Hchunk : chunk_of halt cmd params1).
      { exists (dict_set batch i v). split; [done|]. split; [|split; [|done]].
        - unfold dict_wf. by apply NoDup_app in Hnd' as (Hd & _).
        - rewrite dict_set_fresh by done. by destruct batch. }
      pose proof (call_calls urlencode fuel (PyStr "batch") (Some params1)
                    None None None (log (EvBatchCall params1) w)) as Hcall.
      destruct (call _ _ _ _ _ _ _ _) as [[w1 p1'] r]. simpl in Hcall.
      rewrite batch_calls_log in Hcall.
      destruct r as [temp|e|]; [|by exists [params1]; split; [|constructor] ..].
      destruct (merge_chunk temp acc) as [acc'|e|];
        [|by exists [params1]; split; [|constructor] ..].
      destruct (IH fuel halt cmd (S count) [] acc' w1) as (new & Hnew & Hall).
      { simpl. apply NoDup_app in Hnd as (_ & _ & Hd).
        by apply NoDup_cons in Hd as [_ Hd]. }
      { intros j Hj. apply Hin. by right. }
      { done. }
      exists (params1 :: new). split; [|by constructor].
      rewrite Hnew, Hcall. by rewrite <- app_assoc.
    + apply IH; [done | | done]. intros j Hj. apply Hin. by right.
Qed.

(** X21. Every first parameter group that [batch] hands to [call] holds the
    caller's ['halt'] flag unchanged and a non-empty ['cmd'] mapping whose
    sub-calls are sub-calls of the caller's ['cmd'], each under its own
    request id and none twice. *)
Theorem batch_chunk_contents (fuel : nat) (params : dict) (halt : pyval)
  (cmd : dict) (w : world) :
  dict_get params "halt" = Some halt ->
  dict_get params "cmd" = Some (PyDict cmd) ->
  dict_wf cmd ->
  Forall (chunk_of halt cmd) (issued w (batch urlencode fuel params w).1).
Proof.
  intros Hh Hc Hwf.
  destruct (batch_well_formed urlencode fuel params halt cmd w Hh Hc) as [-> _].
  destruct (batch_loop_contents (sorted (dict_keys cmd)) fuel halt cmd 0 []
              empty_result w) as (new & Hnew & Hall).
  - simpl. by apply sorted_NoDup.
  - intros k. by rewrite sorted_elem.
  - done.
  - unfold issued. rewrite Hnew. by rewrite drop_app_length.
Qed.

End BatchAggregate.

Section BatchFailures.

Variable urlencode : pyval -> string.

(** ** [batch]: a chunk that fails *)

Lemma call_settled (fuel : nat) (method : pyval)
  (p1 p2 p3 p4 p1' : option dict) (w w1 : world) (v0 v : pyval) (body : string) :
  ensure_token w = (w1, Ret v0) ->
  bad_method method = false ->
  call_prepare urlencode method p1 = (p1', Ret tt) ->
  encode_groups urlencode
    [p1'; p2; p3; p4; Some [("auth", access_token (self w1))]] "" = Ret body ->
  settled (self w1) (net w1 (requests w1)) = Some v ->
  call urlencode (S fuel) method p1 p2 p3 p4 w = (posted method body w1, p1', Ret v).
Proof.
  intros He Hm Hp Hb Hs. cbn [call]. rewrite He, Hm, Hp, Hb. unfold requests_post.
  destruct (net w1 (requests w1)) as [r|e]; simpl in Hs.
  - destruct (json r); by injection Hs as <-.
  - destruct e; try done; try (destruct request; [|done]); by injection Hs as <-.
Qed.

(** A chunk of sub-calls made of a method name and parameter mappings
    reaches its request. *)
Lemma call_chunk (fuel : nat) (halt : pyval) (c : dict) (w : world) (v : pyval) :
  truthy (access_token (self w)) = true ->
  dict_wf c ->
  (forall k x, dict_get c k = Some x -> sub_call x) ->
  settled (self w) (net w (requests w)) = Some v ->
  exists p' body,
    call urlencode (S fuel) (PyStr "batch") (Some [("halt", halt); ("cmd", PyDict c)])
      None None None w
    = (posted (PyStr "batch") body w, Some p', Ret v).
Proof.
  intros Ht Hwf Hok Hs.
  destruct (batch_group_body urlencode [("halt", halt); ("cmd", PyDict c)] c halt)
    as (p' & Hp & Hg & _); try done.
  exists p'. eexists.
  apply (call_settled fuel (PyStr "batch") _ None None None (Some p') w w PyNone v);
    try done.
  - by apply ensure_token_present.
  - cbn [encode_groups]. rewrite Hg. cbn [res_bind]. unfold encode_group.
    cbn [dict_get]. change (String.eqb "auth" "cmd") with false. cbv iota.
    cbn [res_bind]. reflexivity.
Qed.

Lemma merge_chunk_no_result (o : post_outcome) (c : Bitrix24) :
  no_result_answer o ->
  exists v, settled c o = Some v /\ forall acc, merge_chunk v acc = Raise KeyError_.
Proof.
  intros [[u ->]|[[u ->]|[->|(r & -> & [Hj|(t & Hj & Ht)])]]]; simpl.
  - by eexists.
  - by eexists.
  - by eexists.
  - rewrite Hj. by eexists.
  - rewrite Hj. eexists. split; [done|]. intros acc. unfold merge_chunk. simpl.
    by rewrite Ht.
Qed.

(** The loop up to its first flush, when merging the answer to that flush
    raises. *)
Lemma batch_loop_first_flush (E : exn -> Prop) (Q : world -> Prop)
  (fuel : nat) (halt : pyval) (cmd acc : dict) (w : world) :
  (forall c,
     dict_wf c -> c <> [] ->
     (forall k v, dict_get c k = Some v -> dict_get cmd k = Some v) ->
     exists w1 p1' temp e,
       call urlencode fuel (PyStr "batch") (Some [("halt", halt); ("cmd", PyDict c)])
         None None None (log (EvBatchCall [("halt", halt); ("cmd", PyDict c)]) w)
       = (w1, p1', Ret temp)
       /\ merge_chunk temp acc = Raise e /\ E e /\ Q w1) ->
  forall (ids : list string) (count : nat) (batch : dict),
  ids <> [] ->
  NoDup (dict_keys batch ++ ids) ->
  (forall k, k ∈ ids -> k ∈ dict_keys cmd) ->
  (count + length ids = length cmd)%nat ->
  (forall k v, dict_get batch k = Some v -> dict_get cmd k = Some v) ->
  exists w1 e,
    batch_loop urlencode fuel ids halt cmd count batch acc w = (w1, Raise e)
    /\ E e /\ Q w1.
Proof.
  intros Hcall. induction ids as [|i ids IH]; intros count batch Hne Hnd Hin Hlen Hsub;
    [done|].
  destruct (dict_get_key_Some cmd i) as [v Hv]; [apply Hin; by left|].
  assert (Hfresh : dict_get batch i = None).
  { apply dict_get_None. intros Hi. apply NoDup_app in Hnd as (_ & Hd & _).
    apply (Hd i Hi). by left. }
  assert (Hkeys : dict_keys (dict_set batch i v) = dict_keys batch ++ [i]).
  { rewrite dict_set_fresh by done. unfold dict_keys. by rewrite fmap_app. }
  assert (Hsub' : forall k x, dict_get (dict_set batch i v) k = Some x ->
                              dict_get cmd k = Some x).
  { intros k x. destruct (decide (i = k)) as [<-|Hnk].
    - rewrite dict_get_set_eq. congruence.
    - rewrite dict_get_set_ne by done. apply Hsub. }
  assert (Hnd' : NoDup (dict_keys (dict_set batch i v) ++ ids)).
  { by rewrite Hkeys, <- app_assoc. }
  cbn [batch_loop]. rewrite Hv. destruct (_ || _) eqn:Hc.
  - destruct (Hcall (dict_set batch i v)) as (w1 & p1' & temp & e & -> & -> & He & Hq).
    + unfold dict_wf. by apply NoDup_app in Hnd' as (Hd & _).
    + rewrite dict_set_fresh by done. by destruct batch.
    + done.
    + by exists w1, e.
  - apply orb_false_iff in Hc as [_ Hc]. apply Nat.eqb_neq in Hc.
    simpl in Hlen. apply IH; try done.
    + destruct ids; [simpl in Hlen; lia | done].
    + intros j Hj. apply Hin. by right.
    + lia.
Qed.

(** X22. [batch] cannot report a chunk that failed: on sub-calls made of a
    method name and parameter mappings, when the answer to its first request
    is a connection failure or a connect timeout that carries its request, a
    read timeout, a body that does not decode, or a decoded mapping without
    ['result'] (such as an error answer), [call] returns a mapping that
    holds no ['result'] and [batch] raises [KeyError]; one chunk has been
    handed over, one request has been sent, and the remaining sub-calls are
    never sent. *)
Theorem batch_failed_chunk_raises (fuel : nat) (params : dict) (halt : pyval)
  (cmd : dict) (w : world) :
  dict_get params "halt" = Some halt ->
  dict_get params "cmd" = Some (PyDict cmd) ->
  dict_wf cmd -> cmd <> [] ->
  (forall k v, dict_get cmd k = Some v -> sub_call v) ->
  truthy (access_token (self w)) = true ->
  no_result_answer (net w (requests w)) ->
  let out := batch urlencode (S fuel) params w in
  out.2 = Raise KeyError_
  /\ length (issued w out.1) = 1%nat
  /\ requests out.1 = S (requests w).
Proof.
  intros Hh Hc Hwf Hne Hok Ht Hno out.
  destruct (merge_chunk_no_result _ (self w) Hno) as (v & Hs & Hm).
  destruct (batch_loop_first_flush (fun e => e = KeyError_)
              (fun w1 => length (batch_calls (trace w1))
                         = S (length (batch_calls (trace w)))
                         /\ requests w1 = S (requests w))
              (S fuel) halt cmd empty_result w) with (ids := sorted (dict_keys cmd))
              (count := 0%nat) (batch := @nil (string * pyval))
    as (w1 & e & Hl & -> & Hlen & Hreq).
  - intros c Hwc Hnc Hsub.
    destruct (call_chunk fuel halt c
                (log (EvBatchCall [("halt", halt); ("cmd", PyDict c)]) w) v)
      as (p' & body & ->); try done.
    { intros k x Hk. apply (Hok k). by apply Hsub. }
    eexists _, _, _, _. split; [done|]. split; [apply Hm|]. split; [done|].
    unfold posted, log. simpl. rewrite batch_calls_post, batch_calls_log.
    rewrite length_app. simpl. split; [lia | done].
  - intros Hs0. apply Hne. apply (f_equal length) in Hs0.
    rewrite sorted_length in Hs0. unfold dict_keys in Hs0.
    rewrite length_fmap in Hs0. by destruct cmd.
  - simpl. by apply sorted_NoDup.
  - intros k. by rewrite sorted_elem.
  - rewrite sorted_length. unfold dict_keys. by rewrite length_fmap.
  - done.
  - subst out. unfold batch, dict_mem. rewrite Hh, Hc. cbn [negb orb].
    rewrite Hl. cbn [fst snd]. split; [done|]. split; [|done].
    unfold issued. rewrite length_drop. lia.
Qed.

End BatchFailures.

(** ** What a run leaves unchanged *)

Lemma same_settings_refl (c : Bitrix24) : same_settings c c.
Proof. by repeat split. Qed.

Lemma call_event_settings (c c' : Bitrix24) (method : pyval) (ev : event) :
  same_settings c c' -> call_event c' method ev -> call_event c method ev.
Proof.
  intros (Hd & Hi & Hs & _ & Ho & Ht). destruct ev; simpl; [| |done|done].
  - by rewrite Hd, Ht.
  - by rewrite Ho, Hi, Hs.
Qed.

Lemma run_rel_refl (method : pyval) (w : world) : run_rel method w w.
Proof.
  split; [apply same_settings_refl|]. split; [done|]. split; [done|].
  exists []. by rewrite app_nil_r.
Qed.

Lemma run_rel_trans (method : pyval) (w1 w2 w3 : world) :
  run_rel method w1 w2 -> run_rel method w2 w3 -> run_rel method w1 w3.
Proof.
  intros (Hs1 & Hf1 & Hn1 & new1 & Ht1 & Ha1) (Hs2 & Hf2 & Hn2 & new2 & Ht2 & Ha2).
  split; [|split; [|split]].
  - destruct Hs1 as (? & ? & ? & ? & ? & ?), Hs2 as (? & ? & ? & ? & ? & ?).
    repeat split; congruence.
  - auto.
  - congruence.
  - exists (new1 ++ new2). split; [by rewrite Ht2, Ht1, app_assoc|].
    apply Forall_app. split; [done|].
    eapply Forall_impl; [exact Ha2|]. intros ev. by apply call_event_settings.
Qed.

Lemma run_rel_event (method : pyval) (w : world) (ev : event) (n : nat) :
  call_event (self w) method ev ->
  run_rel method w (mkWorld (self w) (net w) n (trace w ++ [ev])).
Proof.
  intros Hev. split; [apply same_settings_refl|]. split; [done|]. split; [done|].
  exists [ev]. split; [done|]. by constructor.
Qed.

Lemma run_rel_store (method : pyval) (failed : pyval -> Z -> exn)
  (o : post_outcome) (w : world) :
  run_rel method w (store_tokens failed o w).1.
Proof.
  unfold store_tokens.
  repeat case_match; simpl; try apply run_rel_refl;
    (split; [by repeat split|]); (split; [done|]); (split; [done|]);
    exists []; by rewrite app_nil_r.
Qed.

Lemma run_rel_refresh (method : pyval) (w : world) :
  run_rel method w (refresh_tokens w).1.
Proof.
  unfold refresh_tokens, requests_post.
  eapply run_rel_trans; [|apply run_rel_store].
  by apply run_rel_event.
Qed.

Lemma run_rel_authenticate (method : pyval) (w : world) :
  run_rel method w (authenticate w).1.
Proof.
  unfold authenticate, requests_post.
  eapply run_rel_trans; [|apply run_rel_store].
  by apply run_rel_event.
Qed.

Lemma run_rel_ensure (method : pyval) (w : world) :
  run_rel method w (ensure_token w).1.
Proof.
  unfold ensure_token. repeat case_match;
    [apply run_rel_refresh | apply run_rel_authenticate | apply run_rel_refl].
Qed.

Section Frame.

Variable urlencode : pyval -> string.

Lemma run_rel_call (fuel : nat) :
  forall (method : pyval) (p1 p2 p3 p4 : option dict) (w : world),
  run_rel method w (call urlencode fuel method p1 p2 p3 p4 w).1.1.
Proof.
  induction fuel as [|fuel IH]; intros method p1 p2 p3 p4 w; [apply run_rel_refl|].
  cbn [call]. pose proof (run_rel_ensure method w) as He.
  destruct (ensure_token w) as [w1 r1]. simpl in He.
  destruct r1; [|done|done].
  destruct (bad_method method); [done|].
  destruct (call_prepare urlencode method p1) as [p1' r2].
  destruct r2; [|done|done].
  destruct (encode_groups _ _ _) as [body| |]; [|done|done].
  unfold requests_post.
  set (w2 := mkWorld _ _ _ _).
  assert (Hw2 : run_rel method w w2).
  { eapply run_rel_trans; [exact He|]. by apply run_rel_event. }
  clearbody w2.
  pose proof (run_rel_refresh method w2) as Hr.
  assert (Hs : run_rel method w2 (sleep 2 w2)) by by apply run_rel_event.
  destruct (net w1 (requests w1)) as [r|e].
  - by destruct (json r).
  - destruct e; try done; try (by destruct request);
      (cbv zeta;
       destruct (py_contains_str "error" (exn_result result)) as [[|]| |]; try done;
       destruct (py_getitem (exn_result result) (PyStr "error")) as [error_code| |];
         try done;
       destruct (is_token_error error_code);
       [ revert Hr; destruct (refresh_tokens w2) as [w3 [| |]]; simpl; intros Hr;
         [ eapply run_rel_trans; [|apply IH]; by eapply run_rel_trans
         | by eapply run_rel_trans | by eapply run_rel_trans ]
       | destruct (in_query_limit error_code) as [[|]| |]; try done;
         [ eapply run_rel_trans; [|apply IH]; by eapply run_rel_trans
         | by eapply run_rel_trans; [|apply IH] ] ]).
Qed.

(** X24. Whatever happens, a [call] leaves the domain, the client id and
    secret, the authorization code, the oauth url and the timeout of the
    client as they were, and never lowers the refreshed flag once it is
    raised: only the two tokens and the flag can change. *)
Theorem call_keeps_settings (fuel : nat) (method : pyval)
  (p1 p2 p3 p4 : option dict) (w : world) :
  let c := self w in
  let c' := self (call urlencode fuel method p1 p2 p3 p4 w).1.1 in
  domain c' = domain c /\ client_id c' = client_id c
  /\ client_secret c' = client_secret c /\ code c' = code c
  /\ oauth_url c' = oauth_url c /\ timeout c' = timeout c
  /\ (is_tokens_refreshed c = true -> is_tokens_refreshed c' = true).
Proof.
  intros c c'.
  destruct (run_rel_call fuel method p1 p2 p3 p4 w)
    as ((? & ? & ? & ? & ? & ?) & Hf & _).
  by repeat split.
Qed.

(** X25. Everything a [call] adds to the trace is one of three things: a
    request to [{domain}/rest/{method}.json] made with the client's
    timeout, a request to the client's oauth url that carries its client id
    and secret, or a pause of exactly two seconds.  All requests of one
    [call] to the API, re-issues included, go to the same url. *)
Theorem call_events (fuel : nat) (method : pyval)
  (p1 p2 p3 p4 : option dict) (w : world) :
  exists new,
    trace (call urlencode fuel method p1 p2 p3 p4 w).1.1 = trace w ++ new
    /\ Forall (call_event (self w) method) new
    /\ Forall (fun s => s = 2) (sleeps new)
    /\ Forall (fun ud => ud.1 = api_url (domain (self w)) (method_name method))
         (api_posts new).
Proof.
  destruct (run_rel_call fuel method p1 p2 p3 p4 w) as (_ & _ & _ & new & Ht & Hall).
  exists new. split; [done|]. split; [done|]. split.
  - clear Ht. induction Hall as [|ev new Hev _ IH]; [constructor|].
    destruct ev; simpl in *; try done. by constructor.
  - clear Ht. induction Hall as [|ev new Hev _ IH]; [constructor|].
    destruct ev; simpl in *; try done. constructor; [by destruct Hev | done].
Qed.

End Frame.

Lemma batch_rel_refl (w : world) : batch_rel w w.
Proof.
  split; [apply same_settings_refl|]. split; [done|].
  exists []. by rewrite app_nil_r.
Qed.

Lemma batch_rel_trans (w1 w2 w3 : world) :
  batch_rel w1 w2 -> batch_rel w2 w3 -> batch_rel w1 w3.
Proof.
  intros (Hs1 & Hf1 & new1 & Ht1 & Ha1) (Hs2 & Hf2 & new2 & Ht2 & Ha2).
  split; [|split].
  - destruct Hs1 as (? & ? & ? & ? & ? & ?), Hs2 as (? & ? & ? & ? & ? & ?).
    repeat split; congruence.
  - auto.
  - exists (new1 ++ new2). split; [by rewrite Ht2, Ht1, app_assoc|].
    apply Forall_app. split; [done|].
    eapply Forall_impl; [exact Ha2|]. intros ev [Hev|Hev]; [left | by right].
    by eapply call_event_settings.
Qed.

Lemma batch_rel_call (w w' : world) : run_rel (PyStr "batch") w w' -> batch_rel w w'.
Proof.
  intros (Hs & Hf & _ & new & Ht & Ha). split; [done|]. split; [done|].
  exists new. split; [done|]. eapply Forall_impl; [exact Ha|]. intros ev ?. by left.
Qed.

Lemma batch_rel_log (w : world) (p : dict) : batch_rel w (log (EvBatchCall p) w).
Proof.
  split; [apply same_settings_refl|]. split; [done|].
  exists [EvBatchCall p]. split; [done|]. constructor; [|done]. right. by exists p.
Qed.

Section BatchFrame.

Variable urlencode : pyval -> string.

Lemma batch_rel_loop (ids : list string) :
  forall (fuel : nat) (halt : pyval) (cmd : dict) (count : nat)
         (batch acc : dict) (w : world),
  batch_rel w (batch_loop urlencode fuel ids halt cmd count batch acc w).1.
Proof.
  induction ids as [|i ids IH]; intros fuel halt cmd count batch acc w;
    [apply batch_rel_refl|].
  cbn [batch_loop]. destruct (dict_get cmd i) as [v|]; [|apply batch_rel_refl].
  destruct (_ || _); [|apply IH].
  set (params1 := [("halt", halt); ("cmd", PyDict (dict_set batch i v))]).
  pose proof (run_rel_call urlencode fuel (PyStr "batch") (Some params1) None None None
                (log (EvBatchCall params1) w)) as Hcall.
  apply batch_rel_call in Hcall.
  pose proof (batch_rel_trans _ _ _ (batch_rel_log w params1) Hcall) as Hw1.
  destruct (call _ _ _ _ _ _ _ _) as [[w1 p1'] r]. simpl in Hw1.
  destruct r as [temp| |]; [|done|done].
  destruct (merge_chunk temp acc) as [acc'| |]; [|done|done].
  eapply batch_rel_trans; [exact Hw1 | apply IH].
Qed.

(** X26. Whatever happens, a [batch] leaves the settings of the client as
    they were and never lowers the refreshed flag; every request it makes
    to the API goes to [{domain}/rest/batch.json] with the client's timeout,
    and every pause lasts two seconds. *)
Theorem batch_keeps_settings (fuel : nat) (params : dict) (w : world) :
  let w' := (batch urlencode fuel params w).1 in
  same_settings (self w) (self w')
  /\ (is_tokens_refreshed (self w) = true -> is_tokens_refreshed (self w') = true)
  /\ exists new,
       trace w' = trace w ++ new
       /\ Forall (fun ud => ud.1 = api_url (domain (self w)) "batch") (api_posts new)
       /\ Forall (fun s => s = 2) (sleeps new).
Proof.
  intros w'.
  assert (H : batch_rel w w').
  { subst w'. unfold batch. destruct (_ || _); [apply batch_rel_refl|].
    destruct (dict_get params "halt") as [halt|]; [|apply batch_rel_refl].
    destruct (dict_get params "cmd") as [[| | | | |cmd]|]; try apply batch_rel_refl.
    pose proof (batch_rel_loop (sorted (dict_keys cmd)) fuel halt cmd 0 []
                  empty_result w) as Hl.
    by destruct (batch_loop _ _ _ _ _ _ _ _ _) as [w1 [| |]]. }
  destruct H as (Hs & Hf & new & Ht & Hall).
  split; [done|]. split; [done|]. exists new. split; [done|]. split.
  - clear Ht. induction Hall as [|ev new Hev _ IH]; [constructor|].
    destruct ev; simpl in *; try done.
    destruct Hev as [[-> _]|[p Hp]]; [|done]. by constructor.
  - clear Ht. induction Hall as [|ev new Hev _ IH]; [constructor|].
    destruct ev; simpl in *; try done.
    destruct Hev as [->|[p Hp]]; [|done]. by constructor.
Qed.

End BatchFrame.

Section UnknownContainer.

Variable urlencode : pyval -> string.

Lemma merge_one_fuel (tr : pyval) (acc : dict) (i : pyval) :
  merge_one tr acc i <> OutOfFuel.
Proof.
  unfold merge_one.
  destruct (py_getitem tr i) as [t| |] eqn:H1; cbn [res_bind];
    [|done|by apply py_getitem_fuel in H1].
  destruct t; simpl; try done; repeat case_match; try done;
    destruct i; simpl in *; repeat case_match; done.
Qed.

Lemma merge_loop_unknown (tr : dict) (name : string) (x : pyval) (n : nat)
  (keys : list string) :
  forall acc : dict,
  name ∈ keys ->
  dict_get tr name = Some x -> py_len x = Ret n -> (0 < n)%nat ->
  name ∉ dict_keys acc ->
  raises (merge_loop (PyDict tr) (PyStr <$> keys) acc).
Proof.
  induction keys as [|k keys IH]; intros acc Hin Hx Hlen Hn Hacc;
    [by apply elem_of_nil in Hin|].
  rewrite fmap_cons. cbn [merge_loop].
  destruct (decide (k = name)) as [->|Hne].
  - unfold merge_one. simpl. rewrite Hx. cbn [res_bind]. rewrite Hlen. cbn [res_bind].
    apply Nat.ltb_lt in Hn. rewrite Hn.
    apply dict_get_None in Hacc. rewrite Hacc. by eexists.
  - destruct (merge_one (PyDict tr) acc (PyStr k)) as [acc1|e|] eqn:H1.
    + cbn [res_bind]. apply IH; try done.
      * apply elem_of_cons in Hin as [?|?]; [congruence | done].
      * destruct (merge_one_shape _ _ _ _ H1) as [-> _]. done.
    + by eexists.
    + by apply merge_one_fuel in H1.
Qed.

(** X23. [batch] knows four containers only: on sub-calls made of a method
    name and parameter mappings, when the answer to its first request holds,
    in its ['result'], a non-empty entry under any other name (such as
    ['result_time']), merging that answer raises and [batch] returns
    nothing; one chunk has been handed over and one request sent. *)
Theorem batch_unknown_container (fuel : nat) (params : dict) (halt : pyval)
  (cmd t tr : dict) (w : world) (r : response) (name : string) (x : pyval)
  (n : nat) :
  dict_get params "halt" = Some halt ->
  dict_get params "cmd" = Some (PyDict cmd) ->
  dict_wf cmd -> cmd <> [] ->
  (forall k v, dict_get cmd k = Some v -> sub_call v) ->
  truthy (access_token (self w)) = true ->
  net w (requests w) = Responded r ->
  json r = Some (PyDict t) ->
  dict_get t "result" = Some (PyDict tr) ->
  dict_get tr name = Some x -> py_len x = Ret n -> (0 < n)%nat ->
  name ∉ container_names ->
  let out := batch urlencode (S fuel) params w in
  raises out.2
  /\ length (issued w out.1) = 1%nat
  /\ requests out.1 = S (requests w).
Proof.
  intros Hh Hc Hwf Hne Hok Ht Hnet Hj Hres Hx Hlen Hn Hname out.
  assert (Hs : settled (self w) (net w (requests w)) = Some (PyDict t)).
  { rewrite Hnet. simpl. by rewrite Hj. }
  assert (Hm : raises (merge_chunk (PyDict t) empty_result)).
  { unfold merge_chunk. simpl. rewrite Hres. cbn [res_bind py_iter].
    eapply merge_loop_unknown; try done. by eapply dict_get_Some_key. }
  destruct Hm as [e0 Hm].
  destruct (batch_loop_first_flush urlencode (fun _ => True)
              (fun w1 => length (batch_calls (trace w1))
                         = S (length (batch_calls (trace w)))
                         /\ requests w1 = S (requests w))
              (S fuel) halt cmd empty_result w) with (ids := sorted (dict_keys cmd))
              (count := 0%nat) (batch := @nil (string * pyval))
    as (w1 & e & Hl & _ & Hlen1 & Hreq).
  - intros c Hwc Hnc Hsub.
    destruct (call_chunk urlencode fuel halt c
                (log (EvBatchCall [("halt", halt); ("cmd", PyDict c)]) w) (PyDict t))
      as (p' & body & ->); try done.
    { intros k y Hk. apply (Hok k). by apply Hsub. }
    eexists _, _, _, _. split; [done|]. split; [apply Hm|]. split; [done|].
    unfold posted, log. simpl. rewrite batch_calls_post, batch_calls_log.
    rewrite length_app. simpl. split; [lia | done].
  - intros Hs0. apply Hne. apply (f_equal length) in Hs0.
    rewrite sorted_length in Hs0. unfold dict_keys in Hs0.
    rewrite length_fmap in Hs0. by destruct cmd.
  - simpl. by apply sorted_NoDup.
  - intros k. by rewrite sorted_elem.
  - rewrite sorted_length. unfold dict_keys. by rewrite length_fmap.
  - done.
  - subst out. unfold batch, dict_mem. rewrite Hh, Hc. cbn [negb orb].
    rewrite Hl. cbn [fst snd]. split; [by exists e|]. split; [|done].
    unfold issued. rewrite length_drop. lia.
Qed.

End UnknownContainer.

(** * The further properties on sample inputs *)

Lemma refresh_tokens_stores_witness :
  let w := fresh_world (script [token_answer 200 sample_tokens] (Failed (ConnectionError_ None))) in
  tokens (self (refresh_tokens w).1)
  = [("auth_token", PyStr "a1"); ("refresh_token", PyStr "r1")]
  /\ is_tokens_refreshed (self (refresh_tokens w).1) = true.
Proof.
  intros w.
  apply (refresh_tokens_stores w (mkResponse "" (Some sample_tokens) 200) sample_tokens
           (PyStr "a1") (PyStr "r1") eq_refl eq_refl eq_refl eq_refl eq_refl).
Defined.

Lemma authenticate_stores_witness :
  let w := fresh_world (script [token_answer 200 sample_tokens] (Failed (ConnectionError_ None))) in
  tokens (self (authenticate w).1)
  = [("auth_token", PyStr "a1"); ("refresh_token", PyStr "r1")]
  /\ is_tokens_refreshed (self (authenticate w).1) = true.
Proof.
  intros w.
  apply (authenticate_stores w (mkResponse "" (Some sample_tokens) 200) sample_tokens
           (PyStr "a1") (PyStr "r1") eq_refl eq_refl eq_refl eq_refl eq_refl).
Defined.

Lemma oauth_rejection_raises_witness :
  let body := PyDict [("error", PyStr "invalid_grant")] in
  let w := fresh_world (script [token_answer 400 body] (Failed (ConnectionError_ None))) in
  (refresh_tokens w).2 = Raise (TokenRenewFailed_ body 400)
  /\ (authenticate w).2 = Raise (AuthenticationFailed_ body 400)
  /\ self (refresh_tokens w).1 = fresh_client.
Proof.
  intros body w.
  destruct (oauth_rejection_raises w (mkResponse "" (Some body) 400) body
              eq_refl eq_refl) as (H1 & H2 & H3 & _); [done|].
  rewrite H1, H2. done.
Defined.

Lemma refresh_tokens_partial_update_witness :
  let body := PyDict [("access_token", PyStr "a1")] in
  let w := fresh_world (script [token_answer 200 body] (Failed (ConnectionError_ None))) in
  (refresh_tokens w).2 = Raise KeyError_
  /\ access_token (self (refresh_tokens w).1) = PyStr "a1"
  /\ refresh_token (self (refresh_tokens w).1) = PyStr "r0"
  /\ is_tokens_refreshed (self (refresh_tokens w).1) = false.
Proof.
  intros body w.
  destruct (refresh_tokens_partial_update w (mkResponse "" (Some body) 200) body
              (PyStr "a1") KeyError_ eq_refl eq_refl eq_refl eq_refl eq_refl)
    as (H1 & H2 & H3 & H4).
  rewrite H1. done.
Defined.

Lemma call_token_acquisition_fails_witness :
  let w := fresh_world (script [failure_with (PyStr "QUERY_LIMIT_EXCEEDED")]
                          (answer (PyDict []))) in
  call sample_urlencode 5 (PyStr "user.get") (Some [("ID", PyInt 1)]) None None None w
  = (oauth_posted (refresh_grant fresh_client) w, Some [("ID", PyInt 1)],
     Raise (AuthenticationFailed_ (PyDict [("error", PyStr "QUERY_LIMIT_EXCEEDED")]) 401)).
Proof.
  intros w.
  apply (proj1 (call_token_acquisition_fails sample_urlencode 4 (PyStr "user.get")
                  (Some [("ID", PyInt 1)]) None None None w eq_refl)).
  reflexivity.
Defined.

Lemma call_acquires_token_first_witness :
  let w := fresh_world (script [token_answer 200 sample_tokens]
                          (answer (PyDict [("result", PyInt 7)]))) in
  let out := call sample_urlencode 1 (PyStr "user.get") (Some [("ID", PyInt 1)])
               None None None w in
  out.2 = Ret (PyDict [("result", PyInt 7)])
  /\ api_posts (trace out.1.1)
     = [("https://example.bitrix24.com/rest/user.get.json", "ID=(1)&auth=(a1)&")].
Proof.
  intros w out.
  destruct (call_acquires_token_first sample_urlencode 0 (PyStr "user.get")
              (Some [("ID", PyInt 1)]) None None None (Some [("ID", PyInt 1)]) w
              (mkResponse "" (Some sample_tokens) 200)
              (mkResponse "" (Some (PyDict [("result", PyInt 7)])) 200)
              sample_tokens (PyStr "a1") (PyStr "r1") (PyDict [("result", PyInt 7)])
              "ID=(1)&auth=(a1)&"
              eq_refl eq_refl eq_refl eq_refl eq_refl eq_refl eq_refl eq_refl eq_refl
              eq_refl eq_refl) as (H1 & _).
  subst out. rewrite H1. split; reflexivity.
Defined.

Lemma call_returns_decoded_json_witness :
  let v := PyDict [("error", PyStr "QUERY_LIMIT_EXCEEDED")] in
  let w := sample_world (script [Responded (mkResponse "" (Some v) 503)]
                           (answer (PyDict []))) in
  call sample_urlencode 3 (PyStr "user.get") (Some [("ID", PyInt 1)]) None None None w
  = (posted (PyStr "user.get") "ID=(1)&auth=(token)&" w, Some [("ID", PyInt 1)], Ret v).
Proof.
  intros v w.
  apply (proj1 (call_returns_decoded_json sample_urlencode 2 (PyStr "user.get")
                  (Some [("ID", PyInt 1)]) None None None (Some [("ID", PyInt 1)])
                  w w PyNone v "ID=(1)&auth=(token)&" (mkResponse "" (Some v) 503)
                  eq_refl eq_refl eq_refl eq_refl eq_refl eq_refl)).
Defined.

Lemma call_failure_without_error_key_witness :
  let w := sample_world (script [Failed (AuthenticationFailed_ PyNone 401)]
                           (answer (PyDict []))) in
  call sample_urlencode 3 (PyStr "user.get") (Some [("ID", PyInt 1)]) None None None w
  = (posted (PyStr "user.get") "ID=(1)&auth=(token)&" w, Some [("ID", PyInt 1)],
     Ret (PyDict [])).
Proof.
  intros w.
  apply (proj1 (call_failure_without_error_key sample_urlencode 2 (PyStr "user.get")
                  (Some [("ID", PyInt 1)]) None None None (Some [("ID", PyInt 1)])
                  w w PyNone PyNone 401 "ID=(1)&auth=(token)&"
                  eq_refl eq_refl eq_refl eq_refl (or_introl eq_refl) eq_refl)).
Defined.

Lemma call_non_string_code_witness :
  let w := sample_world (script [failure_with (PyInt 5)] (answer (PyDict []))) in
  call sample_urlencode 3 (PyStr "user.get") (Some [("ID", PyInt 1)]) None None None w
  = (posted (PyStr "user.get") "ID=(1)&auth=(token)&" w, Some [("ID", PyInt 1)],
     Raise TypeError_).
Proof.
  intros w.
  apply (call_non_string_code sample_urlencode 2 (PyStr "user.get") (PyInt 5)
           (Some [("ID", PyInt 1)]) None None None (Some [("ID", PyInt 1)])
           w w PyNone "ID=(1)&auth=(token)&" eq_refl eq_refl eq_refl eq_refl).
  - exists (PyDict [("error", PyInt 5)]), 401. split; [by left|]. split; reflexivity.
  - reflexivity.
Defined.

Lemma call_connection_failure_without_request_witness :
  let w := sample_world (script [] (Failed (ConnectionError_ None))) in
  call sample_urlencode 1 (PyStr "user.get") (Some [("ID", PyInt 1)]) None None None w
  = (posted (PyStr "user.get") "ID=(1)&auth=(token)&" w, Some [("ID", PyInt 1)],
     Raise AttributeError_).
Proof.
  intros w.
  apply (call_connection_failure_without_request sample_urlencode 0 (PyStr "user.get")
           (Some [("ID", PyInt 1)]) None None None (Some [("ID", PyInt 1)])
           w w PyNone "ID=(1)&auth=(token)&" eq_refl eq_refl eq_refl eq_refl).
  by left.
Defined.

Lemma call_refresh_renews_auth_witness :
  let w := sample_world (script [failure_with (PyStr "expired_token");
                                 token_answer 200 sample_tokens]
                           (answer (PyDict [("result", PyInt 7)]))) in
  let out := call sample_urlencode 2 (PyStr "user.get") (Some [("ID", PyInt 1)])
               None None None w in
  out.2 = Ret (PyDict [("result", PyInt 7)])
  /\ api_posts (trace out.1.1)
     = [("https://example.bitrix24.com/rest/user.get.json", "ID=(1)&auth=(token)&");
        ("https://example.bitrix24.com/rest/user.get.json", "ID=(1)&auth=(a1)&")].
Proof.
  intros w out.
  destruct (call_refresh_renews_auth sample_urlencode 0 (PyStr "user.get")
              (PyStr "expired_token")
              (Some [("ID", PyInt 1)]) None None None (Some [("ID", PyInt 1)])
              w w PyNone sample_tokens (PyStr "a1") (PyStr "r1")
              (PyDict [("result", PyInt 7)])
              "ID=(1)&auth=(token)&" "ID=(1)&auth=(a1)&"
              (mkResponse "" (Some sample_tokens) 200)
              (mkResponse "" (Some (PyDict [("result", PyInt 7)])) 200)
              eq_refl eq_refl eq_refl eq_refl eq_refl) as (H1 & H2 & _);
    try reflexivity.
  - exists (PyDict [("error", PyStr "expired_token")]), 401.
    split; [by left|]. split; reflexivity.
  - subst out. rewrite H1. split; reflexivity.
Defined.

Lemma call_refresh_rejected_witness :
  let body := PyDict [("error", PyStr "invalid_grant")] in
  let w := sample_world (script [failure_with (PyStr "expired_token");
                                 token_answer 400 body]
                           (answer (PyDict [("result", PyInt 7)]))) in
  (call sample_urlencode 9 (PyStr "user.get") (Some [("ID", PyInt 1)])
     None None None w).2
  = Raise (TokenRenewFailed_ body 400).
Proof.
  intros body w.
  assert (Hf : auth_failure (PyStr "expired_token") (net w (requests w))).
  { exists (PyDict [("error", PyStr "expired_token")]), 401.
    split; [by left|]. split; reflexivity. }
  assert (Hs : status_code (mkResponse "" (Some body) 400) <> 200) by done.
  destruct (call_refresh_rejected sample_urlencode 8 (PyStr "user.get")
              (PyStr "expired_token")
              (Some [("ID", PyInt 1)]) None None None (Some [("ID", PyInt 1)])
              w w PyNone body "ID=(1)&auth=(token)&"
              (mkResponse "" (Some body) 400)
              eq_refl eq_refl eq_refl eq_refl Hf eq_refl eq_refl eq_refl Hs)
    as (H1 & _).
  by rewrite H1.
Defined.

Lemma call_query_limit_trace_witness :
  let w := sample_world (script [failure_with (PyStr "QUERY_LIMIT_EXCEEDED");
                                 failure_with (PyStr "QUERY_LIMIT_EXCEEDED")]
                           (answer (PyDict [("result", PyInt 7)]))) in
  let post := EvPost "https://example.bitrix24.com/rest/user.get.json"
                "ID=(1)&auth=(token)&" 60 in
  let out := call sample_urlencode 3 (PyStr "user.get") (Some [("ID", PyInt 1)])
               None None None w in
  out.2 = Ret (PyDict [("result", PyInt 7)])
  /\ trace out.1.1 = [post; EvSleep 2; post; EvSleep 2; post].
Proof.
  intros w post out.
  destruct (call_query_limit_trace sample_urlencode 2 0 (PyStr "user.get")
              (Some [("ID", PyInt 1)]) None None None w "ID=(1)&auth=(token)&"
              (mkResponse "" (Some (PyDict [("result", PyInt 7)])) 200)
              (PyDict [("result", PyInt 7)])
              eq_refl eq_refl eq_refl eq_refl) as (H1 & H2 & _);
    try reflexivity.
  - intros j Hj. exists (PyDict [("error", PyStr "QUERY_LIMIT_EXCEEDED")]), 401.
    split; [|split; reflexivity]. left.
    destruct j as [|[|j]]; [reflexivity | reflexivity | lia].
  - split; [exact H1 | exact H2].
Defined.

Lemma call_batch_structure_errors_witness :
  let w := sample_world (script [] (answer (PyDict []))) in
  call sample_urlencode 1 (PyStr "batch") None None None None w = (w, None, Raise TypeError_)
  /\ call sample_urlencode 1 (PyStr "batch") (Some [("halt", PyInt 0)]) None None None w
     = (w, Some [("halt", PyInt 0)], Raise KeyError_)
  /\ call sample_urlencode 1 (PyStr "batch")
       (Some [("cmd", PyDict []); ("prepared", PyBool true)]) None None None w
     = (w, Some [("cmd", PyDict []); ("prepared", PyBool true)], Raise KeyError_).
Proof.
  intros w.
  destruct (call_batch_structure_errors sample_urlencode 0 None None None w w PyNone
              eq_refl) as (H1 & H2 & H3).
  split; [exact H1|]. split.
  - apply H2; reflexivity.
  - apply (H3 _ []); reflexivity.
Defined.

Lemma body_ends_with_auth_witness :
  encode_groups sample_urlencode
    ([Some [("ID", PyInt 1)]; None; Some [("x", PyStr "y")]] ++ [Some [("auth", PyStr "t")]])
    ""
  = Ret ("ID=(1)&x=(y)&" +:+ sample_urlencode (PyDict [("auth", PyStr "t")]) +:+ "&").
Proof.
  apply (proj1 (body_ends_with_auth sample_urlencode
                  [Some [("ID", PyInt 1)]; None; Some [("x", PyStr "y")]] (PyStr "t") _)).
  exists "ID=(1)&x=(y)&". split; reflexivity.
Defined.

Lemma batch_group_encoding_witness :
  exists p',
    call_prepare sample_urlencode (PyStr "batch") (Some three_params) = (Some p', Ret tt)
    /\ encode_group sample_urlencode p'
       = Ret ("cmd=(a=(user.get?ID=(1)&))&cmd=(b=(user.get?ID=(2)&))&"
              +:+ "cmd=(c=(crm.lead.list?))&&halt=(0)&")
    /\ dict_get p' "prepared" = Some (PyBool true).
Proof.
  destruct (batch_group_encoding sample_urlencode three_params three_calls (PyInt 0))
    as (p' & H1 & H2 & H3 & _); try reflexivity.
  - distinct_keys.
  - unfold three_calls. accepted_entries.
  - exists p'. split; [exact H1|]. split; [|exact H3].
    rewrite H2. vm_compute. reflexivity.
Defined.

Lemma prepare_batch_first_fault_witness :
  let d := [("c", PyList [PyStr "x"; PyDict []]);
            ("b", PyList [PyStr "batch"; PyDict []]);
            ("a", PyList [PyStr "user.get"; PyDict []])] in
  let d2 := [("a", PyList [PyStr "user.get"; PyInt 3]); ("b", PyList [PyStr "batch"])] in
  (exists d',
     prepare_batch sample_urlencode (PyDict d)
     = (PyDict d', Raise (Exception_ "Batch call cannot contain batch methods"))
     /\ dict_get d' "a" = Some (PyList [PyDict []])
     /\ dict_get d' "b" = Some (PyList [PyDict []])
     /\ dict_get d' "c" = Some (PyList [PyStr "x"; PyDict []]))
  /\ (exists d',
        prepare_batch sample_urlencode (PyDict d2) = (PyDict d', Raise TypeError_)
        /\ dict_get d' "a" = Some (PyList [PyInt 3])
        /\ dict_get d' "b" = Some (PyList [PyStr "batch"])).
Proof.
  intros d d2. split.
  - destruct (prepare_batch_first_fault sample_urlencode d ["a"] ["c"] "b"
                (PyList [PyStr "batch"; PyDict []])
                (Exception_ "Batch call cannot contain batch methods"))
      as (d' & H1 & _ & Ha & Hb & Hc); try reflexivity.
    + distinct_keys.
    + intros j Hj. apply list_elem_of_singleton in Hj as ->.
      eexists. split; [reflexivity|].
      eexists _, _. repeat split; try done. repeat constructor. by eexists.
    + exists d'. split; [exact H1|]. split; [|split; [exact Hb|]].
      * rewrite Ha by by left. reflexivity.
      * rewrite Hc by by left. reflexivity.
  - destruct (prepare_batch_first_fault sample_urlencode d2 [] ["b"] "a"
                (PyList [PyStr "user.get"; PyInt 3]) TypeError_)
      as (d' & H1 & _ & _ & Hb & Hc); try reflexivity.
    + distinct_keys.
    + intros j Hj. by apply elem_of_nil in Hj.
    + exists d'. split; [exact H1|]. split; [exact Hb|].
      rewrite Hc by by left. reflexivity.
Defined.

Lemma prepare_batch_not_repeatable_witness :
  exists out,
    (prepare_batch sample_urlencode (PyDict three_calls)).2 = Ret out
    /\ ((prepare_batch sample_urlencode
           (prepare_batch sample_urlencode (PyDict three_calls)).1).2 = Raise IndexError_
        \/ (prepare_batch sample_urlencode
              (prepare_batch sample_urlencode (PyDict three_calls)).1).2 = Raise TypeError_).
Proof.
  apply (prepare_batch_not_repeatable sample_urlencode three_calls).
  - distinct_keys.
  - discriminate.
  - unfold three_calls. accepted_entries.
Defined.

Lemma merge_two_dicts_shallow_witness :
  dict_keys (merge_two_dicts [("a", PyInt 1); ("b", PyInt 2)] [("c", PyInt 4); ("b", PyInt 3)])
  = dict_keys [("a", PyInt 1); ("b", PyInt 2)]
    ++ filter (fun k => k ∉ dict_keys [("a", PyInt 1); ("b", PyInt 2)])
         (dict_keys [("c", PyInt 4); ("b", PyInt 3)]).
Proof.
  apply (merge_two_dicts_shallow [("a", PyInt 1); ("b", PyInt 2)]
           [("c", PyInt 4); ("b", PyInt 3)]); distinct_keys.
Defined.

Lemma batch_result_shape_witness :
  let w := sample_world
             (script [] (answer (PyDict [("result", PyDict [("result", PyDict [("a", PyInt 1)])])]))) in
  exists acc,
    (batch sample_urlencode 1 three_params w).2 = Ret (PyDict [("result", PyDict acc)])
    /\ dict_keys acc = container_names.
Proof.
  intros w.
  destruct (batch_result_shape sample_urlencode 1 three_params w
              (PyDict [("result",
                        PyDict [("result_error", PyDict []);
                                ("result_total", PyDict []);
                                ("result", PyDict [("a", PyInt 1)]);
                                ("result_next", PyDict [])])]))
    as [H|(acc & H & Hk & _)].
  - vm_compute. reflexivity.
  - discriminate H.
  - exists acc. split; [|exact Hk]. rewrite <- H. vm_compute. reflexivity.
Defined.

Lemma batch_empty_cmd_witness :
  let w := sample_world (script [] (Failed (ConnectionError_ None))) in
  batch sample_urlencode 0 [("halt", PyInt 1); ("cmd", PyDict [])] w
  = (w, Ret (PyDict [("result", PyDict empty_result)])).
Proof.
  intros w.
  apply (batch_empty_cmd sample_urlencode 0 [("halt", PyInt 1); ("cmd", PyDict [])]
           (PyInt 1) w eq_refl eq_refl).
Defined.

Lemma batch_chunk_contents_witness :
  let w := sample_world (script [] (answer (PyDict [("result", PyDict [])]))) in
  Forall (chunk_of (PyInt 0) three_calls)
    (issued w (batch sample_urlencode 1 three_params w).1).
Proof.
  intros w.
  apply (batch_chunk_contents sample_urlencode 1 three_params (PyInt 0) three_calls w
           eq_refl eq_refl).
  distinct_keys.
Defined.

Lemma batch_failed_chunk_raises_witness :
  let url := "https://example.bitrix24.com/rest/batch.json" in
  let w := sample_world (script [] (Failed (ConnectionError_ (Some url)))) in
  (batch sample_urlencode 1 three_params w).2 = Raise KeyError_
  /\ requests (batch sample_urlencode 1 three_params w).1 = 1%nat.
Proof.
  intros url w.
  destruct (batch_failed_chunk_raises sample_urlencode 0 three_params (PyInt 0)
              three_calls w eq_refl eq_refl) as (H1 & _ & H2).
  - distinct_keys.
  - discriminate.
  - unfold three_calls. accepted_entries.
  - reflexivity.
  - left. by exists url.
  - split; [exact H1 | exact H2].
Defined.

Lemma batch_unknown_container_witness :
  let v := PyDict [("result", PyDict [("result", PyDict []);
                                      ("result_time", PyDict [("a", PyInt 1)])])] in
  let w := sample_world (script [] (answer v)) in
  raises (batch sample_urlencode 1 three_params w).2.
Proof.
  intros v w.
  apply (batch_unknown_container sample_urlencode 0 three_params (PyInt 0) three_calls
           [("result", PyDict [("result", PyDict []);
                               ("result_time", PyDict [("a", PyInt 1)])])]
           [("result", PyDict []); ("result_time", PyDict [("a", PyInt 1)])]
           w (mkResponse "" (Some v) 200) "result_time" (PyDict [("a", PyInt 1)]) 1
           eq_refl eq_refl); try reflexivity.
  - distinct_keys.
  - discriminate.
  - unfold three_calls. accepted_entries.
  - lia.
  - apply (bool_decide_unpack _). vm_compute. exact I.
Defined.

Lemma call_keeps_settings_witness :
  let w := sample_world (script [failure_with (PyStr "expired_token");
                                 token_answer 200 sample_tokens]
                           (answer (PyDict []))) in
  let c' := self (call sample_urlencode 2 (PyStr "user.get") None None None None w).1.1 in
  domain c' = "https://example.bitrix24.com" /\ timeout c' = 60
  /\ oauth_url c' = default_oauth_url.
Proof.
  intros w c'.
  destruct (call_keeps_settings sample_urlencode 2 (PyStr "user.get") None None None
              None w) as (H1 & _ & _ & _ & H5 & H6 & _).
  split; [exact H1|]. split; [exact H6 | exact H5].
Defined.

(** * A single chunk *)

Lemma merge_loop_other (tr : pyval) (keys : list string) :
  forall (acc acc' : dict) (i : string),
  merge_loop tr (PyStr <$> keys) acc = Ret acc' -> i ∉ keys ->
  dict_get acc' i = dict_get acc i.
Proof.
  induction keys as [|k keys IH]; intros acc acc' i H Hi.
  - by injection H as <-.
  - rewrite fmap_cons in H. cbn [merge_loop] in H.
    destruct (merge_one tr acc (PyStr k)) as [acc1| |] eqn:H1; cbn [res_bind] in H;
      [|done|done].
    apply not_elem_of_cons in Hi as [Hik Hi].
    rewrite (IH acc1 acc' i H Hi). by eapply merge_one_other.
Qed.

Lemma merge_loop_returns (tr : dict) (keys : list string) :
  forall acc : dict,
  NoDup keys ->
  (forall k, k ∈ keys -> exists x, dict_get tr k = Some (PyDict x)) ->
  (forall k, k ∈ keys -> exists y, dict_get acc k = Some (PyDict y)) ->
  exists acc', merge_loop (PyDict tr) (PyStr <$> keys) acc = Ret acc'.
Proof.
  induction keys as [|k keys IH]; intros acc Hnd Htr Hacc; [by eexists|].
  apply NoDup_cons in Hnd as [Hk Hnd]. rewrite fmap_cons. cbn [merge_loop].
  destruct (Htr k) as [x Hx]; [by left|]. destruct (Hacc k) as [y Hy]; [by left|].
  assert (H1 : exists acc1, merge_one (PyDict tr) acc (PyStr k) = Ret acc1).
  { unfold merge_one. simpl. rewrite Hx. simpl.
    destruct x as [|kv x]; simpl; [by eexists|]. rewrite Hy. simpl. by eexists. }
  destruct H1 as [acc1 H1]. rewrite H1. cbn [res_bind].
  apply IH; [done | |].
  - intros j Hj. apply Htr. by right.
  - intros j Hj. rewrite (merge_one_other _ _ _ _ _ H1) by (intros ->; done).
    apply Hacc. by right.
Qed.

Section SingleChunk.

Variable urlencode : pyval -> string.

(** The loop when all the ids fit in one chunk and its answer merges. *)
Lemma batch_loop_single (Q : world -> dict -> Prop)
  (fuel : nat) (halt : pyval) (cmd acc : dict) (w : world) :
  (forall c,
     dict_wf c -> c <> [] ->
     (forall k v, dict_get c k = Some v -> dict_get cmd k = Some v) ->
     exists w1 p1' temp acc',
       call urlencode fuel (PyStr "batch") (Some [("halt", halt); ("cmd", PyDict c)])
         None None None (log (EvBatchCall [("halt", halt); ("cmd", PyDict c)]) w)
       = (w1, p1', Ret temp)
       /\ merge_chunk temp acc = Ret acc' /\ Q w1 acc') ->
  forall (ids : list string) (count : nat) (batch : dict),
  ids <> [] ->
  NoDup (dict_keys batch ++ ids) ->
  (forall k, k ∈ ids -> k ∈ dict_keys cmd) ->
  (count + length ids = length cmd)%nat ->
  (length batch + length ids <= 49)%nat ->
  (forall k v, dict_get batch k = Some v -> dict_get cmd k = Some v) ->
  exists w1 acc',
    batch_loop urlencode fuel ids halt cmd count batch acc w = (w1, Ret acc')
    /\ Q w1 acc'.
Proof.
  intros Hcall.
  induction ids as [|i ids IH]; intros count batch Hne Hnd Hin Hlen Hfit Hsub; [done|].
  destruct (dict_get_key_Some cmd i) as [v Hv]; [apply Hin; by left|].
  assert (Hfresh : dict_get batch i = None).
  { apply dict_get_None. intros Hi. apply NoDup_app in Hnd as (_ & Hd & _).
    apply (Hd i Hi). by left. }
  assert (Hkeys : dict_keys (dict_set batch i v) = dict_keys batch ++ [i]).
  { rewrite dict_set_fresh by done. unfold dict_keys. by rewrite fmap_app. }
  assert (Hl : length (dict_set batch i v) = S (length batch)).
  { rewrite dict_set_fresh by done. rewrite length_app. simpl. lia. }
  assert (Hsub' : forall k x, dict_get (dict_set batch i v) k = Some x ->
                              dict_get cmd k = Some x).
  { intros k x. destruct (decide (i = k)) as [<-|Hnk].
    - rewrite dict_get_set_eq. congruence.
    - rewrite dict_get_set_ne by done. apply Hsub. }
  assert (Hnd' : NoDup (dict_keys (dict_set batch i v) ++ ids)).
  { by rewrite Hkeys, <- app_assoc. }
  simpl in Hlen, Hfit. cbn [batch_loop]. rewrite Hv, Hl.
  destruct ids as [|j ids].
  - assert ((S count =? length cmd)%nat = true) as -> by (apply Nat.eqb_eq; simpl in *; lia).
    rewrite orb_true_r.
    destruct (Hcall (dict_set batch i v)) as (w1 & p1' & temp & acc' & -> & -> & Hq).
    + unfold dict_wf. by apply NoDup_app in Hnd' as (Hd & _).
    + rewrite dict_set_fresh by done. by destruct batch.
    + done.
    + by exists w1, acc'.
  - assert ((S (length batch) =? 49)%nat = false) as ->
      by (apply Nat.eqb_neq; simpl in *; lia).
    assert ((S count =? length cmd)%nat = false) as ->
      by (apply Nat.eqb_neq; simpl in *; lia).
    cbn [orb]. apply IH; try done.
    + intros k Hk. apply Hin. by right.
    + lia.
    + rewrite Hl. simpl in *. lia.
Qed.

(** X27. For up to 49 sub-calls, each made of a method name and parameter
    mappings, [batch] is transparent: it makes one request, and when the
    answer holds a ['result'] mapping made of some of the four containers,
    the aggregate it returns holds each container of the answer as it came,
    and an empty mapping for each container the answer left out. *)
Theorem batch_single_chunk (fuel : nat) (params : dict) (halt : pyval)
  (cmd t tr : dict) (w : world) (r : response) :
  dict_get params "halt" = Some halt ->
  dict_get params "cmd" = Some (PyDict cmd) ->
  dict_wf cmd -> cmd <> [] -> (length cmd <= 49)%nat ->
  (forall k v, dict_get cmd k = Some v -> sub_call v) ->
  truthy (access_token (self w)) = true ->
  net w (requests w) = Responded r ->
  json r = Some (PyDict t) ->
  dict_get t "result" = Some (PyDict tr) ->
  dict_wf tr ->
  (forall k v, dict_get tr k = Some v -> k ∈ container_names /\ exists x, v = PyDict x) ->
  let out := batch urlencode (S fuel) params w in
  exists acc,
    out.2 = Ret (PyDict [("result", PyDict acc)])
    /\ dict_keys acc = container_names
    /\ (forall name, name ∈ container_names ->
          dict_get acc name = Some (default (PyDict []) (dict_get tr name)))
    /\ requests out.1 = S (requests w)
    /\ length (issued w out.1) = 1%nat.
Proof.
  intros Hh Hc Hwf Hne Hfit Hok Ht Hnet Hj Hres Hwtr Htr out.
  assert (Hs : settled (self w) (net w (requests w)) = Some (PyDict t)).
  { rewrite Hnet. simpl. by rewrite Hj. }
  assert (Hempty : forall k, k ∈ container_names -> dict_get empty_result k = Some (PyDict [])).
  { intros k Hk. unfold container_names in Hk.
    repeat (apply elem_of_cons in Hk as [->|Hk]; [done|]). by apply elem_of_nil in Hk. }
  destruct (merge_loop_returns tr (dict_keys tr) empty_result Hwtr) as [acc Hm].
  { intros k Hk. destruct (dict_get_key_Some tr k Hk) as [v Hv].
    destruct (Htr k v Hv) as [_ [x ->]]. by exists x. }
  { intros k Hk. destruct (dict_get_key_Some tr k Hk) as [v Hv].
    destruct (Htr k v Hv) as [Hn _]. exists []. by apply Hempty. }
  assert (Hmc : merge_chunk (PyDict t) empty_result = Ret acc).
  { unfold merge_chunk. simpl. rewrite Hres. done. }
  destruct (batch_loop_single
              (fun w1 acc' => acc' = acc
                              /\ length (batch_calls (trace w1))
                                 = S (length (batch_calls (trace w)))
                              /\ requests w1 = S (requests w))
              (S fuel) halt cmd empty_result w) with (ids := sorted (dict_keys cmd))
              (count := 0%nat) (batch := @nil (string * pyval))
    as (w1 & acc' & Hl & -> & Hlen1 & Hreq).
  - intros c Hwc Hnc Hsub.
    destruct (call_chunk urlencode fuel halt c
                (log (EvBatchCall [("halt", halt); ("cmd", PyDict c)]) w) (PyDict t))
      as (p' & body & ->); try done.
    { intros k y Hk. apply (Hok k). by apply Hsub. }
    eexists _, _, _, _. split; [done|]. split; [apply Hmc|]. split; [done|].
    unfold posted, log. simpl. rewrite batch_calls_post, batch_calls_log.
    rewrite length_app. simpl. split; [lia | done].
  - intros Hs0. apply Hne. apply (f_equal length) in Hs0.
    rewrite sorted_length in Hs0. unfold dict_keys in Hs0.
    rewrite length_fmap in Hs0. by destruct cmd.
  - simpl. by apply sorted_NoDup.
  - intros k. by rewrite sorted_elem.
  - rewrite sorted_length. unfold dict_keys. by rewrite length_fmap.
  - simpl. rewrite sorted_length. unfold dict_keys. by rewrite length_fmap.
  - done.
  - exists acc. subst out. unfold batch, dict_mem. rewrite Hh, Hc. cbn [negb orb].
    rewrite Hl. cbn [fst snd]. split; [done|].
    destruct (merge_loop_shape _ _ _ _ Hm) as [Hk _].
    split; [done|]. split; [|split; [done|]].
    + intros name Hname. destruct (dict_get tr name) as [v|] eqn:Hv.
      * destruct (Htr name v Hv) as [_ [x ->]].
        rewrite (merge_loop_get tr (dict_keys tr) empty_result acc x [] name Hwtr Hm Hv)
          by by apply Hempty.
        destruct (decide (name ∈ dict_keys tr)) as [|Hn];
          [|exfalso; apply Hn; by eapply dict_get_Some_key].
        simpl. by destruct x.
      * rewrite (merge_loop_other _ _ _ _ name Hm) by by apply dict_get_None.
        by apply Hempty.
    + unfold issued. rewrite length_drop. lia.
Qed.

End SingleChunk.

Lemma batch_single_chunk_witness :
  let tr := [("result", PyDict [("a", PyInt 1); ("b", PyInt 2)]);
             ("result_error", PyDict [("c", PyStr "failed")])] in
  let w := sample_world (script [] (answer (PyDict [("result", PyDict tr)]))) in
  exists acc,
    (batch sample_urlencode 1 three_params w).2 = Ret (PyDict [("result", PyDict acc)])
    /\ dict_get acc "result" = Some (PyDict [("a", PyInt 1); ("b", PyInt 2)])
    /\ dict_get acc "result_error" = Some (PyDict [("c", PyStr "failed")])
    /\ dict_get acc "result_next" = Some (PyDict []).
Proof.
  intros tr w.
  destruct (batch_single_chunk sample_urlencode 0 three_params (PyInt 0) three_calls
              [("result", PyDict tr)] tr w
              (mkResponse "" (Some (PyDict [("result", PyDict tr)])) 200)
              eq_refl eq_refl) as (acc & H1 & _ & Hget & _); try reflexivity.
  - distinct_keys.
  - discriminate.
  - simpl. lia.
  - unfold three_calls. accepted_entries.
  - distinct_keys.
  - intros k v. unfold tr. cbn [dict_get].
    destruct (String.eqb_spec "result" k) as [<-|_].
    { intros [= <-]. split; [|by eexists]. apply (bool_decide_unpack _). vm_compute. exact I. }
    destruct (String.eqb_spec "result_error" k) as [<-|_]; [|discriminate].
    intros [= <-]. split; [|by eexists]. apply (bool_decide_unpack _). vm_compute. exact I.
  - exists acc. split; [exact H1|].
    split; [|split]; rewrite Hget; try reflexivity;
      apply (bool_decide_unpack _); vm_compute; exact I.
Defined.

(** * Chunking and the requests of [batch] *)





Section BatchRequests.

Variable urlencode : pyval -> string.



End BatchRequests.


